(* ===== verification/_CoqProject ===== *)
-Q . S2P
Prelude.v
Moment.v
Types.v
Spec.v
MeetingId.v
JoinMeeting.v
Status.v
Toasts.v
Listing.v
Forms.v
Fields.v
Session.v
EditMeeting.v
Navigation.v
Header.v
FormViews.v
EditView.v
Tables.v
App.v
JoinPage.v
