(* ===== verification/Prelude.v ===== *)
(** * A verification development of the reactzoomclone meeting application

    The repository (TypeScript, React + Redux + Firebase) lets users sign
    in with Google, create meetings (one-on-one, video conference, or
    open to anyone), list them, edit them and join them through the Zego
    video SDK.  The decision logic the spec calls the eligibility
    resolver and the status classifier is written inline in
    [src/src/pages/JoinMeeting.tsx], [pages/MyMeetings.tsx] and
    [pages/Meeting.tsx], on top of the [moment] date library.  Around it
    sit the creation forms and the edit flyout, which write the
    [meetings] collection the decisions read; the toast queue the
    decisions report through; the identifier generator; and the session,
    theme and routing code.

    ** How the parts interact

    The forms ([Forms]) and the flyout ([EditMeeting]) write documents.
    The listings ([Listing]) and the join page ([JoinMeeting]) read them,
    and the tables' Status column ([Status]) classifies them.  Every
    page reports through the toast queue ([Toasts]), and the identifier
    of a meeting ([MeetingId]) is the [:id] of the join route
    ([Navigation]).  [Spec] states the contract the pages are checked
    against.  [EditMeeting] also holds the store-level relation
    [uiWrite] (every write the interface can make) and the stores it
    reaches, on which the cross-page invariants are proved.  [EditView]
    connects the pages to that relation: a tab of My Meetings, driven by
    the events its rendered table and flyout accept, only makes writes
    of [uiWrite]; two tabs interleaved on one store do not.

    ** Files, in dependency order, and what they model

    - [Prelude] (this file): the [js_scope] notations [===] and [!==]
      (strict equality); the array helpers the code uses ([findIndex],
      [a[i]], [filter]); the tactics [zlia] (lia after Euclidean division
      is made explicit), [by_eval] and [witness]; the hint databases
      [zoom] and [zoom_rw]; the shared lemmas on lists and strings.
    - [Moment]: the date layer behind the class [MomentLib] ([m_format] is
      [moment(t).format("L")], [m_parse] is [moment(string)]).  The class
      [MomentLaws] states what the pages rely on.  The instance [moment_en]
      implements it with the proleptic Gregorian calendar (module
      [Calendar]), the [MM/DD/YYYY] printer ([Printer], moment's
      [zeroFill]) and V8's legacy reader ([Reader]).  [RoundTrip] proves
      the print/parse round trip and [Iso] the one of [toISOString].
    - [Types]: the records and enums of [utils/types.ts], the auth
      slice's [userInfo], and the Firestore document and Firebase user
      shapes the code reads.
    - [Spec]: the contract of spec sections 4.2 and 4.3 ([resolve],
      [classify], [eligible]) and what callers must do
      ([caller_effects]).
    - [MeetingId]: [generateMeetingID], with [Math.random()] as a
      sequence of 53-bit draws [k / 2^53].
    - [JoinMeeting] (module [Join]): [getMeetingData] and its decision
      [joinDecision], as the ordered list of [setIsAllowed],
      [createToast] and [navigate] calls, plus [myMeeting]'s room
      arguments.
    - [Status]: the Status cell of both tables and the edit guard.
    - [Toasts]: the meetings slice, [createToast], [removeToast], and the
      step relation [reach] of dispatches.
    - [Listing]: the [forEach] filter of [Meeting.tsx] and the
      [createdBy] query of [MyMeetings.tsx].
    - [Forms]: ECMAScript [parseInt], the size field's [onChange], and
      [validateForm] / [createMeeting] of both creation forms.
    - [Fields] (module [Fields]): the five components of
      [components/FormComponents/], as records of what they render and
      the handlers they attach.
    - [Session]: the auth reducers and callbacks ([Auth]); [login]'s
      registration and [useFetchUsers] ([Users]); and the theme of a tab
      across reloads ([Theme]).
    - [EditMeeting] (module [Edit]): the flyout as a state and actions,
      [editMeeting], the page's open and close handlers, Firestore's
      [addDoc] / [updateDoc], and [uiWrite] / [reachable].
    - [Navigation] (module [Nav]): the route table, the breadcrumbs, the
      page cards and the copy link.
    - [Header] (module [HeaderView]): [components/Header.tsx], the
      items of the header at a window width (the responsive layout under
      480 px), the greeting, and the logout button's callback.
    - [FormViews] (module [Views]): the two creation pages
      ([OneOnOneMeeting.tsx], [VideoConference.tsx]) as a page state, its
      view built from [Fields], the inputs the rendered page accepts
      ([oneOnOneAvailable], [videoAvailable]), a step function per input
      and runs of inputs.
    - [EditView] (module [EditView]): the rendered edit flyout and the
      inputs it offers, runs of it ([runEdit]), and a tab of My Meetings
      as a state machine over the shared store ([tabStep], [runTab]),
      with two tabs interleaved ([runTabs]).
    - [Tables] (module [Tables]): the rows of the Meetings and My
      Meetings tables ([EuiBasicTable] columns) and the flyout the page
      mounts.
    - [App] (module [App]): the application state (the [meetings] and
      [users] collections, the Redux store of [app/store.ts], the
      router's location); the interpretation on it of a creation
      handler's calls ([applyForm]) and of the session code's calls
      ([applySession]); the route guard, mounting the page [App.tsx]
      routes to, running the auth listener it registers ([useAuth]'s or
      [Login]'s) and following its navigation until a page stays
      ([settle]); and the login page with its button ([loginClick]).
    - [JoinPage] (module [JoinPage]): [JoinMeeting] as a component on
      the application state: its [isAllowed] / [user] / [userLoaded]
      states, the listener's reports, the effect that depends on
      [userLoaded], and the room it renders.

    ** What the theorems show

    - Refinement: the join page implements [Spec.resolve] +
      [caller_effects] for active dated restricted meetings (video
      conference: every requester but the not-yet case; one-on-one: every
      admitted requester).  The Status cell implements [Spec.classify]
      on every printed date.  The Meetings page lists exactly the
      [Spec.eligible] meetings when one-on-one meetings have at most one
      invitee.  A one-on-one meeting created through the page reaches its
      invitee's Meetings page and join page ([App]); a sign-in from the
      login page registers the account once, stores it in the slice,
      lands on the dashboard and makes the account selectable by every
      other user.  The join page decides once per mount, on the first
      account Firebase reports.  The rendered flyout's runs are runs of the abstract
      flyout under [Edit.available], and one My Meetings tab refines
      [Edit.uiWrite] event by event: each event keeps the store or takes
      one [uiWrite] step, so reachable stores stay reachable.
    - Safety of the route guard: once the redirects stop, a visitor
      without an account sees only the login page or a join page, and a
      signed-in visitor never the login page.
    - Invariants by rule induction: unique toast ids while the clock
      advances; unique user documents under sequential sign-ins; on
      every reachable store, one-on-one meetings keep at most one
      invitee, and cancellation is terminal.
    - Functional behaviour of each handler on every branch, errors
      included: creation only on valid input, what an edit keeps and
      resets, idempotent sign-in, the users the flyout pre-selects,
      the join page's single check per mount.
    - Equivalence of the two views of one datum: the My Meetings rows
      are rows of the Meetings table with the same status cell; the
      flyout's pre-selection loop is a map over the invite list.
    - Round trips: [parse_L] after [format_L], [parse_iso] after
      [toISOString], the edit's date string, the join link's route.
    - Bounds: the generator's shape, surjectivity and per-character
      bias; the size field's clamp, and the size state of a page run.
    - Divergences from the spec and bugs, each stated as a theorem with
      its witness: cancelled meetings joinable, anonymous entry through
      an empty one-on-one invite list (reachable by an early edit),
      silent or missing redirects, [maxUsers] reset by edits, same-ms
      toast id collisions, the sign-in race, the theme flag, the video
      form's capacity lost on a type switch, a [NaN] or negative
      [maxUsers] reaching a video conference, a cleared date picker
      blocking every write, a stale tab
      re-activating a meeting another tab cancelled, and an account
      without email entering the application unregistered.

    ** Time model, bounds and fuel

    A clock reading is local time in milliseconds since the epoch, as one
    [Z].  A day is [86400000] ms.  Daylight-saving shifts and other time
    zones are not modelled, because the code only compares dates in one
    browser's local calendar.  The date theorems hold for years
    [100..9999] ([in_range]): [moment] pads [YYYY] to four digits, and V8
    reads a year of value [0..99] as [19xx] or [20xx].  The ISO round
    trip holds for years [0..9999].  The generator's loop takes fuel 8,
    exactly its iteration count: [forLoop_shape] shows the eight
    iterations all run and give eight characters.  The route guard
    ([App.settle]) takes fuel 2: a mount navigates at most once (to
    ["/login"] from a guarded page, to ["/"] from the login page) and the
    page reached does not navigate again; [App.settle_result] computes
    the result for every fuel of at least 2.  Every other definition is
    structurally recursive.  A JavaScript [number] the code can make
    [NaN] ([maxUsers], the size state) is an [option Z] with [None] for
    [NaN]; a [moment.Moment | null] is an [option (option Z)] (or an
    [option Z] where the moment is always valid) with [None] for [null].

    ** Not modelled

    - Firebase Auth's popup, and Firestore beyond [addDoc], [updateDoc]
      and equality queries over an explicit list of documents.
    - The Zego SDK (only the arguments passed to it).
    - Rendering beyond the items and cells the theorems name, CSS, and
      the lazy theme modules.
    - [firebaseConfig.ts], [app/hooks.ts] and [index.tsx]:
      configuration and wiring without decisions.
    - The EUI toast list's 4 s timer, which belongs to the library: only
      the [removeToast] it calls is modelled.
    - [moment]'s locales other than en.
    - Percent-decoding of route parameters.
    - The timing of Firebase's auth listener: it reports the account
      once, right after the page mounts; [Login]'s listener, registered
      on every render and never unsubscribed, is taken as one call per
      mount. *)

From stdpp Require Export base list strings decidable.
From Stdlib Require Export ZArith Lia.

(** ** JavaScript notations *)

Declare Scope js_scope.
Delimit Scope js_scope with js.

(** [a === b] is JavaScript's strict equality on values whose equality
    is decidable (strings, booleans, [undefined] as [None]). *)
Notation "x === y" := (bool_decide (x = y)) (at level 70, no associativity) : js_scope.
Notation "x !== y" := (negb (bool_decide (x = y))) (at level 70, no associativity) : js_scope.

Open Scope js_scope.

(** ** Array helpers with JavaScript's semantics *)

Section ArrayOps.
Context {A : Type}.

(** The position of the first element satisfying [p]. *)
Fixpoint find_pos (p : A -> bool) (l : list A) : option nat :=
  match l with
  | [] => None
  | x :: l' => if p x then Some 0 else S <$> find_pos p l'
  end.

(** [arr.findIndex(p)]: the first index satisfying [p], or [-1]. *)
Definition findIndex (p : A -> bool) (l : list A) : Z :=
  match find_pos p l with Some i => Z.of_nat i | None => (-1)%Z end.

(** [arr[i]] read at a natural index: [undefined] out of range. *)
Definition js_at (l : list A) (i : nat) : option A := l !! i.

(** [arr.filter(p)] keeps the elements for which [p] holds, in order. *)
Definition js_filter (p : A -> bool) (l : list A) : list A := List.filter p l.
End ArrayOps.

(** ** Tactics *)

(** [lia] after Euclidean division and modulo are replaced by their
    defining equations: the form of arithmetic the calendar needs. *)
Ltac zlia := Z.to_euclidean_division_equations; lia.

(** Turn boolean tests of the model into propositions. *)
Ltac js_bool :=
  repeat match goal with
  | H : bool_decide _ = true |- _ => apply bool_decide_eq_true in H
  | H : bool_decide _ = false |- _ => apply bool_decide_eq_false in H
  | H : (_ && _)%bool = true |- _ => apply andb_prop in H as [? ?]
  | H : negb _ = true |- _ => apply negb_true_iff in H
  | H : negb _ = false |- _ => apply negb_false_iff in H
  end.

(** Close a decidable proposition about concrete data by evaluation. *)
Ltac by_eval := refine (bool_decide_unpack _ _); vm_compute; exact I.

(** Discharge one hypothesis of a theorem at a concrete input. *)
Ltac wit_hyp :=
  first [ reflexivity | discriminate | by_eval
        | intros ?; vm_compute; discriminate
        | split; [reflexivity | by_eval] ].

(** Prove [hyps /\ concl] at a concrete input from the theorem [thm]:
    each hypothesis by evaluation, the conclusion by [thm] itself. *)
Ltac witness thm :=
  split; [repeat match goal with |- _ /\ _ => split end; wit_hyp
         | apply thm; wit_hyp].

Create HintDb zoom discriminated.
Create Rewrite HintDb zoom_rw.

(** ** Shared lemmas *)

Section ArrayLemmas.
Context {A : Type}.
Implicit Types (p : A -> bool) (l : list A).

Lemma find_pos_Some p l : is_Some (find_pos p l) <-> Exists (fun x => p x = true) l.
Proof.
  induction l as [|x l IH]; simpl.
  - split; [by intros []|]. intros H; inversion H.
  - rewrite Exists_cons. destruct (p x) eqn:Hp; [split; eauto|].
    rewrite fmap_is_Some, IH. naive_solver.
Qed.

Lemma findIndex_range p l : (-1 <= findIndex p l)%Z.
Proof. unfold findIndex. destruct (find_pos p l); lia. Qed.

Lemma findIndex_found p l : findIndex p l <> (-1)%Z <-> Exists (fun x => p x = true) l.
Proof.
  rewrite <- find_pos_Some. unfold findIndex.
  destruct (find_pos p l); split; intros H; (lia || by eauto || by destruct H).
Qed.

Lemma find_pos_None p l : find_pos p l = None <-> Forall (fun x => p x = false) l.
Proof.
  induction l as [|x l IH]; simpl; [split; auto|].
  rewrite Forall_cons_iff. destruct (p x); [split; [done|naive_solver]|].
  rewrite fmap_None, IH. naive_solver.
Qed.

Lemma findIndex_missing p l : findIndex p l = (-1)%Z <-> Forall (fun x => p x = false) l.
Proof.
  rewrite <- find_pos_None. unfold findIndex.
  destruct (find_pos p l); split; intros; (lia || done).
Qed.

Lemma js_filter_In p l x : In x (js_filter p l) <-> In x l /\ p x = true.
Proof. apply filter_In. Qed.

Lemma js_filter_idem p l : js_filter p (js_filter p l) = js_filter p l.
Proof.
  unfold js_filter. induction l as [|x l IH]; simpl; [done|].
  destruct (p x) eqn:Hp; simpl; [rewrite Hp|]; congruence.
Qed.

Lemma js_filter_all p l : Forall (fun x => p x = true) l -> js_filter p l = l.
Proof.
  unfold js_filter. induction 1 as [|x l Hx _ IH]; simpl; [done|].
  by rewrite Hx, IH.
Qed.

Lemma js_filter_all_false p l : Forall (fun x => p x = false) l -> js_filter p l = [].
Proof.
  unfold js_filter. induction 1 as [|x l Hx _ IH]; simpl; [done|]. by rewrite Hx.
Qed.

Lemma js_filter_app p l1 l2 : js_filter p (l1 ++ l2) = js_filter p l1 ++ js_filter p l2.
Proof. apply filter_app. Qed.

Lemma js_filter_NoDup_map {B} (f : A -> B) p l :
  NoDup (map f l) -> NoDup (map f (js_filter p l)).
Proof.
  unfold js_filter. induction l as [|x l IH]; simpl; [done|].
  rewrite list.NoDup_cons. intros [Hx Hl]. destruct (p x); simpl; [|by apply IH].
  rewrite list.NoDup_cons. split; [|by apply IH].
  rewrite list_elem_of_In in *. intros Hin. apply Hx.
  apply in_map_iff in Hin as (y & <- & Hy). apply in_map. apply filter_In in Hy. tauto.
Qed.
End ArrayLemmas.

Section EqLemmas.
Context {A : Type} `{EqDecision A}.

(** Strict equality on [undefined]-or-value: [a === b] compares the
    optional values, so [undefined === undefined] is [true]. *)
Lemma js_eq_none_none : ((None : option A) === None) = true.
Proof. by apply bool_decide_eq_true. Qed.

Lemma js_eq_some_none (a : A) : (Some a === None) = false.
Proof. by apply bool_decide_eq_false. Qed.

Lemma js_eq_refl (a : A) : (a === a) = true.
Proof. by apply bool_decide_eq_true. Qed.

Lemma some_eq_swap (a b : A) : (Some a === Some b) = (b === a).
Proof. apply Bool.eq_iff_eq_true. rewrite !bool_decide_eq_true. naive_solver. Qed.

(** [l.findIndex((x) => x === r) !== -1] is membership. *)
Lemma index_found (r : A) (l : list A) :
  (findIndex (fun x => Some x === Some r) l !== (-1)%Z) = bool_decide (r ∈ l).
Proof.
  apply Bool.eq_iff_eq_true. rewrite negb_true_iff, bool_decide_eq_false,
    bool_decide_eq_true, findIndex_found, Exists_exists, list_elem_of_In.
  split; [intros (x & Hx & E); js_bool; congruence|].
  intros Hr. exists r. split; [done|]. by apply bool_decide_eq_true.
Qed.

(** [l.findIndex((x) => x === undefined)] on a list of values. *)
Lemma index_anonymous (l : list A) :
  findIndex (fun x => Some x === None) l = (-1)%Z.
Proof.
  apply findIndex_missing, Forall_forall. intros x _. apply js_eq_some_none.
Qed.
End EqLemmas.

(** ** Strings as JavaScript builds them *)

Section StringLemmas.
Local Open Scope string_scope.

Lemma string_length_app (a b : string) :
  String.length (a ++ b)%string = (String.length a + String.length b)%nat.
Proof. induction a as [|x a IH]; simpl; [done|]. by rewrite IH. Qed.

Lemma list_ascii_app (a b : string) :
  String.list_ascii_of_string (a ++ b)%string = (String.list_ascii_of_string a ++ String.list_ascii_of_string b)%list.
Proof. induction a as [|x a IH]; simpl; [done|]. by rewrite IH. Qed.

Lemma get_In n s c : String.get n s = Some c -> In c (String.list_ascii_of_string s).
Proof.
  revert n. induction s as [|x s IH]; intros [|n]; simpl; try done.
  - intros [= ->]. by left.
  - intros H. right. by apply (IH n).
Qed.

Lemma get_lt n s : (n < String.length s)%nat -> exists c, String.get n s = Some c.
Proof.
  revert n. induction s as [|x s IH]; intros [|n]; simpl; try lia; [eauto|].
  intros H. apply IH. lia.
Qed.
Lemma append_nil_r (a : string) : (a ++ "")%string = a.
Proof. induction a as [|x a IH]; [done|]. exact (f_equal (String x) IH). Qed.

Lemma append_assoc (a b c : string) : ((a ++ b) ++ c)%string = (a ++ (b ++ c))%string.
Proof. induction a as [|x a IH]; [done|]. exact (f_equal (String x) IH). Qed.

Lemma append_cons (x : Ascii.ascii) (a b : string) :
  (String x a ++ b)%string = String x (a ++ b)%string.
Proof. reflexivity. Qed.
End StringLemmas.

#[export] Hint Resolve findIndex_range js_eq_refl js_eq_none_none : zoom.
#[export] Hint Rewrite @js_eq_refl @js_eq_none_none @js_eq_some_none : zoom_rw.
