(* ===== verification/Moment.v ===== *)
(** * The date layer: what the pages take from [moment]

    Every date in the application is a string produced by
    [startDate.format("L")] (en locale: [MM/DD/YYYY]).  Every comparison
    is one of [s === moment().format("L")], [moment(s).isBefore(...)] and
    [moment(s).isAfter()].  This file models the three library calls the
    pages make:
    - [Calendar]: the proleptic Gregorian calendar on day numbers, which is
      JavaScript's [Date] calendar, with its round-trip theorem;
    - [Printer]: [moment]'s [zeroFill] and the [MM/DD/YYYY] format;
    - [Reader]: [moment(string)], which for a non-ISO string falls back to
      [new Date(string)] and so to V8's legacy parser;
    - the interface [MomentLib] / [MomentLaws], the instance [moment_en]
      and the proof of its laws. *)

From S2P Require Import Prelude.
From Stdlib Require Import Ascii DecimalString DecimalN DecimalPos.

Open Scope Z_scope.

(** ** The calendar *)

Module Calendar.

Definition ms_per_day : Z := 86400000.

(** The local calendar day of a timestamp, and its midnight. *)
Definition day_of (t : Z) : Z := t / ms_per_day.
Definition midnight (t : Z) : Z := day_of t * ms_per_day.

Record civil := mkCivil { c_year : Z; c_month : Z; c_day : Z }.

(** The year of an era (400 years, from 1 March) in which day [doe] of
    the era falls: three centuries of 36524 days and a last one of
    36525, four-year blocks of 1461 days, years of 365 days with the
    leap day at the end of the fourth. *)
Definition yoe_of_doe (doe : Z) : Z :=
  let c := Z.min (doe / 36524) 3 in
  let doc := doe - 36524 * c in
  let q := doc / 1461 in
  let doq := doc - 1461 * q in
  100 * c + 4 * q + Z.min (doq / 365) 3.

(** Day of the year (from 1 March) once the year of the era is known. *)
Definition doy_from_yoe (doe yoe : Z) : Z := doe - (365 * yoe + yoe / 4 - yoe / 100).

(** Months counted from March ([mp]) and from January ([m]). *)
Definition month_of_mp (mp : Z) : Z := if mp <? 10 then mp + 3 else mp - 9.
Definition mp_of_month (m : Z) : Z := if 2 <? m then m - 3 else m + 9.

(** Day 0 is 1970-01-01; 719468 days separate it from 0000-03-01. *)
Definition civil_from_days (z : Z) : civil :=
  let z' := z + 719468 in
  let era := z' / 146097 in
  let doe := z' - era * 146097 in
  let yoe := yoe_of_doe doe in
  let doy := doy_from_yoe doe yoe in
  let mp := (5 * doy + 2) / 153 in
  let m := month_of_mp mp in
  mkCivil (yoe + era * 400 + (if m <=? 2 then 1 else 0)) m (doy - (153 * mp + 2) / 5 + 1).

(** ECMAScript's [MakeDay(y, m, d)]: the day of date [d] of month [m]
    of year [y], a day past the end of the month rolling over into the
    next one. *)
Definition days_from_civil (y m d : Z) : Z :=
  let y' := y - (if m <=? 2 then 1 else 0) in
  let era := y' / 400 in
  let yoe := y' - era * 400 in
  let doy := (153 * mp_of_month m + 2) / 5 + d - 1 in
  era * 146097 + (365 * yoe + yoe / 4 - yoe / 100 + doy) - 719468.

Definition year_of (t : Z) : Z := c_year (civil_from_days (day_of t)).

Lemma yoe_of_doe_spec doe : 0 <= doe < 146097 ->
  0 <= yoe_of_doe doe <= 399 /\ 0 <= doy_from_yoe doe (yoe_of_doe doe) <= 365.
Proof.
  intros H. unfold doy_from_yoe, yoe_of_doe.
  remember (Z.min (doe / 36524) 3) as c eqn:Ec.
  assert (Hc : 0 <= c <= 3 /\ 0 <= doe - 36524 * c <= 36524) by (subst c; zlia).
  clear Ec. remember (doe - 36524 * c) as doc eqn:Edoc.
  remember (doc / 1461) as q eqn:Eq.
  assert (Hq : 0 <= q <= 24 /\ 0 <= doc - 1461 * q <= 1460) by (subst q; zlia).
  clear Eq. remember (Z.min ((doc - 1461 * q) / 365) 3) as y1 eqn:Ey1.
  assert (Hy1 : 0 <= y1 <= 3 /\ 0 <= doc - 1461 * q - 365 * y1 <= 365)
    by (subst y1; zlia).
  clear Ey1.
  replace ((100 * c + 4 * q + y1) / 4) with (25 * c + q) by zlia.
  replace ((100 * c + 4 * q + y1) / 100) with c by zlia.
  lia.
Qed.

Lemma era_day_range z : 0 <= z + 719468 - (z + 719468) / 146097 * 146097 < 146097.
Proof. zlia. Qed.

Lemma month_of_mp_inv mp : 0 <= mp <= 11 ->
  mp_of_month (month_of_mp mp) = mp /\ (month_of_mp mp <=? 2) = (10 <=? mp) /\
  1 <= month_of_mp mp <= 12.
Proof.
  intros H. unfold mp_of_month, month_of_mp.
  destruct (Z.ltb_spec mp 10).
  - rewrite (proj2 (Z.ltb_lt 2 (mp + 3))), (proj2 (Z.leb_gt (mp + 3) 2)),
      (proj2 (Z.leb_gt 10 mp)) by lia. repeat split; lia.
  - rewrite (proj2 (Z.ltb_ge 2 (mp - 9))), (proj2 (Z.leb_le (mp - 9) 2)),
      (proj2 (Z.leb_le 10 mp)) by lia. repeat split; lia.
Qed.

(** Month and day of every day number are in range. *)
Lemma civil_from_days_range z :
  1 <= c_month (civil_from_days z) <= 12 /\ 1 <= c_day (civil_from_days z) <= 31.
Proof.
  unfold civil_from_days. cbn [c_month c_day].
  destruct (yoe_of_doe_spec _ (era_day_range z)) as [_ Hdoy].
  set (doy := doy_from_yoe _ _) in *.
  destruct (month_of_mp_inv ((5 * doy + 2) / 153)) as (_ & _ & Hm); [zlia|].
  split; [exact Hm|zlia].
Qed.

(** [MakeDay] inverts the calendar: the round trip on day numbers. *)
Theorem days_from_civil_from_days z :
  let c := civil_from_days z in days_from_civil (c_year c) (c_month c) (c_day c) = z.
Proof.
  unfold civil_from_days. cbn [c_year c_month c_day].
  destruct (yoe_of_doe_spec _ (era_day_range z)) as [Hy Hdoy].
  set (era := (z + 719468) / 146097) in *.
  set (doe := z + 719468 - era * 146097) in *.
  set (yoe := yoe_of_doe doe) in *.
  set (doy := doy_from_yoe doe yoe) in *.
  destruct (month_of_mp_inv ((5 * doy + 2) / 153)) as (Hm1 & Hm2 & _); [zlia|].
  unfold days_from_civil. rewrite Hm2, Hm1.
  replace (yoe + era * 400 + (if 10 <=? (5 * doy + 2) / 153 then 1 else 0)
           - (if 10 <=? (5 * doy + 2) / 153 then 1 else 0)) with (yoe + era * 400) by lia.
  replace ((yoe + era * 400) / 400) with era by zlia.
  unfold doy_from_yoe in doy. subst doy doe. zlia.
Qed.

Lemma midnight_bounds t : midnight t <= t < midnight t + ms_per_day.
Proof. unfold midnight, day_of, ms_per_day. zlia. Qed.

Lemma midnight_le_iff t1 t2 : day_of t1 <= day_of t2 <-> midnight t1 <= midnight t2.
Proof. unfold midnight, ms_per_day. lia. Qed.

End Calendar.

(** ** The printer: [moment(t).format("L")] *)

Module Printer.
Import Calendar.
Local Open Scope string_scope.

(** The decimal digits of a natural number, at least one. *)
Definition digits (n : N) : string := NilEmpty.string_of_uint (N.to_uint n).

Fixpoint zeros (k : nat) : string :=
  match k with O => "" | S k => String "0"%char (zeros k) end.

(** [zeroFill(number, targetLength)] of moment's utilities, [forceSign]
    false: the sign, then [0]s up to the target length, then the digits
    of the absolute value. *)
Definition zeroFill (n : Z) (w : nat) : string :=
  let a := digits (Z.to_N (Z.abs n)) in
  (if (0 <=? n)%Z then "" else "-") ++ zeros (w - String.length a) ++ a.

(** The en locale's [L] token is [MM/DD/YYYY]; [MM], [DD] and [YYYY]
    are [zeroFill] of the month, the date and the year at widths 2, 2
    and 4. *)
Definition format_L (t : Z) : string :=
  let c := civil_from_days (day_of t) in
  zeroFill (c_month c) 2 ++ "/" ++ zeroFill (c_day c) 2 ++ "/" ++ zeroFill (c_year c) 4.

End Printer.

(** ** The reader: [moment(s)] for a [MM/DD/YYYY] string *)

Module Reader.
Import Calendar.
Local Open Scope string_scope.

(** [s.split(c)] on one separator character. *)
Fixpoint split_on (c : ascii) (s : string) : list string :=
  match s with
  | EmptyString => [EmptyString]
  | String x s' =>
      if Ascii.eqb x c then EmptyString :: split_on c s'
      else match split_on c s' with
           | [] => [String x EmptyString]
           | h :: t => String x h :: t
           end
  end.

(** A field of decimal digits; empty or non-digit fields are invalid. *)
Definition parse_number (s : string) : option N :=
  match s with
  | EmptyString => None
  | _ => N.of_uint <$> NilEmpty.uint_of_string s
  end.

(** V8 reads a year of value 0..49 as 20xx and 50..99 as 19xx. *)
Definition v8_year (y : Z) : Z :=
  (if (0 <=? y) && (y <=? 49) then y + 2000
   else if (50 <=? y) && (y <=? 99) then y + 1900 else y)%Z.

(** [moment(s)] falls back to [new Date(s)]: a [month/day/year] string
    with a month in 1..12 and a day in 1..31 is the local midnight of
    [MakeDay(year, month, day)]; anything else is an invalid date. *)
Definition parse_L (s : string) : option Z :=
  match split_on "/"%char s with
  | [mm; dd; yy] =>
      m ← parse_number mm; d ← parse_number dd; y ← parse_number yy;
      let m := Z.of_N m in
      let d := Z.of_N d in
      if ((1 <=? m) && (m <=? 12) && (1 <=? d) && (d <=? 31))%Z
      then Some (days_from_civil (v8_year (Z.of_N y)) m d * ms_per_day)
      else None
  | _ => None
  end.

End Reader.

(** ** Print/parse round trip *)

Module RoundTrip.
Import Calendar Printer Reader.
Local Open Scope string_scope.

(** A string free of the separator [c]. *)
Fixpoint no_char (c : ascii) (s : string) : bool :=
  match s with
  | EmptyString => true
  | String x s' => negb (Ascii.eqb x c) && no_char c s'
  end.

(** The decimal digits. *)
Definition digit_chars : list ascii :=
  ["0"; "1"; "2"; "3"; "4"; "5"; "6"; "7"; "8"; "9"]%char.

(** A separator that is not a digit. *)
Definition not_digit (c : ascii) : bool := forallb (fun d => negb (Ascii.eqb d c)) digit_chars.

Lemma split_on_no_char c a : no_char c a = true -> split_on c a = [a].
Proof.
  induction a as [|x a IH]; simpl; [done|].
  intros [Hx Ha]%andb_prop. apply negb_true_iff in Hx. by rewrite Hx, IH.
Qed.

Lemma split_on_app c a b : no_char c a = true ->
  split_on c (a ++ String c EmptyString ++ b) = a :: split_on c b.
Proof.
  induction a as [|x a IH]; simpl; [by rewrite Ascii.eqb_refl|].
  intros [Hx Ha]%andb_prop. apply negb_true_iff in Hx. by rewrite Hx, IH.
Qed.

Lemma split_on_last c a : no_char c a = true ->
  split_on c (a ++ String c EmptyString) = [a; EmptyString].
Proof.
  induction a as [|x a IH]; simpl; [by rewrite Ascii.eqb_refl|].
  intros [Hx Ha]%andb_prop. apply negb_true_iff in Hx. by rewrite Hx, IH.
Qed.

Lemma no_char_app c a b : no_char c (a ++ b) = no_char c a && no_char c b.
Proof. induction a as [|x a IH]; simpl; [done|]. by rewrite IH, andb_assoc. Qed.

Lemma no_char_digits c n : not_digit c = true -> no_char c (digits n) = true.
Proof.
  intros H. unfold not_digit in H. rewrite forallb_forall in H.
  assert (Hd : forall d, In d digit_chars -> Ascii.eqb d c = false).
  { intros d Hin. apply negb_true_iff, H, Hin. }
  unfold digits. generalize (N.to_uint n).
  induction u; cbn [NilEmpty.string_of_uint no_char]; try done;
    rewrite IHu, Hd by (simpl; tauto); done.
Qed.

Lemma no_char_zeros c k : not_digit c = true -> no_char c (zeros k) = true.
Proof.
  intros H. unfold not_digit in H. simpl in H. apply andb_prop in H as [H _].
  apply negb_true_iff in H. induction k; simpl; [done|]. by rewrite H, IHk.
Qed.

Lemma zeroFill_nonneg n w : (0 <= n)%Z ->
  zeroFill n w = zeros (w - String.length (digits (Z.to_N n))) ++ digits (Z.to_N n).
Proof.
  intros H. unfold zeroFill. rewrite Z.abs_eq by done.
  by rewrite (proj2 (Z.leb_le 0 n) H).
Qed.

Lemma no_char_zeroFill c n w : not_digit c = true -> (0 <= n)%Z -> no_char c (zeroFill n w) = true.
Proof.
  intros Hc H. rewrite zeroFill_nonneg, no_char_app, no_char_zeros, no_char_digits by done.
  done.
Qed.

Lemma of_uint_D0 d : N.of_uint (Decimal.D0 d) = N.of_uint d.
Proof.
  rewrite <- (DecimalN.Unsigned.of_uint_norm (Decimal.D0 d)), <- (DecimalN.Unsigned.of_uint_norm d).
  reflexivity.
Qed.

Lemma uint_of_zeros k s d : NilEmpty.uint_of_string s = Some d ->
  exists d', NilEmpty.uint_of_string (zeros k ++ s) = Some d' /\ N.of_uint d' = N.of_uint d.
Proof.
  intros H. induction k as [|k (d' & Hd' & Hn)]; simpl; [eauto|].
  rewrite Hd'. exists (Decimal.D0 d'). by rewrite of_uint_D0.
Qed.

Lemma digits_nonempty n : digits n <> EmptyString.
Proof.
  unfold digits. destruct n as [|p]; simpl; [done|].
  pose proof (DecimalPos.Unsigned.to_uint_nonnil p) as Hp.
  destruct (Pos.to_uint p); simpl; done.
Qed.

Lemma app_nonempty a b : a ++ b = EmptyString -> b = EmptyString.
Proof. by destruct a. Qed.

(** Reading back a [zeroFill]ed field gives the number. *)
Lemma parse_number_zeroFill n w : (0 <= n)%Z ->
  parse_number (zeroFill n w) = Some (Z.to_N n).
Proof.
  intros H. rewrite zeroFill_nonneg by done.
  destruct (uint_of_zeros (w - String.length (digits (Z.to_N n))) (digits (Z.to_N n))
              (N.to_uint (Z.to_N n))) as (d' & Hd' & Hn).
  { apply NilEmpty.usu. }
  unfold parse_number. rewrite DecimalN.Unsigned.of_to in Hn.
  pose proof (digits_nonempty (Z.to_N n)) as Hne.
  destruct (zeros _ ++ digits _) eqn:E.
  - by apply app_nonempty in E.
  - rewrite Hd'. simpl. by rewrite Hn.
Qed.

Lemma v8_year_large y : (100 <= y)%Z -> v8_year y = y.
Proof.
  intros H. unfold v8_year.
  rewrite (proj2 (Z.leb_gt y 49)), (proj2 (Z.leb_gt y 99)) by lia.
  by rewrite !andb_false_r.
Qed.

(** The printed date reads back as the local midnight of its day, for
    every year of four digits from 100 on. *)
Theorem parse_format t : (100 <= year_of t <= 9999)%Z ->
  parse_L (format_L t) = Some (midnight t).
Proof.
  unfold year_of, format_L, parse_L, midnight. intros Hy.
  pose proof (civil_from_days_range (day_of t)) as [Hm Hd].
  pose proof (days_from_civil_from_days (day_of t)) as Hrt.
  set (c := civil_from_days (day_of t)) in *. clearbody c.
  rewrite !split_on_app, split_on_no_char by (apply no_char_zeroFill; [reflexivity|lia]).
  rewrite !parse_number_zeroFill by lia. simpl.
  rewrite !Z2N.id by lia.
  rewrite (proj2 (Z.leb_le 1 (c_month c))), (proj2 (Z.leb_le (c_month c) 12)),
    (proj2 (Z.leb_le 1 (c_day c))), (proj2 (Z.leb_le (c_day c) 31)) by lia.
  simpl. rewrite v8_year_large by lia. by rewrite Hrt.
Qed.

End RoundTrip.

(** ** [Date.prototype.toISOString] *)

Module Iso.
Import Calendar Printer Reader RoundTrip.
Local Open Scope string_scope.

(** [new Date(t).toISOString()] for epoch milliseconds [t] (UTC):
    [YYYY-MM-DDTHH:mm:ss.sssZ], with a signed six-digit year outside
    0..9999. *)
Definition toISOString (t : Z) : string :=
  let c := civil_from_days (t / ms_per_day) in
  let r := (t mod ms_per_day)%Z in
  let y := c_year c in
  (if ((0 <=? y) && (y <=? 9999))%Z then zeroFill y 4
   else (if (y <? 0)%Z then "-" else "+") ++ zeroFill (Z.abs y) 6)
  ++ "-" ++ zeroFill (c_month c) 2 ++ "-" ++ zeroFill (c_day c) 2
  ++ "T" ++ zeroFill (r / 3600000) 2 ++ ":" ++ zeroFill (r / 60000 mod 60) 2
  ++ ":" ++ zeroFill (r / 1000 mod 60) 2 ++ "." ++ zeroFill (r mod 1000) 3 ++ "Z".

(** Reading an ISO string back to the instant it names. *)
Definition parse_iso (s : string) : option Z :=
  match split_on "-"%char s with
  | [ys; mos; rest] =>
    match split_on "T"%char rest with
    | [ds; time] =>
      match split_on ":"%char time with
      | [hs; mis; srest] =>
        match split_on "."%char srest with
        | [ss; msrest] =>
          match split_on "Z"%char msrest with
          | [mss; EmptyString] =>
            y ← parse_number ys; mo ← parse_number mos; d ← parse_number ds;
            h ← parse_number hs; mi ← parse_number mis; se ← parse_number ss;
            ms ← parse_number mss;
            Some (days_from_civil (Z.of_N y) (Z.of_N mo) (Z.of_N d) * ms_per_day
                  + Z.of_N h * 3600000 + Z.of_N mi * 60000 + Z.of_N se * 1000 + Z.of_N ms)%Z
          | _ => None
          end
        | _ => None
        end
      | _ => None
      end
    | _ => None
    end
  | _ => None
  end.

(** The separator side conditions of the round trip. *)
Ltac no_char_tac :=
  rewrite ?no_char_app, ?no_char_zeroFill by (reflexivity || zlia); reflexivity.

(** An identifier of a four-digit year reads back as its instant. *)
Theorem parse_toISOString t :
  (0 <= c_year (civil_from_days (t / ms_per_day)) <= 9999)%Z -> parse_iso (toISOString t) = Some t.
Proof.
  intros Hy. unfold toISOString, parse_iso.
  pose proof (civil_from_days_range (t / ms_per_day)) as [Hm Hd].
  pose proof (days_from_civil_from_days (t / ms_per_day)) as Hrt.
  set (c := civil_from_days (t / ms_per_day)) in *. clearbody c.
  rewrite (proj2 (Z.leb_le 0 (c_year c))), (proj2 (Z.leb_le (c_year c) 9999)) by lia.
  cbn [andb].
  assert (Hr : (0 <= t mod ms_per_day < ms_per_day)%Z) by (unfold ms_per_day; zlia).
  assert (Ht : t = (t / ms_per_day * ms_per_day + t mod ms_per_day)%Z)
    by (unfold ms_per_day; zlia).
  set (r := (t mod ms_per_day)%Z) in *. clearbody r.
  rewrite !split_on_app, split_on_no_char by no_char_tac. cbn iota beta.
  rewrite split_on_app, split_on_no_char by no_char_tac. cbn iota beta.
  rewrite !split_on_app, split_on_no_char by no_char_tac. cbn iota beta.
  rewrite split_on_app, split_on_no_char by no_char_tac. cbn iota beta.
  rewrite split_on_last by no_char_tac. cbn iota beta.
  rewrite !parse_number_zeroFill by zlia. cbn.
  rewrite !Z2N.id by zlia. rewrite Hrt. f_equal. unfold ms_per_day in *. zlia.
Qed.

End Iso.

(** ** The interface the pages use *)

(** What the pages call: [moment(t).format("L")] and [moment(s)], the
    latter [None] for an invalid date. *)
Class MomentLib := {
  m_format : Z -> string;
  m_parse : string -> option Z;
}.

(** Instants whose calendar year prints with four digits and reads back. *)
Definition in_range (t : Z) : Prop := (100 <= Calendar.year_of t <= 9999)%Z.

#[export] Instance in_range_dec t : Decision (in_range t).
Proof. unfold in_range. apply _. Defined.

(** What the pages rely on: a printed date reads back as the midnight of
    its day, and the printed form depends on the day only. *)
Class MomentLaws (M : MomentLib) := {
  m_parse_format : forall t, in_range t -> m_parse (m_format t) = Some (Calendar.midnight t);
  m_format_day : forall t1 t2, Calendar.day_of t1 = Calendar.day_of t2 -> m_format t1 = m_format t2;
}.

Section Comparisons.
Context `{M : MomentLib}.

(** [moment().format("L")]: today's date string. *)
Definition today (now : Z) : string := m_format now.

(** [moment(a).isBefore(b)]: [false] when either date is invalid. *)
Definition isBefore (a b : option Z) : bool :=
  match a, b with Some x, Some y => (x <? y)%Z | _, _ => false end.

(** [moment(a).isAfter()]: later than the current instant. *)
Definition isAfter (a : option Z) (now : Z) : bool :=
  match a with Some x => (now <? x)%Z | None => false end.
End Comparisons.

(** The en-locale [moment] of the application. *)
#[export] Instance moment_en : MomentLib := {|
  m_format := Printer.format_L;
  m_parse := Reader.parse_L;
|}.

Lemma format_L_day t1 t2 :
  Calendar.day_of t1 = Calendar.day_of t2 -> Printer.format_L t1 = Printer.format_L t2.
Proof. unfold Printer.format_L. by intros ->. Qed.

#[export] Instance moment_en_laws : MomentLaws moment_en.
Proof. split; [apply RoundTrip.parse_format | apply format_L_day]. Qed.

(** ** The date comparisons of the pages, from the laws alone *)

Section DateChain.
Context `{M : MomentLib} `{!MomentLaws M}.
Import Calendar.

(** Two printed dates are equal exactly when the days are. *)
Lemma format_inj t1 t2 : in_range t1 -> in_range t2 ->
  m_format t1 = m_format t2 -> day_of t1 = day_of t2.
Proof.
  intros H1 H2 E. pose proof (m_parse_format t1 H1) as P1.
  rewrite E, m_parse_format in P1 by done. injection P1.
  unfold midnight, ms_per_day. lia.
Qed.

(** [meetingDate === moment().format("L")] compares the days. *)
Lemma today_eq t now : in_range t -> in_range now ->
  (m_format t === today now) = (day_of t =? day_of now)%Z.
Proof.
  intros H1 H2. unfold today. apply Bool.eq_iff_eq_true.
  rewrite bool_decide_eq_true, Z.eqb_eq. split; [by apply format_inj|].
  apply m_format_day.
Qed.

(** [moment(meetingDate).isBefore(moment().format("L"))]. *)
Lemma isBefore_today t now : in_range t -> in_range now ->
  isBefore (m_parse (m_format t)) (m_parse (today now)) = (day_of t <? day_of now)%Z.
Proof.
  intros H1 H2. unfold today. rewrite !m_parse_format by done. simpl.
  apply Bool.eq_iff_eq_true. rewrite !Z.ltb_lt. unfold midnight, ms_per_day. lia.
Qed.

(** [moment(meetingDate).isAfter()]: the meeting's midnight is later
    than the current instant exactly when its day is later. *)
Lemma isAfter_now t now : in_range t ->
  isAfter (m_parse (m_format t)) now = (day_of now <? day_of t)%Z.
Proof.
  intros H. rewrite m_parse_format by done. simpl.
  apply Bool.eq_iff_eq_true. rewrite !Z.ltb_lt.
  unfold midnight, day_of, ms_per_day. zlia.
Qed.

(** The chain [date === today ? a : isBefore ? b : isAfter ? c : d] that
    the pages write: on a printed date it is a three-way comparison of
    days, and its last branch [d] is dead. *)
Lemma date_chain {A} t now (a b c d : A) : in_range t -> in_range now ->
  (if m_format t === today now then a
   else if isBefore (m_parse (m_format t)) (m_parse (today now)) then b
   else if isAfter (m_parse (m_format t)) now then c else d)
  = (if (day_of t <? day_of now)%Z then b
     else if (day_of now <? day_of t)%Z then c else a).
Proof.
  intros H1 H2. rewrite today_eq, isBefore_today, isAfter_now by done.
  destruct (Z.eqb_spec (day_of t) (day_of now)) as [E|E].
  - by rewrite E, Z.ltb_irrefl.
  - destruct (Z.ltb_spec (day_of t) (day_of now)); [done|].
    by rewrite (proj2 (Z.ltb_lt (day_of now) (day_of t))) by lia.
Qed.
End DateChain.

#[export] Hint Resolve format_inj : zoom.
