(* ===== verification/Types.v ===== *)
(** * The data of [utils/types.ts]

    The records the pages exchange: the stored meeting, the toast, the user
    row of the [users] collection, the form error and the breadcrumb.  The
    file also holds the Firebase user object that the auth callbacks
    receive; the code reads its [uid], [email] and [displayName]. *)

From S2P Require Import Prelude.

(** [MeetingJoinType]: ["anyone-can-join" | "video-conference" | "1-on-1"]. *)
Inductive MeetingJoinType :=
| AnyoneCanJoin
| VideoConference
| OneOnOne.

#[export] Instance MeetingJoinType_eq_dec : EqDecision MeetingJoinType.
Proof. solve_decision. Defined.

(** [MeetingType]: one document of the [meetings] collection.  [docId]
    is optional; [maxUsers] is a JavaScript number: an integer, or
    [None] for the [NaN] that [parseInt] returns on text it cannot
    read. *)
Record MeetingType := mkMeeting {
  docId : option string;
  createdBy : string;
  invitedUsers : list string;
  maxUsers : option Z;
  meetingDate : string;
  meetingId : string;
  meetingName : string;
  meetingType : MeetingJoinType;
  status : bool;
}.

#[export] Instance MeetingType_eq_dec : EqDecision MeetingType.
Proof. solve_decision. Defined.

(** A document of the [meetings] collection, as [getDocs] returns it:
    [meeting.id] and [meeting.data()]. *)
Record MeetingDoc := mkDoc {
  doc_id : string;
  doc_data : MeetingType;
}.

(** The [color] of a toast: ["success" | "primary" | "warning" |
    "danger" | undefined], [undefined] being [None]. *)
Inductive ToastColor :=
| Success
| Primary
| Warning
| Danger.

#[export] Instance ToastColor_eq_dec : EqDecision ToastColor.
Proof. solve_decision. Defined.

Record ToastType := mkToast {
  id : string;
  title : string;
  color : option ToastColor;
}.

#[export] Instance ToastType_eq_dec : EqDecision ToastType.
Proof. solve_decision. Defined.

(** [UserType]: one document of the [users] collection, with the
    [label] that [useFetchUsers] adds for the combo box.  [Login] stores
    the account's [displayName], which may be [null] ([None]); the
    stored documents have no [label]. *)
Record UserType := mkUser {
  email : string;
  name : option string;
  uid : string;
  label : option string;
}.

#[export] Instance UserType_eq_dec : EqDecision UserType.
Proof. solve_decision. Defined.

Record FieldErrorType := mkFieldError {
  show : bool;
  message : list string;
}.

(** [BreadCrumbsType]: [onClick] is a callback; every callback of the
    code calls [navigate(path)], so it is kept as that path. *)
Record BreadCrumbsType := mkCrumb {
  text : string;
  href : option string;
  onClick : option string;
}.

(** [userInfo] of the auth slice ([app/slices/AuthSlice.ts]).  The
    type says [string]; [useAuth] stores [currentUser.email!] and
    [currentUser.displayName!], which are [null] ([None]) for an
    account without them. *)
Record UserInfo := mkUserInfo {
  ui_uid : string;
  ui_email : option string;
  ui_name : option string;
}.

(** The Firebase [User] object of [onAuthStateChanged] and
    [signInWithPopup]: the fields the code reads. *)
Record AuthUser := mkAuthUser {
  au_uid : string;
  au_email : option string;
  au_displayName : option string;
}.

#[export] Instance AuthUser_eq_dec : EqDecision AuthUser.
Proof. solve_decision. Defined.
