(* ===== verification/Spec.v ===== *)
(** * The contract of the decision layer (spec sections 4.2 to 4.4)

    The abstract specification that the pages are checked against:
    - [resolve]: the access decision for a meeting, a requester and a day;
    - [classify]: the display status of a meeting on a day;
    - [caller_effects]: what the caller must do with each decision (the
      toast and the redirect of spec section 4.2).
    Days are calendar day numbers; a meeting's day is read from its stored
    date string through [moment], so both sides compare dates only. *)

From S2P Require Import Prelude Moment Types.

Open Scope string_scope.

Module Spec.

Inductive AccessDecision :=
| Allowed
| DeniedCancelled
| DeniedEnded
| DeniedNotInvited
| DeniedNotYet (scheduledDate : string)
| NotFound.

#[export] Instance AccessDecision_eq_dec : EqDecision AccessDecision.
Proof. solve_decision. Defined.

Inductive DisplayStatus :=
| Cancelled
| Ended
| JoinNow
| Upcoming.

#[export] Instance DisplayStatus_eq_dec : EqDecision DisplayStatus.
Proof. solve_decision. Defined.

(** Step 3 of [resolve]: open meetings admit everyone, restricted ones
    admit the creator and the invitees; an anonymous requester is not an
    invitee, and a direct invite with no invitee admits no invitee. *)
Definition eligible (m : MeetingType) (requester : option string) : bool :=
  match meetingType m, requester with
  | AnyoneCanJoin, _ => true
  | _, None => false
  | VideoConference, Some r => (r === createdBy m) || bool_decide (r ∈ invitedUsers m)
  | OneOnOne, Some r => (r === createdBy m) || (head (invitedUsers m) === Some r)
  end.

(** A stored meeting whose date was printed by [format("L")] at an
    instant [tc] of four-digit year: its day is [day_of tc]. *)
Definition dated `{MomentLib} (m : MeetingType) (tc : Z) : Prop :=
  meetingDate m = m_format tc /\ in_range tc.

(** [resolve(meeting, requester, now)], first matching rule wins. *)
Definition resolve (meeting : option MeetingType) (requester : option string)
    (meetingDay today : Z) : AccessDecision :=
  match meeting with
  | None => NotFound
  | Some m =>
      if negb (status m) then DeniedCancelled
      else if negb (eligible m requester) then DeniedNotInvited
      else if (meetingDay <? today)%Z then DeniedEnded
      else if (today <? meetingDay)%Z then DeniedNotYet (meetingDate m)
      else Allowed
  end.

(** [classify(meeting, now)]. *)
Definition classify (m : MeetingType) (meetingDay today : Z) : DisplayStatus :=
  if negb (status m) then Cancelled
  else if (meetingDay <? today)%Z then Ended
  else if (meetingDay =? today)%Z then JoinNow
  else Upcoming.

(** What a caller does with a decision: enter the room when allowed;
    otherwise push the notification the decision mandates and leave the
    room.  The redirect target is a parameter. *)
Inductive Effect :=
| SetIsAllowed (b : bool)
| CreateToast (title : string) (type : option ToastColor)
| Navigate (path : string).

#[export] Instance Effect_eq_dec : EqDecision Effect.
Proof. solve_decision. Defined.

Definition ended_title : string := "Meeting has ended.".
Definition not_yet_title (date : string) : string := "Meeting is on " ++ date.
Definition not_invited_title : string := "You are not invited to the meeting.".

Definition caller_effects (d : AccessDecision) (away : string) : list Effect :=
  match d with
  | Allowed => [SetIsAllowed true]
  | DeniedEnded => [CreateToast ended_title (Some Danger); Navigate away]
  | DeniedNotYet date => [CreateToast (not_yet_title date) (Some Warning); Navigate away]
  | DeniedNotInvited => [CreateToast not_invited_title (Some Danger); Navigate away]
  | DeniedCancelled | NotFound => [Navigate away]
  end.

End Spec.
