(* ===== verification/MeetingId.v ===== *)
(** * The meeting identifier generator: [utils/generateMeetingId.ts]

    [generateMeetingID] runs a [for] loop of eight iterations.  Each one
    appends [chars.charAt(Math.floor(Math.random() * maxPos))].  V8's
    [Math.random()] returns [k / 2^53] for a 53-bit integer [k]; the
    generator is modelled on the sequence [rnd] of those integers, the
    [i]-th iteration consuming [rnd i].  The product is taken exactly: the
    rounding of the floating-point product (which can move a draw within
    [2^-47] of a boundary up by one character, never past the last) is not
    modelled.  The theorems give the shape of every identifier, show that
    every string of that shape is reachable, and bound the bias of each
    character. *)

From S2P Require Import Prelude.

Open Scope string_scope.

Module MeetingId.

(** [const chars]. *)
Definition chars : string :=
  "12345qwertyuiopasdfgh67890jklmnbvcxzMNBVCZXASDQWERTYHGFUIOLKJP".

(** [const maxPos = chars.length]. *)
Definition maxPos : Z := Z.of_nat (String.length chars).

(** [Math.random()] is [k / random_scale] for [0 <= k < random_scale]. *)
Definition random_scale : Z := 2 ^ 53.

(** [s.charAt(i)]: the one-character string at [i], or [""] out of range. *)
Definition charAt (s : string) (i : Z) : string :=
  if (0 <=? i)%Z then
    match String.get (Z.to_nat i) s with
    | Some c => String c EmptyString
    | None => EmptyString
    end
  else EmptyString.

(** [Math.floor(Math.random() * maxPos)] for the draw [k]. *)
Definition pick (k : Z) : Z := (k * maxPos / random_scale)%Z.

(** [for (let i = 0; i < 8; i++) meetingID += chars.charAt(...)], with
    [fuel] bounding the iterations. *)
Fixpoint forLoop (rnd : nat -> Z) (fuel i : nat) (meetingID : string) : string :=
  match fuel with
  | O => meetingID
  | S fuel' =>
      if (i <? 8)%nat then forLoop rnd fuel' (S i) (meetingID ++ charAt chars (pick (rnd i)))
      else meetingID
  end.

(** [generateMeetingID()]: eight iterations from the empty string. *)
Definition generateMeetingID (rnd : nat -> Z) : string := forLoop rnd 8 0 "".

(** The draws [Math.random()] can return. *)
Definition valid_draws (rnd : nat -> Z) : Prop := forall i, (0 <= rnd i < random_scale)%Z.

(** A character of the alphabet. *)
Definition in_chars (c : Ascii.ascii) : Prop := In c (String.list_ascii_of_string chars).

#[export] Instance in_chars_dec c : Decision (in_chars c).
Proof. unfold in_chars. destruct (in_dec Ascii.ascii_dec c (String.list_ascii_of_string chars)); [left|right]; done. Defined.

(** The least draw that picks index [j]: [ceil(j * 2^53 / maxPos)]. *)
Definition lo (j : Z) : Z := ((j * random_scale + maxPos - 1) / maxPos)%Z.

(** The position of a character in [chars] ([chars.indexOf(c)]). *)
Definition index_of (c : Ascii.ascii) : Z :=
  findIndex (fun d => Ascii.eqb d c) (String.list_ascii_of_string chars).

Lemma maxPos_eq : maxPos = 62%Z.
Proof. reflexivity. Qed.

Lemma random_scale_eq : random_scale = 9007199254740992%Z.
Proof. reflexivity. Qed.

(** Ltac for the arithmetic of draws and indices. *)
Ltac draw_lia := unfold pick, lo in *; rewrite ?maxPos_eq, ?random_scale_eq in *; zlia.

Lemma pick_range k : (0 <= k < random_scale)%Z -> (0 <= pick k < maxPos)%Z.
Proof. intros. draw_lia. Qed.

Lemma pick_lo j : (0 <= j < maxPos)%Z -> pick (lo j) = j /\ (0 <= lo j < random_scale)%Z.
Proof. intros. split; draw_lia. Qed.

Lemma charAt_chars j : (0 <= j < maxPos)%Z ->
  exists c, charAt chars j = String c EmptyString /\ in_chars c.
Proof.
  intros H. unfold charAt. rewrite (proj2 (Z.leb_le 0 j)) by lia.
  destruct (get_lt (Z.to_nat j) chars) as [c Hc]; [unfold maxPos in H; lia|].
  rewrite Hc. exists c. split; [done|]. by eapply get_In.
Qed.

(** Every character of the alphabet is at its index (checked on the
    62 characters). *)
Lemma charAt_index c : in_chars c ->
  (0 <= index_of c < maxPos)%Z /\ charAt chars (index_of c) = String c EmptyString.
Proof.
  assert (H : forallb (fun c => (0 <=? index_of c)%Z && (index_of c <? maxPos)%Z &&
                               String.eqb (charAt chars (index_of c)) (String c EmptyString))
                (String.list_ascii_of_string chars) = true) by (vm_compute; reflexivity).
  intros Hc. rewrite forallb_forall in H. specialize (H c Hc).
  apply andb_prop in H as [H1 H2]. apply andb_prop in H1 as [H0 H1].
  apply Z.leb_le in H0. apply Z.ltb_lt in H1. apply String.eqb_eq in H2. done.
Qed.

(** The loop appends one character of the alphabet per iteration. *)
Lemma forLoop_shape rnd fuel i acc : valid_draws rnd -> (i + fuel = 8)%nat ->
  String.length (forLoop rnd fuel i acc) = (String.length acc + fuel)%nat /\
  (Forall in_chars (String.list_ascii_of_string acc) ->
   Forall in_chars (String.list_ascii_of_string (forLoop rnd fuel i acc))).
Proof.
  intros Hv. revert i acc. induction fuel as [|f IH]; intros i acc Hi; simpl; [split; [lia|done]|].
  rewrite (proj2 (Nat.ltb_lt i 8)) by lia.
  destruct (charAt_chars (pick (rnd i))) as (c & Hc & Hin); [apply pick_range, Hv|].
  destruct (IH (S i) (acc ++ charAt chars (pick (rnd i)))) as [IH1 IH2]; [lia|].
  rewrite Hc in *. split; [rewrite IH1, string_length_app; simpl; lia|].
  intros Ha. apply IH2. rewrite list_ascii_app. apply Forall_app. split; [done|].
  constructor; [done|constructor].
Qed.

(** The loop writes the string [t] when each draw picks its character. *)
Lemma forLoop_writes rnd (t : string) : forall fuel i acc,
  (i + fuel = 8)%nat -> String.length t = fuel ->
  (forall n c, String.get n t = Some c -> charAt chars (pick (rnd (i + n)%nat)) = String c EmptyString) ->
  forLoop rnd fuel i acc = acc ++ t.
Proof.
  induction t as [|c t IH]; intros fuel i acc Hi Hl Hp; simpl in Hl; subst fuel; simpl.
  - by rewrite append_nil_r.
  - rewrite (proj2 (Nat.ltb_lt i 8)) by lia.
    pose proof (Hp 0%nat c eq_refl) as H0. rewrite Nat.add_0_r in H0. rewrite H0.
    rewrite (IH (String.length t) (S i)); [|lia|done|].
    + by rewrite append_assoc, append_cons.
    + intros n d Hd. rewrite <- (Hp (S n) d Hd). do 3 f_equal. lia.
Qed.

(** C8.  The spec's shape of an identifier: eight characters of the
    alphabet, for every sequence of draws [Math.random()] can return. *)
Theorem generateMeetingID_shape rnd : valid_draws rnd ->
  String.length (generateMeetingID rnd) = 8%nat /\
  Forall in_chars (String.list_ascii_of_string (generateMeetingID rnd)).
Proof.
  intros Hv. destruct (forLoop_shape rnd 8 0 "" Hv eq_refl) as [H1 H2].
  split; [exact H1|apply H2; constructor].
Qed.

(** Every string of eight characters of the alphabet is the identifier
    of some draws: the identifiers are exactly the [62^8] strings over
    the 62 characters of [chars] (the spec counts 63). *)
Theorem generateMeetingID_surjective s :
  String.length s = 8%nat -> Forall in_chars (String.list_ascii_of_string s) ->
  exists rnd, valid_draws rnd /\ generateMeetingID rnd = s.
Proof.
  intros Hl Hs. rewrite Forall_forall in Hs.
  exists (fun n => match String.get n s with Some c => lo (index_of c) | None => 0%Z end).
  split.
  - intros n. destruct (String.get n s) as [c|] eqn:E; [|unfold random_scale; lia].
    apply pick_lo, charAt_index, Hs. by eapply get_In.
  - apply (forLoop_writes _ s 8 0 ""); [done|done|]. intros n c Hc. simpl. rewrite Hc.
    destruct (charAt_index c) as [Hr Hch]; [apply Hs; by eapply get_In|].
    by rewrite (proj1 (pick_lo _ Hr)).
Qed.

(** Each index is picked by an interval of draws of length
    [floor(2^53 / 62)] or one more: the identifiers are uniform up to a
    relative bias below [62 / 2^53]. *)
Theorem pick_preimage_bounds j : (0 <= j < maxPos)%Z ->
  (forall k, (0 <= k < random_scale)%Z -> pick k = j <-> (lo j <= k < lo (j + 1))%Z) /\
  (random_scale / maxPos <= lo (j + 1) - lo j <= random_scale / maxPos + 1)%Z.
Proof. intros Hj. split; [intros k Hk; split; intros; draw_lia|draw_lia]. Qed.

(** Past the eighth iteration the loop stops: extra fuel changes nothing. *)
Lemma forLoop_fuel_irrelevant rnd : forall fuel i acc, (8 <= i + fuel)%nat -> (i <= 8)%nat ->
  forLoop rnd fuel i acc = forLoop rnd (8 - i) i acc.
Proof.
  induction fuel as [|f IH]; intros i acc H1 H2; [by replace i with 8%nat by lia|].
  destruct (Nat.ltb_spec i 8) as [Hi|Hi].
  - replace (8 - i)%nat with (S (7 - i)) by lia. cbn [forLoop].
    rewrite (proj2 (Nat.ltb_lt i 8) Hi), (IH (S i)) by lia.
    by replace (8 - S i)%nat with (7 - i)%nat by lia.
  - replace i with 8%nat by lia. cbn [forLoop]. by rewrite Nat.ltb_irrefl.
Qed.

(** ** Witnesses *)

(** Draws spread over the range. *)
Definition sample_draws (i : nat) : Z := ((Z.of_nat i * 1000000000000007) mod random_scale)%Z.

Lemma sample_draws_valid : valid_draws sample_draws.
Proof. intros i. unfold sample_draws. rewrite random_scale_eq. zlia. Qed.

Example sample_id : generateMeetingID sample_draws = "1wohkxZE".
Proof. vm_compute. reflexivity. Qed.

Lemma generateMeetingID_shape_witness :
  valid_draws sample_draws /\
  (String.length (generateMeetingID sample_draws) = 8%nat /\
   Forall in_chars (String.list_ascii_of_string (generateMeetingID sample_draws))).
Proof. split; [exact sample_draws_valid|apply generateMeetingID_shape, sample_draws_valid]. Defined.

Lemma generateMeetingID_surjective_witness :
  (String.length "ab12CD34" = 8%nat /\ Forall in_chars (String.list_ascii_of_string "ab12CD34")) /\
  exists rnd, valid_draws rnd /\ generateMeetingID rnd = "ab12CD34".
Proof. witness (generateMeetingID_surjective "ab12CD34"). Defined.

Lemma pick_preimage_bounds_witness :
  (0 <= 61 < maxPos)%Z /\
  ((forall k, (0 <= k < random_scale)%Z -> pick k = 61%Z <-> (lo 61 <= k < lo (61 + 1))%Z) /\
   (random_scale / maxPos <= lo (61 + 1) - lo 61 <= random_scale / maxPos + 1)%Z).
Proof. witness (pick_preimage_bounds 61). Defined.

End MeetingId.
