(* ===== verification/JoinMeeting.v ===== *)
(** * The join gate: [getMeetingData] of [pages/JoinMeeting.tsx]

    The page reads the meeting whose [meetingId] is the route parameter.
    Then it decides, on the meeting type, the invite list and the date,
    whether to render the video room ([setIsAllowed(true)]) or to push a
    toast and navigate away.  [getMeetingData] returns the ordered list of
    those calls.  The store query
    [where("meetingId", "==", params.id)] is a filter over the documents;
    [docs[0]] is the first match.  The theorems relate it to the
    contract [Spec.resolve] / [Spec.caller_effects]: where they agree, and
    the exact behaviour where they do not. *)

From S2P Require Import Prelude Moment Types Spec MeetingId.

Open Scope string_scope.

Module Join.
Import Spec.

(** [navigate(user ? "/" : "/login")] *)
Definition home_or_login (user : option AuthUser) : string :=
  match user with Some _ => "/" | None => "/login" end.

(** Lines 25-30: the [onAuthStateChanged] callback, registered on every
    render: the new [user] state and [userLoaded]. *)
Definition joinAuthCallback (currentUser user : option AuthUser) : option AuthUser * bool :=
  (match currentUser with Some u => Some u | None => user end, true).

Section Gate.
Context `{M : MomentLib}.

(** Lines 43-89: the decision on one fetched meeting.  [user] is the
    component's [user] state, [undefined] until [onAuthStateChanged]
    reports a user; [user?.uid] is [au_uid <$> user]. *)
Definition joinDecision (meeting : MeetingType) (user : option AuthUser) (now : Z)
    : list Effect :=
  let uid := au_uid <$> user in
  let isCreator := Some (createdBy meeting) === uid in
  match meetingType meeting with
  | OneOnOne =>
    if (js_at (invitedUsers meeting) 0 === uid) || isCreator then
      if meetingDate meeting === today now then [SetIsAllowed true]
      else if isBefore (m_parse (meetingDate meeting)) (m_parse (today now)) then
        [CreateToast "Meeting has ended." (Some Danger); Navigate (home_or_login user)]
      else if isAfter (m_parse (meetingDate meeting)) now then
        [CreateToast ("Meeting is on " ++ meetingDate meeting) (Some Warning);
         Navigate (home_or_login user)]
      else []
    else [Navigate (home_or_login user)]
  | VideoConference =>
    let index := findIndex (fun invitedUser => Some invitedUser === uid)
                   (invitedUsers meeting) in
    if (index !== (-1)%Z) || isCreator then
      if meetingDate meeting === today now then [SetIsAllowed true]
      else if isBefore (m_parse (meetingDate meeting)) (m_parse (today now)) then
        [CreateToast "Meeting has ended." (Some Danger); Navigate (home_or_login user)]
      else if isAfter (m_parse (meetingDate meeting)) now then
        [CreateToast ("Meeting is on " ++ meetingDate meeting) (Some Warning)]
      else []
    else [CreateToast "You are not invited to the meeting." (Some Danger);
          Navigate (home_or_login user)]
  | AnyoneCanJoin => [SetIsAllowed true]
  end.

(** Lines 33-95: [getMeetingData], run when [params.id] is a non-empty
    string and the auth state has loaded.  The query keeps the
    documents of the [meetings] collection whose [meetingId] is
    [params.id]; when there is one, [docs[0].data()] decides. *)
Definition getMeetingData (paramsId : option string) (userLoaded : bool)
    (user : option AuthUser) (store : list MeetingDoc) (now : Z) : list Effect :=
  match paramsId with
  | None => []
  | Some pid =>
    if (pid === "") || negb userLoaded then [] else
    match head (js_filter (fun d => meetingId (doc_data d) === pid) store) with
    | None => []
    | Some doc => joinDecision (doc_data doc) user now
    end
  end.

End Gate.

(** Lines 99-100: the Zego application credentials. *)
Definition appId : Z := 181337744.

(** What [generateKitTokenForTest] receives, besides the secret. *)
Record KitToken := mkKitToken {
  kt_appId : Z;
  kt_roomID : option string;
  kt_userID : string;
  kt_userName : string;
}.

(** The options of [zp.joinRoom]: the room capacity and the shared link
    (the [container] element and the scenario are fixed). *)
Record JoinRoomConfig := mkJoinRoomConfig {
  jr_maxUsers : Z;
  jr_sharedLinks : list (string * string);
}.

(** Lines 104-127: [myMeeting], the [ref] callback of the room's [div],
    run once [isAllowed] is set.  [user.uid] on the [undefined] user
    throws a [TypeError], here [None]; [rnd1] and [rnd2] are the draws
    of the two [generateMeetingID()] fallbacks; [origin] is
    [window.location.origin]. *)
Definition myMeeting (paramsId : option string) (user : option AuthUser)
    (rnd1 rnd2 : nat -> Z) (origin : string) : option (KitToken * JoinRoomConfig) :=
  match user with
  | None => None
  | Some u =>
      let userID := if au_uid u === "" then MeetingId.generateMeetingID rnd1 else au_uid u in
      let userName := match au_displayName u with
                      | Some n => if n === "" then MeetingId.generateMeetingID rnd2 else n
                      | None => MeetingId.generateMeetingID rnd2
                      end in
      Some (mkKitToken appId paramsId userID userName,
            mkJoinRoomConfig 50 [("Personal link", origin)])
  end.

Section Theorems.
Context `{M : MomentLib} `{!MomentLaws M}.
Import Calendar.

Lemma first_invitee (r : option string) (l : list string) :
  (js_at l 0 === r) = (head l === r).
Proof. by destruct l. Qed.

(** On a printed date the chain of the page compares days. *)
Lemma joinDecision_dated m user tc now : dated m tc -> in_range now ->
  joinDecision m user now =
  let uid := au_uid <$> user in
  let isCreator := Some (createdBy m) === uid in
  let dates (notYet : list Effect) :=
    if (day_of tc <? day_of now)%Z then
      [CreateToast "Meeting has ended." (Some Danger); Navigate (home_or_login user)]
    else if (day_of now <? day_of tc)%Z then notYet else [SetIsAllowed true] in
  match meetingType m with
  | OneOnOne =>
    if (js_at (invitedUsers m) 0 === uid) || isCreator then
      dates [CreateToast ("Meeting is on " ++ meetingDate m) (Some Warning);
             Navigate (home_or_login user)]
    else [Navigate (home_or_login user)]
  | VideoConference =>
    if (findIndex (fun x => Some x === uid) (invitedUsers m) !== (-1)%Z) || isCreator then
      dates [CreateToast ("Meeting is on " ++ meetingDate m) (Some Warning)]
    else [CreateToast "You are not invited to the meeting." (Some Danger);
          Navigate (home_or_login user)]
  | AnyoneCanJoin => [SetIsAllowed true]
  end.
Proof.
  intros [Hd Hr] Hn. unfold joinDecision. simpl.
  destruct (meetingType m); [done| |]; rewrite Hd, date_chain by done; done.
Qed.

(** C1.  For an active video conference, the page does exactly what
    the contract asks for the decision of [resolve]: it enters the
    room when allowed, otherwise it toasts and leaves.  The one
    exception is the not-yet decision (see
    [join_video_not_yet_no_redirect]).  Invitation is checked with
    [findIndex], the creator bypasses it, and an anonymous visitor is
    not invited. *)
Theorem join_video_conference_refines m user tc now :
  meetingType m = VideoConference -> status m = true -> dated m tc -> in_range now ->
  (forall date, Spec.resolve (Some m) (au_uid <$> user) (day_of tc) (day_of now)
                <> DeniedNotYet date) ->
  joinDecision m user now =
  caller_effects (Spec.resolve (Some m) (au_uid <$> user) (day_of tc) (day_of now))
                 (home_or_login user).
Proof.
  intros Hty Hst Hdt Hn Hny. rewrite (joinDecision_dated m user tc now) by done.
  cbn zeta. unfold Spec.resolve, Spec.eligible in *. rewrite Hty, Hst in *.
  cbn iota beta in *. specialize (Hny (meetingDate m)). revert Hny.
  destruct user as [u|]; cbn [fmap option_fmap option_map].
  - rewrite index_found, some_eq_swap, orb_comm.
    destruct (_ || _); cbn [negb]; [|done].
    destruct (day_of tc <? day_of now)%Z; [done|].
    destruct (day_of now <? day_of tc)%Z; [|done]. by intros [].
  - rewrite index_anonymous. reflexivity.
Qed.

(** The code's invitation test for an authenticated requester is the
    contract's [eligible], for both restricted types. *)
Lemma code_eligible_user m u :
  ((js_at (invitedUsers m) 0 === Some (au_uid u)) || (Some (createdBy m) === Some (au_uid u)))
    = (if meetingType m is OneOnOne then Spec.eligible m (Some (au_uid u))
       else (js_at (invitedUsers m) 0 === Some (au_uid u))
            || (Some (createdBy m) === Some (au_uid u))) /\
  ((findIndex (fun x => Some x === Some (au_uid u)) (invitedUsers m) !== (-1)%Z)
     || (Some (createdBy m) === Some (au_uid u)))
    = (if meetingType m is VideoConference then Spec.eligible m (Some (au_uid u))
       else (findIndex (fun x => Some x === Some (au_uid u)) (invitedUsers m) !== (-1)%Z)
            || (Some (createdBy m) === Some (au_uid u))).
Proof.
  unfold Spec.eligible. rewrite first_invitee, index_found, some_eq_swap.
  destruct (meetingType m); split; try done; apply orb_comm.
Qed.

(** An eligible authenticated requester on the meeting's own day is let
    in, whatever the restricted type. *)
Lemma joinDecision_eligible_today m u tc now :
  meetingType m <> AnyoneCanJoin -> dated m tc -> in_range now ->
  Spec.eligible m (Some (au_uid u)) = true -> day_of tc = day_of now ->
  joinDecision m (Some u) now = [SetIsAllowed true].
Proof.
  intros Hty Hdt Hn Hel Hday. rewrite (joinDecision_dated m (Some u) tc now) by done.
  cbn zeta. cbn [fmap option_fmap option_map].
  destruct (code_eligible_user m u) as [E1 E2].
  rewrite Hday, Z.ltb_irrefl.
  destruct (meetingType m) eqn:T; [done| |]; [rewrite E2|rewrite E1]; by rewrite Hel.
Qed.

(** For an eligible authenticated requester the decision is the date
    branch of the meeting's type. *)
Lemma joinDecision_eligible m u tc now :
  meetingType m <> AnyoneCanJoin -> dated m tc -> in_range now ->
  Spec.eligible m (Some (au_uid u)) = true ->
  joinDecision m (Some u) now =
  if (day_of tc <? day_of now)%Z then
    [CreateToast "Meeting has ended." (Some Danger); Navigate "/"]
  else if (day_of now <? day_of tc)%Z then
    CreateToast ("Meeting is on " ++ meetingDate m) (Some Warning) ::
    (if meetingType m is OneOnOne then [Navigate "/"] else [])
  else [SetIsAllowed true].
Proof.
  intros Hty Hdt Hn Hel. rewrite (joinDecision_dated m (Some u) tc now) by done.
  cbn zeta. cbn [fmap option_fmap option_map].
  destruct (code_eligible_user m u) as [E1 E2].
  destruct (meetingType m) eqn:T; [done|rewrite E2, Hel|rewrite E1, Hel]; done.
Qed.

(** C2.  For an active one-on-one meeting and a requester the contract
    admits (the creator, or the first invitee), the page does exactly
    what [resolve] and the caller contract prescribe. *)
Theorem join_one_on_one_refines m u tc now :
  meetingType m = OneOnOne -> status m = true -> dated m tc -> in_range now ->
  Spec.eligible m (Some (au_uid u)) = true ->
  joinDecision m (Some u) now =
  caller_effects (Spec.resolve (Some m) (Some (au_uid u)) (day_of tc) (day_of now))
                 (home_or_login (Some u)).
Proof.
  intros Hty Hst Hdt Hn Hel. rewrite (joinDecision_dated m (Some u) tc now) by done.
  cbn zeta. cbn [fmap option_fmap option_map].
  destruct (code_eligible_user m u) as [E1 _]. rewrite Hty in E1 |- *. rewrite E1, Hel.
  unfold Spec.resolve. rewrite Hst, Hel. cbn [negb].
  destruct (day_of tc <? day_of now)%Z; [done|].
  by destruct (day_of now <? day_of tc)%Z.
Qed.

(** C17.  The page never reads [status]: an eligible requester enters a
    cancelled meeting on its day, where the contract answers
    [DeniedCancelled]. *)
Theorem join_ignores_cancellation m u tc now :
  status m = false -> meetingType m <> AnyoneCanJoin -> dated m tc -> in_range now ->
  Spec.eligible m (Some (au_uid u)) = true -> day_of tc = day_of now ->
  joinDecision m (Some u) now = [SetIsAllowed true] /\
  Spec.resolve (Some m) (Some (au_uid u)) (day_of tc) (day_of now) = DeniedCancelled.
Proof.
  intros Hst Hty Hdt Hn Hel Hday. split.
  - by apply (joinDecision_eligible_today m u tc).
  - unfold Spec.resolve. by rewrite Hst.
Qed.

(** C28.  An open meeting admits everyone at once: no date, status or
    identity is read. *)
Theorem join_anyone_can_join_unconditional m user tc now :
  meetingType m = AnyoneCanJoin -> dated m tc -> in_range now ->
  (day_of tc < day_of now)%Z ->
  joinDecision m user now = [SetIsAllowed true] /\
  Spec.resolve (Some m) (au_uid <$> user) (day_of tc) (day_of now) <> Allowed.
Proof.
  intros Hty Hdt Hn Hpast. split; [unfold joinDecision; by rewrite Hty|].
  unfold Spec.resolve, Spec.eligible. rewrite Hty.
  destruct (status m); cbn [negb]; [|done].
  by rewrite (proj2 (Z.ltb_lt _ _) Hpast).
Qed.

(** C30.  An authenticated requester who is neither the creator nor the
    first invitee of a one-on-one meeting is sent away without the
    "not invited" toast the contract asks for. *)
Theorem join_one_on_one_uninvited_silent m u now :
  meetingType m = OneOnOne -> Spec.eligible m (Some (au_uid u)) = false ->
  joinDecision m (Some u) now = [Navigate "/"] /\
  caller_effects DeniedNotInvited "/" =
    [CreateToast not_invited_title (Some Danger); Navigate "/"].
Proof.
  intros Hty Hel. split; [|done].
  destruct (code_eligible_user m u) as [E1 _]. rewrite Hty in E1.
  unfold joinDecision. cbn zeta. cbn [fmap option_fmap option_map].
  by rewrite Hty, E1, Hel.
Qed.

(** C29.  An eligible requester of a video conference that is still to come
    gets the warning toast but stays on the empty page: the redirect
    of the one-on-one branch is missing. *)
Theorem join_video_not_yet_no_redirect m user tc now :
  meetingType m = VideoConference -> dated m tc -> in_range now ->
  Spec.eligible m (au_uid <$> user) = true -> (day_of now < day_of tc)%Z ->
  joinDecision m user now =
    [CreateToast ("Meeting is on " ++ meetingDate m) (Some Warning)].
Proof.
  intros Hty Hdt Hn Hel Hfut. rewrite (joinDecision_dated m user tc now) by done.
  cbn zeta. rewrite Hty.
  destruct user as [u|]; [|by unfold Spec.eligible in Hel; rewrite Hty in Hel].
  destruct (code_eligible_user m u) as [_ E2]. rewrite Hty in E2.
  cbn [fmap option_fmap option_map] in Hel |- *. rewrite E2, Hel.
  rewrite (proj2 (Z.ltb_ge (day_of tc) (day_of now))) by lia.
  by rewrite (proj2 (Z.ltb_lt _ _) Hfut).
Qed.

(** C18.  A visitor with no session passes the one-on-one invite check of a
    meeting whose invite list is empty, since [invitedUsers[0]] and
    [user?.uid] are both [undefined]; on the meeting's day the room
    opens.  The contract denies: an anonymous requester is invited
    nowhere. *)
Theorem join_anonymous_empty_one_on_one m tc now :
  meetingType m = OneOnOne -> invitedUsers m = [] -> status m = true ->
  dated m tc -> in_range now -> day_of tc = day_of now ->
  joinDecision m None now = [SetIsAllowed true] /\
  Spec.resolve (Some m) None (day_of tc) (day_of now) = DeniedNotInvited.
Proof.
  intros Hty Hinv Hst Hdt Hn Hday. split.
  - rewrite (joinDecision_dated m None tc now) by done. cbn zeta.
    rewrite Hty, Hinv, Hday, Z.ltb_irrefl. reflexivity.
  - unfold Spec.resolve, Spec.eligible. by rewrite Hst, Hty.
Qed.

(** The creator of a restricted meeting is let in on its day whatever
    the invite list says. *)
Theorem join_creator_bypass m u tc now :
  meetingType m <> AnyoneCanJoin -> au_uid u = createdBy m -> dated m tc -> in_range now ->
  day_of tc = day_of now ->
  joinDecision m (Some u) now = [SetIsAllowed true].
Proof.
  intros Hty Hc Hdt Hn Hday. apply (joinDecision_eligible_today m u tc); try done.
  unfold Spec.eligible. rewrite Hc, js_eq_refl.
  by destruct (meetingType m).
Qed.

(** C31.  The first document with the requested identifier decides; when there
    is none, the page does nothing: it neither redirects nor toasts,
    where the contract redirects on [NotFound]. *)
Theorem getMeetingData_lookup pid user store now :
  pid <> "" ->
  (Forall (fun d => meetingId (doc_data d) <> pid) store ->
   getMeetingData (Some pid) true user store now = [] /\
   caller_effects NotFound (home_or_login user) = [Navigate (home_or_login user)]) /\
  (forall pre d post, store = (pre ++ d :: post)%list ->
   Forall (fun d' => meetingId (doc_data d') <> pid) pre -> meetingId (doc_data d) = pid ->
   getMeetingData (Some pid) true user store now = joinDecision (doc_data d) user now).
Proof.
  intros Hp. unfold getMeetingData. rewrite (bool_decide_eq_false_2 _ Hp). cbn [orb negb].
  split.
  - intros Hall. rewrite js_filter_all_false; [done|].
    eapply Forall_impl; [|exact Hall]. intros d Hd. by apply bool_decide_eq_false_2.
  - intros pre d post -> Hpre Hd. unfold js_filter. rewrite filter_app.
    rewrite (js_filter_all_false _ pre); [|eapply Forall_impl; [|exact Hpre];
                                           intros d' Hd'; by apply bool_decide_eq_false_2].
    simpl. by rewrite (bool_decide_eq_true_2 _ Hd).
Qed.

(** An anonymous visitor is admitted to an open meeting, and mounting
    the room then throws on [user.uid]: the [generateMeetingID()]
    fallback never serves a visitor without a session.  A signed-in user
    joins as their uid, and the room capacity is 50 whatever the
    meeting's [maxUsers]. *)
Theorem join_room_identity m pid now r1 r2 origin :
  meetingType m = AnyoneCanJoin ->
  joinDecision m None now = [SetIsAllowed true] /\
  myMeeting (Some pid) None r1 r2 origin = None /\
  (forall u, au_uid u <> "" ->
     exists tok cfg, myMeeting (Some pid) (Some u) r1 r2 origin = Some (tok, cfg) /\
       kt_userID tok = au_uid u /\ kt_roomID tok = Some pid /\ jr_maxUsers cfg = 50%Z).
Proof.
  intros Hty. split; [unfold joinDecision; by rewrite Hty|]. split; [done|].
  intros u Hu. eexists _, _. split; [reflexivity|]. cbn.
  by rewrite bool_decide_eq_false_2.
Qed.

End Theorems.

(** ** Witnesses, at the en-locale [moment] *)

Section Witnesses.
Import Calendar.

(** 2024-02-29 at 00:00 and at 10:00, and the days around it. *)
Definition feb29 : Z := 1709164800000.
Definition feb29_10h : Z := feb29 + 36000000.
Definition feb28 : Z := feb29 - ms_per_day.
Definition mar01 : Z := feb29 + ms_per_day.

Definition alice : AuthUser := mkAuthUser "U1" (Some "alice@example.com") (Some "Alice").
Definition bob : AuthUser := mkAuthUser "U2" (Some "bob@example.com") (Some "Bob").
Definition carol : AuthUser := mkAuthUser "U3" (Some "carol@example.com") (Some "Carol").

(** The scenario meeting of spec section 8: created by U1, invites
    U2, dated [day]. *)
Definition scenario (ty : MeetingJoinType) (invited : list string) (day : Z) (st : bool) :=
  mkMeeting None "U1" invited (Some 2) (m_format day) "ab12CD34" "Review" ty st.


Lemma join_video_conference_refines_witness :
  let m := scenario VideoConference ["U2"] feb28 true in
  (meetingType m = VideoConference /\ status m = true /\ dated m feb28 /\
   in_range feb29_10h /\
   (forall date, Spec.resolve (Some m) (au_uid <$> Some bob) (day_of feb28) (day_of feb29_10h)
                 <> DeniedNotYet date)) /\
  joinDecision m (Some bob) feb29_10h =
  caller_effects (Spec.resolve (Some m) (au_uid <$> Some bob) (day_of feb28) (day_of feb29_10h))
                 (home_or_login (Some bob)).
Proof.
  cbv zeta.
  assert (Hd : dated (scenario VideoConference ["U2"] feb28 true) feb28)
    by (split; [reflexivity|by_eval]).
  assert (Hn : in_range feb29_10h) by by_eval.
  assert (Hny : forall date, Spec.resolve (Some (scenario VideoConference ["U2"] feb28 true))
            (au_uid <$> Some bob) (day_of feb28) (day_of feb29_10h) <> DeniedNotYet date)
    by (intros d; vm_compute; discriminate).
  split; [repeat (split; [reflexivity|]); split; [exact Hd|split; [exact Hn|exact Hny]]|].
  exact (join_video_conference_refines (scenario VideoConference ["U2"] feb28 true)
           (Some bob) feb28 feb29_10h eq_refl eq_refl Hd Hn Hny).
Defined.

Lemma join_one_on_one_refines_witness :
  let m := scenario OneOnOne ["U2"] feb29 true in
  (meetingType m = OneOnOne /\ status m = true /\ dated m feb29 /\ in_range feb29_10h /\
   Spec.eligible m (Some (au_uid bob)) = true) /\
  joinDecision m (Some bob) feb29_10h =
  caller_effects (Spec.resolve (Some m) (Some (au_uid bob)) (day_of feb29) (day_of feb29_10h))
                 (home_or_login (Some bob)).
Proof. cbv zeta. witness (join_one_on_one_refines (scenario OneOnOne ["U2"] feb29 true) bob feb29 feb29_10h). Defined.

Lemma join_ignores_cancellation_witness :
  let m := scenario OneOnOne ["U2"] feb29 false in
  (status m = false /\ meetingType m <> AnyoneCanJoin /\ dated m feb29 /\
   in_range feb29_10h /\ Spec.eligible m (Some (au_uid alice)) = true /\
   day_of feb29 = day_of feb29_10h) /\
  (joinDecision m (Some alice) feb29_10h = [SetIsAllowed true] /\
   Spec.resolve (Some m) (Some (au_uid alice)) (day_of feb29) (day_of feb29_10h)
     = DeniedCancelled).
Proof. cbv zeta. witness (join_ignores_cancellation (scenario OneOnOne ["U2"] feb29 false) alice feb29 feb29_10h). Defined.

Lemma join_anyone_can_join_unconditional_witness :
  let m := scenario AnyoneCanJoin [] feb28 true in
  (meetingType m = AnyoneCanJoin /\ dated m feb28 /\ in_range feb29_10h /\
   (day_of feb28 < day_of feb29_10h)%Z) /\
  (joinDecision m None feb29_10h = [SetIsAllowed true] /\
   Spec.resolve (Some m) (au_uid <$> None) (day_of feb28) (day_of feb29_10h) <> Allowed).
Proof. cbv zeta. witness (join_anyone_can_join_unconditional (scenario AnyoneCanJoin [] feb28 true) None feb28 feb29_10h). Defined.

Lemma join_one_on_one_uninvited_silent_witness :
  let m := scenario OneOnOne ["U2"] feb29 true in
  (meetingType m = OneOnOne /\ Spec.eligible m (Some (au_uid carol)) = false) /\
  (joinDecision m (Some carol) feb29_10h = [Navigate "/"] /\
   caller_effects DeniedNotInvited "/" =
     [CreateToast not_invited_title (Some Danger); Navigate "/"]).
Proof. cbv zeta. witness (join_one_on_one_uninvited_silent (scenario OneOnOne ["U2"] feb29 true) carol feb29_10h). Defined.

Lemma join_video_not_yet_no_redirect_witness :
  let m := scenario VideoConference ["U2"] mar01 true in
  (meetingType m = VideoConference /\ dated m mar01 /\ in_range feb29_10h /\
   Spec.eligible m (au_uid <$> Some bob) = true /\ (day_of feb29_10h < day_of mar01)%Z) /\
  joinDecision m (Some bob) feb29_10h =
    [CreateToast ("Meeting is on " ++ meetingDate m) (Some Warning)].
Proof. cbv zeta. witness (join_video_not_yet_no_redirect (scenario VideoConference ["U2"] mar01 true) (Some bob) mar01 feb29_10h). Defined.

Lemma join_anonymous_empty_one_on_one_witness :
  let m := scenario OneOnOne [] feb29 true in
  (meetingType m = OneOnOne /\ invitedUsers m = [] /\ status m = true /\
   dated m feb29 /\ in_range feb29_10h /\ day_of feb29 = day_of feb29_10h) /\
  (joinDecision m None feb29_10h = [SetIsAllowed true] /\
   Spec.resolve (Some m) None (day_of feb29) (day_of feb29_10h) = DeniedNotInvited).
Proof. cbv zeta. witness (join_anonymous_empty_one_on_one (scenario OneOnOne [] feb29 true) feb29 feb29_10h). Defined.

Lemma join_creator_bypass_witness :
  let m := scenario VideoConference ["U2"] feb29 true in
  (meetingType m <> AnyoneCanJoin /\ au_uid alice = createdBy m /\ dated m feb29 /\
   in_range feb29_10h /\ day_of feb29 = day_of feb29_10h) /\
  joinDecision m (Some alice) feb29_10h = [SetIsAllowed true].
Proof. cbv zeta. witness (join_creator_bypass (scenario VideoConference ["U2"] feb29 true) alice feb29 feb29_10h). Defined.

Lemma join_room_identity_witness :
  meetingType (scenario AnyoneCanJoin [] feb29 true) = AnyoneCanJoin /\
  (joinDecision (scenario AnyoneCanJoin [] feb29 true) None feb29_10h = [SetIsAllowed true] /\
   myMeeting (Some "ab12CD34") None MeetingId.sample_draws MeetingId.sample_draws "https://zoom.example"
     = None /\
   (forall u, au_uid u <> "" ->
      exists tok cfg, myMeeting (Some "ab12CD34") (Some u) MeetingId.sample_draws
                        MeetingId.sample_draws "https://zoom.example" = Some (tok, cfg) /\
        kt_userID tok = au_uid u /\ kt_roomID tok = Some "ab12CD34" /\ jr_maxUsers cfg = 50%Z)).
Proof. witness (join_room_identity (scenario AnyoneCanJoin [] feb29 true) "ab12CD34" feb29_10h). Defined.

Lemma getMeetingData_lookup_witness :
  let store := [mkDoc "d1" (scenario VideoConference ["U2"] feb29 true)] in
  "ab12CD34" <> "" /\
  ((Forall (fun d => meetingId (doc_data d) <> "ab12CD34") store ->
    getMeetingData (Some "ab12CD34") true (Some bob) store feb29_10h = [] /\
    caller_effects NotFound (home_or_login (Some bob)) = [Navigate (home_or_login (Some bob))]) /\
   (forall pre d post, store = (pre ++ d :: post)%list ->
    Forall (fun d' => meetingId (doc_data d') <> "ab12CD34") pre ->
    meetingId (doc_data d) = "ab12CD34" ->
    getMeetingData (Some "ab12CD34") true (Some bob) store feb29_10h =
    joinDecision (doc_data d) (Some bob) feb29_10h)).
Proof. cbv zeta. witness (getMeetingData_lookup "ab12CD34" (Some bob)
  [mkDoc "d1" (scenario VideoConference ["U2"] feb29 true)] feb29_10h). Defined.

End Witnesses.

End Join.
