(* ===== verification/Status.v ===== *)
(** * The status column of the meeting tables

    [pages/MyMeetings.tsx] and [pages/Meeting.tsx] render the same
    "Status" cell: a badge chosen by [meeting.status] and the date chain,
    or [undefined] when no branch of the chain fires.  [MyMeetings.tsx]
    also disables the edit button of ended or cancelled meetings.  The
    theorems show that both cells implement [Spec.classify] on printed
    dates (so the [undefined] case never arises there).  They also show
    what the edit guard lets through. *)

From S2P Require Import Prelude Moment Types Spec JoinMeeting.

Open Scope string_scope.

Module Status.
Import Spec.

(** The [EuiBadge] colours the cell uses. *)
Inductive BadgeColor :=
| BSuccess
| BDefault
| BPrimary
| BDanger.

#[export] Instance BadgeColor_eq_dec : EqDecision BadgeColor.
Proof. solve_decision. Defined.

(** A rendered badge: its colour, its text, and the [Link] it wraps. *)
Record Badge := mkBadge {
  badge_color : BadgeColor;
  badge_text : string;
  badge_link : option string;
}.

#[export] Instance Badge_eq_dec : EqDecision Badge.
Proof. solve_decision. Defined.

Definition join_link (meetingId : string) : string := "/join/" ++ meetingId.

Section Render.
Context `{M : MomentLib}.

(** [MyMeetings.tsx], the Status column's [render]: [None] is the
    [undefined] the closure returns when no branch fires. *)
Definition statusRender (meeting : MeetingType) (now : Z) : option Badge :=
  if status meeting then
    if meetingDate meeting === today now then
      Some (mkBadge BSuccess "Join Now" (Some (join_link (meetingId meeting))))
    else if isBefore (m_parse (meetingDate meeting)) (m_parse (today now)) then
      Some (mkBadge BDefault "Ended" None)
    else if isAfter (m_parse (meetingDate meeting)) now then
      Some (mkBadge BPrimary "Upcoming" None)
    else None
  else Some (mkBadge BDanger "Cancelled" None).

(** [Meeting.tsx], the same column of the table of all visible meetings. *)
Definition statusRenderAll (meeting : MeetingType) (now : Z) : option Badge :=
  if status meeting then
    if meetingDate meeting === today now then
      Some (mkBadge BSuccess "Join Now" (Some (join_link (meetingId meeting))))
    else if isBefore (m_parse (meetingDate meeting)) (m_parse (today now)) then
      Some (mkBadge BDefault "Ended" None)
    else if isAfter (m_parse (meetingDate meeting)) now then
      Some (mkBadge BPrimary "Upcoming" None)
    else None
  else Some (mkBadge BDanger "Cancelled" None).

(** [MyMeetings.tsx], the edit button's [isDisabled]. *)
Definition editDisabled (meeting : MeetingType) (now : Z) : bool :=
  isBefore (m_parse (meetingDate meeting)) (m_parse (today now)) || negb (status meeting).

End Render.

(** The badge the contract's display status stands for. *)
Definition badge_of (m : MeetingType) (d : DisplayStatus) : Badge :=
  match d with
  | Cancelled => mkBadge BDanger "Cancelled" None
  | Ended => mkBadge BDefault "Ended" None
  | JoinNow => mkBadge BSuccess "Join Now" (Some (join_link (meetingId m)))
  | Upcoming => mkBadge BPrimary "Upcoming" None
  end.

Section Theorems.
Context `{M : MomentLib} `{!MomentLaws M}.
Import Calendar.

(** The display status of a dated meeting by the contract. *)
Lemma classify_days m dtc dnow :
  classify m dtc dnow =
  if status m then
    if (dtc <? dnow)%Z then Ended else if (dnow <? dtc)%Z then Upcoming else JoinNow
  else Cancelled.
Proof.
  unfold classify. destruct (status m); [|done]. cbn [negb].
  destruct (Z.ltb_spec dtc dnow); [done|].
  destruct (Z.eqb_spec dtc dnow), (Z.ltb_spec dnow dtc); (done || lia).
Qed.

(** The cell of [MyMeetings.tsx] on a printed date. *)
Lemma statusRender_dated m tc now : dated m tc -> in_range now ->
  statusRender m now = Some (badge_of m (classify m (day_of tc) (day_of now))).
Proof.
  intros [Hd Hr] Hn. unfold statusRender. rewrite Hd, date_chain, classify_days by done.
  destruct (status m); [|done].
  destruct (day_of tc <? day_of now)%Z; [done|]. by destruct (day_of now <? day_of tc)%Z.
Qed.

(** C3.  On every printed date both tables show the badge of the
    contract's display status.  The chain of comparisons is exhaustive:
    the cell is never [undefined]. *)
Theorem status_columns_refine_classify m tc now : dated m tc -> in_range now ->
  statusRender m now = Some (badge_of m (classify m (day_of tc) (day_of now))) /\
  statusRenderAll m now = Some (badge_of m (classify m (day_of tc) (day_of now))).
Proof.
  intros Hd Hn. split; [by apply statusRender_dated|].
  rewrite <- (statusRender_dated m tc now Hd Hn). reflexivity.
Qed.

(** C20.  The badge and the join page agree on the boundary day: for an
    active restricted meeting and an eligible signed-in user, the table
    shows "Join Now" exactly when the join page opens the room. *)
Theorem status_join_agree m u tc now :
  meetingType m <> AnyoneCanJoin -> status m = true -> dated m tc -> in_range now ->
  eligible m (Some (au_uid u)) = true ->
  statusRender m now = Some (badge_of m JoinNow) <->
  Join.joinDecision m (Some u) now = [SetIsAllowed true].
Proof.
  intros Hty Hst Hdt Hn Hel.
  rewrite (statusRender_dated m tc now Hdt Hn), classify_days, Hst.
  rewrite (Join.joinDecision_eligible m u tc now) by done.
  destruct (day_of tc <? day_of now)%Z; [done|].
  destruct (day_of now <? day_of tc)%Z; [|done].
  split; [done|]. by destruct (meetingType m).
Qed.

(** The edit button is enabled exactly on the meetings whose
    display status is "Join Now" or "Upcoming": active, and not before
    today. *)
Theorem edit_enabled_iff m tc now : dated m tc -> in_range now ->
  editDisabled m now = false <->
  classify m (day_of tc) (day_of now) = JoinNow \/ classify m (day_of tc) (day_of now) = Upcoming.
Proof.
  intros [Hd Hr] Hn. unfold editDisabled, today in *. rewrite Hd.
  pose proof (isBefore_today tc now Hr Hn) as E. unfold today in E. rewrite E, classify_days.
  destruct (status m); cbn [negb]; rewrite ?orb_false_r, ?orb_true_r;
    [|split; [done|by intros [|]]].
  destruct (day_of tc <? day_of now)%Z; [split; [done|by intros [|]]|].
  split; [intros _; by destruct (day_of now <? day_of tc)%Z; [right|left]|done].
Qed.

End Theorems.

Section Witnesses.
Import Calendar Join.

Lemma status_columns_refine_classify_witness :
  let m := scenario VideoConference ["U2"] feb28 true in
  (dated m feb28 /\ in_range feb29_10h) /\
  (statusRender m feb29_10h = Some (badge_of m (classify m (day_of feb28) (day_of feb29_10h))) /\
   statusRenderAll m feb29_10h = Some (badge_of m (classify m (day_of feb28) (day_of feb29_10h)))).
Proof.
  cbv zeta.
  witness (status_columns_refine_classify (scenario VideoConference ["U2"] feb28 true) feb28 feb29_10h).
Defined.

Lemma status_join_agree_witness :
  let m := scenario OneOnOne ["U2"] feb29 true in
  (meetingType m <> AnyoneCanJoin /\ status m = true /\ dated m feb29 /\ in_range feb29_10h /\
   eligible m (Some (au_uid bob)) = true) /\
  (statusRender m feb29_10h = Some (badge_of m JoinNow) <->
   joinDecision m (Some bob) feb29_10h = [SetIsAllowed true]).
Proof.
  cbv zeta. witness (status_join_agree (scenario OneOnOne ["U2"] feb29 true) bob feb29 feb29_10h).
Defined.

Lemma edit_enabled_iff_witness :
  let m := scenario VideoConference ["U2"] mar01 true in
  (dated m mar01 /\ in_range feb29_10h) /\
  (editDisabled m feb29_10h = false <->
   classify m (day_of mar01) (day_of feb29_10h) = JoinNow \/
   classify m (day_of mar01) (day_of feb29_10h) = Upcoming).
Proof.
  cbv zeta. witness (edit_enabled_iff (scenario VideoConference ["U2"] mar01 true) mar01 feb29_10h).
Defined.

End Witnesses.

End Status.
