(* ===== verification/Toasts.v ===== *)
(** * The toast queue

    [app/slices/MeetingSlice.ts] keeps [toasts : Array<ToastType>] in the
    Redux store, and its one reducer [setToasts] replaces the array.
    [hooks/useToast.tsx]'s [createToast] dispatches the array it read at
    render time, extended by a toast whose [id] is
    [new Date().toISOString()].  [App.tsx]'s [removeToast] (the toast
    list's [dismissToast], called by the dismiss button and by the 4 s
    timer) dispatches that array without the toasts of the dismissed id.
    The theorems state the queue's contract (spec section 4.4): push then
    dismiss, idempotent dismissal, and when identifiers collide.  The step
    relation [reach] shows that identifiers stay unique while the clock
    strictly advances between pushes.  The 4 s timer belongs to EUI's
    [EuiGlobalToastList] and is not modelled; what it calls,
    [removeToast], is. *)

From S2P Require Import Prelude Moment Types.

Open Scope string_scope.

Module Toasts.
Import Calendar Iso.

(** [meetingInitialState]. *)
Record MeetingsState := mkMeetingsState {
  toasts : list ToastType;
}.

Definition initialState : MeetingsState := mkMeetingsState [].

(** The reducer [setToasts]: [state.toasts = action.payload]. *)
Definition setToasts (payload : list ToastType) (state : MeetingsState) : MeetingsState :=
  mkMeetingsState payload.

(** [createToast({title, type})]: the payload it dispatches.  [snapshot]
    is the [toasts] array selected when the component rendered; [now] is
    the instant of [new Date()], in epoch milliseconds. *)
Definition createToast (snapshot : list ToastType) (now : Z) (title : string)
    (type : option ToastColor) : list ToastType :=
  snapshot ++ [mkToast (toISOString now) title type].

(** [removeToast(removedToast)]: the payload it dispatches. *)
Definition removeToast (snapshot : list ToastType) (removedId : string) : list ToastType :=
  js_filter (fun toast => id toast !== removedId) snapshot.

(** The two dispatches, each reading the store's current array (the
    component has re-rendered since the previous dispatch). *)
Inductive ToastAction :=
| Create (now : Z) (title : string) (type : option ToastColor)
| Remove (removedId : string).

Definition step (state : MeetingsState) (a : ToastAction) : MeetingsState :=
  match a with
  | Create now title type => setToasts (createToast (toasts state) now title type) state
  | Remove i => setToasts (removeToast (toasts state) i) state
  end.

(** Instants whose ISO string has a four-digit year. *)
Definition iso_range (t : Z) : Prop := (0 <= c_year (civil_from_days (t / ms_per_day)) <= 9999)%Z.

#[export] Instance iso_range_dec t : Decision (iso_range t).
Proof. unfold iso_range. apply _. Defined.

(** The queues reachable from the initial state when each push happens
    at a later millisecond than the previous one; [last] is the instant
    of the last push. *)
Inductive reach : Z -> MeetingsState -> Prop :=
| reach_init last : reach last initialState
| reach_create last st now title type :
    reach last st -> (last < now)%Z -> iso_range now ->
    reach now (step st (Create now title type))
| reach_remove last st i :
    reach last st -> reach last (step st (Remove i)).

(** Distinct instants of four-digit year print distinct identifiers. *)
Lemma toISOString_inj t1 t2 : iso_range t1 -> iso_range t2 ->
  toISOString t1 = toISOString t2 -> t1 = t2.
Proof.
  intros H1 H2 E. pose proof (parse_toISOString t1 H1) as P.
  rewrite E, parse_toISOString in P by done. congruence.
Qed.

Lemma removeToast_app l1 l2 x :
  removeToast (l1 ++ l2)%list x = (removeToast l1 x ++ removeToast l2 x)%list.
Proof. apply js_filter_app. Qed.

Lemma removeToast_In l x t : In t (removeToast l x) <-> In t l /\ id t <> x.
Proof.
  unfold removeToast. rewrite js_filter_In, negb_true_iff, bool_decide_eq_false. done.
Qed.

(** Dismissing the identifier just pushed removes the new toast and
    leaves the queue as if that identifier had been dismissed before the
    push: afterwards no toast carries it. *)
Theorem push_then_dismiss q now title type :
  removeToast (createToast q now title type) (toISOString now) = removeToast q (toISOString now) /\
  Forall (fun t => id t <> toISOString now)
    (removeToast (createToast q now title type) (toISOString now)).
Proof.
  split.
  - unfold createToast. rewrite removeToast_app.
    unfold removeToast at 2. simpl. rewrite js_eq_refl. apply app_nil_r.
  - apply Forall_forall. intros t Ht. by apply removeToast_In in Ht as [_ ?].
Qed.

(** Dismissal is idempotent, and dismissing an identifier that is not in
    the queue leaves it unchanged; a manual dismissal and the timer may
    both fire on one toast. *)
Theorem dismiss_idempotent q x :
  removeToast (removeToast q x) x = removeToast q x /\
  (Forall (fun t => id t <> x) q -> removeToast q x = q).
Proof.
  split; [apply js_filter_idem|].
  intros H. apply js_filter_all. eapply Forall_impl; [|exact H].
  intros t Ht. simpl. by rewrite bool_decide_eq_false_2.
Qed.

(** Two pushes: dismissing the later toast keeps the earlier one exactly
    when they were pushed at different milliseconds.  Two toasts of the
    same millisecond share an identifier and vanish together. *)
Theorem dismiss_keeps_earlier_iff q t1 t2 title1 title2 type1 type2 :
  iso_range t1 -> iso_range t2 ->
  In (mkToast (toISOString t1) title1 type1)
     (removeToast (createToast (createToast q t1 title1 type1) t2 title2 type2) (toISOString t2))
  <-> t1 <> t2.
Proof.
  intros H1 H2. rewrite removeToast_In. unfold createToast. simpl.
  split.
  - intros [_ Hne] ->. done.
  - intros Hne. split; [rewrite !in_app_iff; simpl; tauto|].
    intros E. apply Hne. by apply toISOString_inj.
Qed.

(** C7.  While the clock strictly advances between pushes, the identifiers in
    the queue are pairwise distinct, each the ISO string of an instant no
    later than the last push. *)
Theorem reach_ids_unique last st : reach last st ->
  NoDup (map id (toasts st)) /\
  Forall (fun t => exists s, (s <= last)%Z /\ iso_range s /\ id t = toISOString s) (toasts st).
Proof.
  induction 1 as [last|last st now title type _ [IHn IHf] Hlt Hr|last st i _ [IHn IHf]]; simpl.
  - split; constructor.
  - unfold createToast. rewrite map_app. split.
    + apply list.NoDup_app. split; [done|]. split; [|apply NoDup_singleton].
      intros x Hx Hy. simpl in Hy. rewrite list_elem_of_singleton in Hy. subst x.
      apply list_elem_of_In, in_map_iff in Hx as (t & Ht & Hin).
      rewrite Forall_forall in IHf. destruct (IHf t Hin) as (s & Hs & Hsr & Hid).
      rewrite Hid in Ht. apply toISOString_inj in Ht; [lia|done|done].
    + apply Forall_app. split; [|constructor; [exists now; simpl; split_and!; done|constructor]].
      eapply Forall_impl; [|exact IHf]. intros t (s & Hs & ?). exists s. split; [lia|done].
  - split; [by apply js_filter_NoDup_map|].
    apply Forall_forall. intros t [Ht _]%removeToast_In. by eapply Forall_forall in IHf.
Qed.

(** ** Witnesses *)

Definition feb29_utc : Z := 1709164800000.

Example toISOString_feb29 : toISOString (feb29_utc + 3723004) = "2024-02-29T01:02:03.004Z".
Proof. vm_compute. reflexivity. Qed.

Lemma dismiss_idempotent_witness :
  let q := [mkToast (toISOString feb29_utc) "Meeting has ended." (Some Danger)] in
  Forall (fun t => id t <> "x") q /\
  (removeToast (removeToast q "x") "x" = removeToast q "x" /\
   (Forall (fun t => id t <> "x") q -> removeToast q "x" = q)).
Proof.
  cbv zeta. split; [constructor; [vm_compute; discriminate|constructor]|].
  apply dismiss_idempotent.
Defined.

Lemma dismiss_keeps_earlier_iff_witness :
  (iso_range feb29_utc /\ iso_range feb29_utc) /\
  (In (mkToast (toISOString feb29_utc) "Meeting has ended." (Some Danger))
      (removeToast (createToast (createToast [] feb29_utc "Meeting has ended." (Some Danger))
                     feb29_utc "Meeting updated successfully." (Some Success))
                   (toISOString feb29_utc))
   <-> feb29_utc <> feb29_utc).
Proof. witness (dismiss_keeps_earlier_iff [] feb29_utc feb29_utc). Defined.

Lemma reach_ids_unique_witness :
  let st := step (step initialState (Create feb29_utc "a" None)) (Create (feb29_utc + 1) "b" None) in
  reach (feb29_utc + 1) st /\
  (NoDup (map id (toasts st)) /\
   Forall (fun t => exists s, (s <= feb29_utc + 1)%Z /\ iso_range s /\ id t = toISOString s)
     (toasts st)).
Proof.
  cbv zeta.
  assert (H : reach (feb29_utc + 1)
                (step (step initialState (Create feb29_utc "a" None)) (Create (feb29_utc + 1) "b" None))).
  { apply (reach_create feb29_utc); [apply (reach_create 0); [constructor|vm_compute; reflexivity|by_eval]
                                   |unfold feb29_utc; lia|by_eval]. }
  split; [exact H|]. exact (reach_ids_unique _ _ H).
Defined.

End Toasts.
