(* ===== verification/Listing.v ===== *)
(** * The meeting tables' contents

    [pages/Meeting.tsx] reads the whole [meetings] collection and keeps,
    in a [forEach] loop, the meetings the viewer created, the open ones
    and the ones the viewer is invited to.  [pages/MyMeetings.tsx] queries
    the meetings the viewer created and tags each with its document id.
    Both call [setMeetings] only when the query returned a document.  A
    lemma turns the loop into a filter; the theorems relate the listing
    to the join gate's eligibility.  For one-on-one meetings the two agree exactly
    when the invite list has at most one entry. *)

From S2P Require Import Prelude Moment Types Spec JoinMeeting.

Open Scope string_scope.

Module Listing.

(** [Meeting.tsx], the [forEach] callback's test on [meeting.data()]. *)
Definition shown (uid : option string) (data : MeetingType) : bool :=
  if Some (createdBy data) === uid then true
  else if meetingType data === AnyoneCanJoin then true
  else findIndex (fun user => Some user === uid) (invitedUsers data) !== (-1)%Z.

(** [fetchedMeetings.forEach(...)] pushing onto [myMeetings]. *)
Fixpoint collectShown (uid : option string) (docs : list MeetingDoc)
    (myMeetings : list MeetingType) : list MeetingType :=
  match docs with
  | [] => myMeetings
  | d :: ds =>
      collectShown uid ds (if shown uid (doc_data d) then (myMeetings ++ [doc_data d])%list
                           else myMeetings)
  end.

(** [Meeting.tsx] lines 55-93: the effect, run when [userInfo] is set;
    [Some l] is [setMeetings(l)], [None] no call. *)
Definition meetingsPageLoad (userInfo : option UserInfo) (store : list MeetingDoc)
    : option (list MeetingType) :=
  match userInfo with
  | None => None
  | Some ui =>
      if (length store =? 0)%nat then None
      else Some (collectShown (Some (ui_uid ui)) store [])
  end.

(** [{docId: meeting.id, ...(meeting.data())}]: the spread comes last, so
    a [docId] stored in the data wins over the document id. *)
Definition withDocId (d : MeetingDoc) : MeetingType :=
  let m := doc_data d in
  mkMeeting (match docId m with Some x => Some x | None => Some (doc_id d) end)
    (createdBy m) (invitedUsers m) (maxUsers m) (meetingDate m) (meetingId m)
    (meetingName m) (meetingType m) (status m).

(** [MyMeetings.tsx] lines 63-90: [getMyMeetings], run when [userInfo]
    is set: the query [where("createdBy", "==", userInfo?.uid)], then the
    tagged documents. *)
Definition myMeetingsLoad (userInfo : option UserInfo) (store : list MeetingDoc)
    : option (list MeetingType) :=
  match userInfo with
  | None => None
  | Some ui =>
      let fetched := js_filter (fun d => Some (createdBy (doc_data d)) === Some (ui_uid ui)) store in
      match fetched with
      | [] => None
      | _ => Some (map withDocId fetched)
      end
  end.

(** The invariant the creation forms establish: a direct (one-on-one)
    meeting invites at most one user. *)
Definition direct_wf (m : MeetingType) : Prop :=
  meetingType m = OneOnOne -> (length (invitedUsers m) <= 1)%nat.

#[export] Instance direct_wf_dec m : Decision (direct_wf m).
Proof. unfold direct_wf. apply _. Defined.

(** The [forEach] loop pushes the documents the test keeps, in order. *)
Lemma collectShown_filter uid docs acc :
  collectShown uid docs acc =
  (acc ++ map doc_data (js_filter (fun d => shown uid (doc_data d)) docs))%list.
Proof.
  revert acc. induction docs as [|d ds IH]; intros acc; simpl; [by rewrite app_nil_r|].
  rewrite IH. destruct (shown uid (doc_data d)); simpl; [by rewrite <- app_assoc|done].
Qed.

(** The test of the loop is the contract's eligibility, for a signed-in
    viewer and a meeting satisfying [direct_wf]. *)
Lemma shown_eligible uid m : direct_wf m -> shown (Some uid) m = Spec.eligible m (Some uid).
Proof.
  unfold direct_wf, shown, Spec.eligible. rewrite index_found, some_eq_swap.
  destruct (meetingType m) eqn:Ht; intros Hwf.
  - by destruct (uid === createdBy m).
  - rewrite (bool_decide_eq_false_2 (VideoConference = AnyoneCanJoin)) by discriminate.
    by destruct (uid === createdBy m).
  - rewrite (bool_decide_eq_false_2 (OneOnOne = AnyoneCanJoin)) by discriminate.
    destruct (uid === createdBy m); [done|]. specialize (Hwf eq_refl).
    destruct (invitedUsers m) as [|x [|y l]]; simpl in Hwf; [done| |lia].
    cbn [orb list.head]. apply Bool.eq_iff_eq_true.
    rewrite !bool_decide_eq_true, list_elem_of_singleton. split; [intros ->|intros [= ->]]; done.
Qed.

(** C6.  The Meetings page, for a signed-in
    viewer and a non-empty collection of well-formed meetings, lists
    exactly the meetings the contract lets the viewer join (before the
    date and status checks), in the collection's order. *)
Theorem meetings_page_lists_eligible ui store :
  store <> [] -> Forall (fun d => direct_wf (doc_data d)) store ->
  meetingsPageLoad (Some ui) store =
  Some (map doc_data (js_filter (fun d => Spec.eligible (doc_data d) (Some (ui_uid ui))) store)).
Proof.
  intros Hne Hwf. unfold meetingsPageLoad.
  destruct store as [|d ds]; [done|]. cbn [length Nat.eqb].
  rewrite collectShown_filter, app_nil_l. do 2 f_equal. apply filter_ext_in.
  intros x Hx. apply shown_eligible. by eapply Forall_forall in Hwf.
Qed.

(** A one-on-one meeting that invites
    the viewer in second place is listed on the Meetings page, but the
    join page sends the viewer home without a word. *)
Theorem listed_but_refused `{MomentLib} m u now :
  meetingType m = OneOnOne -> createdBy m <> au_uid u ->
  head (invitedUsers m) <> Some (au_uid u) -> au_uid u ∈ invitedUsers m ->
  shown (Some (au_uid u)) m = true /\ Join.joinDecision m (Some u) now = [Spec.Navigate "/"].
Proof.
  intros Ht Hc Hh Hin. unfold shown, Join.joinDecision. cbn [fmap option_fmap option_map].
  rewrite Ht, index_found, (bool_decide_eq_true_2 (au_uid u ∈ invitedUsers m)) by done.
  split; [by destruct (Some (createdBy m) === Some (au_uid u)), (OneOnOne === AnyoneCanJoin)|].
  rewrite Join.first_invitee, (bool_decide_eq_false_2 (head (invitedUsers m) = Some (au_uid u))),
    (bool_decide_eq_false_2 (Some (createdBy m) = Some (au_uid u))) by congruence.
  done.
Qed.

(** Every row of My Meetings is a meeting
    the viewer created, and every meeting the viewer created is a row,
    tagged with its document id (the stored data carries no [docId]). *)
Theorem my_meetings_own ui store l :
  myMeetingsLoad (Some ui) store = Some l ->
  Forall (fun d => docId (doc_data d) = None) store ->
  (forall m, In m l -> createdBy m = ui_uid ui) /\
  (forall d, In d store -> createdBy (doc_data d) = ui_uid ui -> In (Some (doc_id d)) (map docId l)).
Proof.
  intros Hl Hno. unfold myMeetingsLoad in Hl.
  remember (js_filter _ store) as own eqn:Hf.
  assert (l = map withDocId own) as -> by (destruct own; congruence). subst own.
  split.
  - intros m (d & <- & (_ & Hd)%js_filter_In)%in_map_iff. js_bool. simpl. congruence.
  - intros d Hd Hc. rewrite map_map. apply in_map_iff. exists d.
    rewrite js_filter_In. eapply Forall_forall in Hno; [|exact Hd].
    unfold withDocId. simpl. rewrite Hno, Hc, js_eq_refl. done.
Qed.

(** ** Witnesses *)

Section Witnesses.
Import Join.

Definition viewer : UserInfo := mkUserInfo "U2" (Some "bob@example.com") (Some "Bob").

(** A video conference inviting U2, an open meeting, and a direct
    meeting of U3 inviting U1. *)
Definition sample_store : list MeetingDoc :=
  [mkDoc "d1" (scenario VideoConference ["U2"] feb29 true);
   mkDoc "d2" (scenario AnyoneCanJoin [] mar01 true);
   mkDoc "d3" (mkMeeting None "U3" ["U1"] (Some 1) (m_format feb29) "zz99yy88" "1:1" OneOnOne true)].

Lemma meetings_page_lists_eligible_witness :
  (sample_store <> [] /\ Forall (fun d => direct_wf (doc_data d)) sample_store) /\
  meetingsPageLoad (Some viewer) sample_store =
  Some (map doc_data (js_filter (fun d => Spec.eligible (doc_data d) (Some (ui_uid viewer))) sample_store)).
Proof.
  assert (Hwf : Forall (fun d => direct_wf (doc_data d)) sample_store)
    by (repeat constructor; intros Ht; vm_compute; (discriminate || lia)).
  split; [split; [discriminate|exact Hwf]|].
  exact (meetings_page_lists_eligible viewer sample_store ltac:(discriminate) Hwf).
Defined.

Lemma listed_but_refused_witness :
  let m := scenario OneOnOne ["U2"; "U3"] feb29 true in
  (meetingType m = OneOnOne /\ createdBy m <> au_uid carol /\
   head (invitedUsers m) <> Some (au_uid carol) /\ au_uid carol ∈ invitedUsers m) /\
  (shown (Some (au_uid carol)) m = true /\ joinDecision m (Some carol) feb29_10h = [Spec.Navigate "/"]).
Proof.
  cbv zeta. assert (Hin : au_uid carol ∈ invitedUsers (scenario OneOnOne ["U2"; "U3"] feb29 true))
    by by_eval.
  split; [split_and!; [reflexivity|discriminate|discriminate|exact Hin]|].
  exact (listed_but_refused (scenario OneOnOne ["U2"; "U3"] feb29 true) carol feb29_10h
           eq_refl ltac:(discriminate) ltac:(discriminate) Hin).
Defined.

Lemma my_meetings_own_witness :
  let l := map withDocId (take 2 sample_store) in
  let ui := mkUserInfo "U1" (Some "alice@example.com") (Some "Alice") in
  (myMeetingsLoad (Some ui) sample_store = Some l /\
   Forall (fun d => docId (doc_data d) = None) sample_store) /\
  ((forall m, In m l -> createdBy m = ui_uid ui) /\
   (forall d, In d sample_store -> createdBy (doc_data d) = ui_uid ui ->
    In (Some (doc_id d)) (map docId l))).
Proof.
  cbv zeta. assert (Hl : myMeetingsLoad (Some (mkUserInfo "U1" (Some "alice@example.com") (Some "Alice"))) sample_store =
    Some (map withDocId (take 2 sample_store))) by (vm_compute; reflexivity).
  assert (Hno : Forall (fun d => docId (doc_data d) = None) sample_store) by (repeat constructor).
  split; [split; [exact Hl|exact Hno]|]. exact (my_meetings_own _ _ _ Hl Hno).
Defined.

End Witnesses.

End Listing.
