(* ===== verification/Forms.v ===== *)
(** * The meeting creation forms

    [pages/OneOnOneMeeting.tsx] and [pages/VideoConference.tsx] validate
    their fields ([validateForm]), then write one document with
    [addDoc], push a success toast and navigate home ([createMeeting]).
    [components/FormComponents/MeetingMaximumUsersField.tsx] turns the
    text of the number field into the size, through [parseInt].  The
    handlers return the ordered list of the calls they make.  The
    theorems show that creation establishes the invariants the join gate
    and the listings rely on, and how far the size field keeps its
    promised range of 1 to 50. *)

From Stdlib Require Import Ascii.
From S2P Require Import Prelude Moment Types Spec MeetingId Listing.

Open Scope string_scope.

Module Forms.

(** ** [parseInt(s)] with the radix left [undefined] (ECMAScript 19.2.5) *)

Section ParseInt.
Local Open Scope Z_scope.

(** The ASCII [StrWhiteSpaceChar]s: tab, line feed, vertical tab, form
    feed, carriage return and space. *)
Definition is_space (c : Ascii.ascii) : bool :=
  let n := Ascii.nat_of_ascii c in
  ((9 <=? n) && (n <=? 13) || (n =? 32))%nat.

Fixpoint trim_start (s : string) : string :=
  match s with
  | String c s' => if is_space c then trim_start s' else s
  | EmptyString => EmptyString
  end.

(** The value of a digit in radix 10 or 16. *)
Definition digit_value (radix : Z) (c : Ascii.ascii) : option Z :=
  let n := Z.of_nat (Ascii.nat_of_ascii c) in
  let v := if (48 <=? n) && (n <=? 57) then Some (n - 48)
           else if (97 <=? n) && (n <=? 122) then Some (n - 87)
           else if (65 <=? n) && (n <=? 90) then Some (n - 55)
           else None in
  match v with
  | Some d => if d <? radix then Some d else None
  | None => None
  end.

(** The longest prefix of digits, read as a number; [None] when the
    prefix is empty. *)
Fixpoint digits_value (radix : Z) (acc : option Z) (s : string) : option Z :=
  match s with
  | String c s' =>
      match digit_value radix c with
      | Some d => digits_value radix (Some (radix * default 0 acc + d)) s'
      | None => acc
      end
  | EmptyString => acc
  end.

(** [None] is [NaN]. *)
Definition parseInt (input : string) : option Z :=
  let s := trim_start input in
  let '(sign, s) := match s with
                    | String "-" s' => (-1, s')
                    | String "+" s' => (1, s')
                    | _ => (1, s)
                    end in
  let '(radix, s) := match s with
                     | String "0" (String x s') =>
                         if Ascii.eqb x "x"%char || Ascii.eqb x "X"%char then (16, s') else (10, s)
                     | _ => (10, s)
                     end in
  (fun n => sign * n) <$> digits_value radix None s.

End ParseInt.

(** [MeetingMaximumUsersField]'s [onChange]: the argument of [setSize]
    for the field's text [value] ([None] is [NaN]). *)
Definition onMaxUsersChange (value : string) : option Z :=
  if ((String.length value =? 0)%nat || (parseInt value === Some 0%Z)) then Some 1%Z
  else if (match parseInt value with Some n => (50 <? n)%Z | None => false end) then Some 50%Z
  else parseInt value.

(** ** The forms *)

(** The [showErrors] state: the name field's and the user field's
    errors ([meetingUser] in the one-on-one form, [meetingUsers] in the
    video conference form). *)
Record ShowErrors := mkShowErrors {
  meetingNameError : FieldErrorType;
  meetingUserError : FieldErrorType;
}.

(** The calls [createMeeting] makes, in order.  [Rejected] ends the
    async function with an exception: [addDoc] rejects a document with
    an [undefined] field, and [selectedUser[0].uid] throws on an empty
    array. *)
Inductive FormEffect :=
| SetShowErrors (errors : ShowErrors)
| AddDoc (data : MeetingType)
| Rejected (reason : string)
| Ui (e : Spec.Effect).

Definition nameError (meetingName : string) : bool * FieldErrorType :=
  if (String.length meetingName =? 0)%nat
  then (true, mkFieldError true ["Please Enter Meeting Name"])
  else (false, mkFieldError false []).

(** [OneOnOneMeeting.tsx] [validateForm]: [errors] and the new state. *)
Definition validateForm1 (meetingName : string) (selectedUser : list UserType)
    : bool * ShowErrors :=
  let '(errors, nameErr) := nameError meetingName in
  let '(errors, userErr) :=
    if (length selectedUser =? 0)%nat then (true, mkFieldError true ["Please Select a User"])
    else (errors, mkFieldError false []) in
  (errors, mkShowErrors nameErr userErr).

(** [VideoConference.tsx] [validateForm]: an open meeting needs no
    invitee. *)
Definition validateForm2 (meetingName : string) (selectedUser : list UserType)
    (anyoneCanJoin : bool) : bool * ShowErrors :=
  let '(errors, nameErr) := nameError meetingName in
  let '(errors, userErr) :=
    if (length selectedUser =? 0)%nat && negb anyoneCanJoin
    then (true, mkFieldError true ["Please Select a User"])
    else (errors, mkFieldError false []) in
  (errors, mkShowErrors nameErr userErr).

Definition undefined_field : string := "Unsupported field value: undefined".

Section Create.
Context `{MomentLib}.

(** [OneOnOneMeeting.tsx] [createMeeting]: [uid] is
    [userInfo?.uid], [rnd] the draws of [generateMeetingID], [startDate]
    the picked instant, or [None] for the [null] the date picker reports
    when its text is cleared.  The object literal is evaluated in order:
    [selectedUser[0].uid] and then [startDate.format("L")] throw a
    [TypeError] before [addDoc] is called, which rejects an [undefined]
    [createdBy]. *)
Definition createMeeting1 (rnd : nat -> Z) (uid : option string) (meetingName : string)
    (selectedUser : list UserType) (startDate : option Z) : list FormEffect :=
  let '(errors, showErrors) := validateForm1 meetingName selectedUser in
  SetShowErrors showErrors ::
  if errors then []
  else
    let meetingId := MeetingId.generateMeetingID rnd in
    match selectedUser with
    | [] => [Rejected "TypeError"]
    | first :: _ =>
        match startDate with
        | None => [Rejected "TypeError"]
        | Some t =>
            match uid with
            | None => [Rejected undefined_field]
            | Some createdBy =>
                [AddDoc (mkMeeting None createdBy [Types.uid first] (Some 1) (m_format t)
                           meetingId meetingName OneOnOne true);
                 Ui (Spec.CreateToast "One on One Meeting Created Successfully" (Some Success));
                 Ui (Spec.Navigate "/")]
            end
        end
    end.

(** [VideoConference.tsx] [createMeeting]; [size] is the size state
    ([None] is [NaN]), [startDate] as in [createMeeting1]. *)
Definition createMeeting2 (rnd : nat -> Z) (uid : option string) (meetingName : string)
    (selectedUser : list UserType) (startDate : option Z) (size : option Z) (anyoneCanJoin : bool)
    : list FormEffect :=
  let '(errors, showErrors) := validateForm2 meetingName selectedUser anyoneCanJoin in
  SetShowErrors showErrors ::
  if errors then []
  else
    let meetingId := MeetingId.generateMeetingID rnd in
    match startDate with
    | None => [Rejected "TypeError"]
    | Some t =>
        match uid with
        | None => [Rejected undefined_field]
        | Some createdBy =>
            [AddDoc (mkMeeting None createdBy
                       (if anyoneCanJoin then [] else map Types.uid selectedUser)
                       (if anyoneCanJoin then Some 100 else size) (m_format t) meetingId
                       meetingName (if anyoneCanJoin then AnyoneCanJoin else VideoConference) true);
             Ui (Spec.CreateToast (if anyoneCanJoin then "Anyone can join meeting created successfully"
                              else "Video Conference created successfully.") (Some Success));
             Ui (Spec.Navigate "/")]
        end
    end.

End Create.

(** ** Properties *)

Lemma parseInt_empty : parseInt "" = None.
Proof. reflexivity. Qed.

Lemma length_zero_empty (v : string) : (String.length v =? 0)%nat = true -> v = "".
Proof. destruct v; [done|discriminate]. Qed.

(** The field never sets a size above 50. *)
Lemma onMaxUsersChange_le v n : onMaxUsersChange v = Some n -> (n <= 50)%Z.
Proof.
  unfold onMaxUsersChange. destruct (_ || _); [intros [= <-]; lia|].
  destruct (parseInt v) as [m|]; [|discriminate]. destruct (Z.ltb_spec 50 m); intros [= <-]; lia.
Qed.

(** C34.  The size field: every number it
    sets is at most 50; a non-negative reading is clamped to [1, 50];
    a negative reading is passed through unchanged; a text [parseInt]
    cannot read sets [NaN], except the empty text, which sets 1. *)
Theorem onMaxUsersChange_bounds v :
  (forall n, onMaxUsersChange v = Some n -> (n <= 50)%Z) /\
  (forall m, parseInt v = Some m ->
     onMaxUsersChange v = Some (if (m <? 0)%Z then m else Z.max 1 (Z.min 50 m))) /\
  (parseInt v = None -> onMaxUsersChange v = if (String.length v =? 0)%nat then Some 1%Z else None).
Proof.
  unfold onMaxUsersChange.
  destruct (String.length v =? 0)%nat eqn:El.
  { apply length_zero_empty in El as ->. rewrite parseInt_empty.
    split; [intros n [= <-]; lia|split; [discriminate|done]]. }
  cbn [orb]. destruct (parseInt v) as [m|]; [|split; [discriminate|split; [discriminate|done]]].
  destruct (Some m === Some 0%Z) eqn:E0; js_bool.
  - injection E0 as ->. split; [intros n [= <-]; lia|split; [intros ? [= <-]; done|discriminate]].
  - assert (m <> 0%Z) by congruence.
    destruct (Z.ltb_spec 50 m); (split; [intros n [= <-]; lia|split; [|discriminate]]);
      intros ? [= <-]; destruct (Z.ltb_spec m 0); f_equal; lia.
Qed.

(** [errors] of the one-on-one form: an empty name or no user. *)
Lemma validateForm1_errors n sel :
  fst (validateForm1 n sel) = ((String.length n =? 0)%nat || (length sel =? 0)%nat).
Proof.
  unfold validateForm1, nameError.
  destruct (String.length n =? 0)%nat, (length sel =? 0)%nat; reflexivity.
Qed.

(** [errors] of the video conference form. *)
Lemma validateForm2_errors n sel any :
  fst (validateForm2 n sel any) =
  ((String.length n =? 0)%nat || ((length sel =? 0)%nat && negb any)).
Proof.
  unfold validateForm2, nameError.
  destruct (String.length n =? 0)%nat, ((length sel =? 0)%nat && negb any); reflexivity.
Qed.

Section CreateProps.
Context `{MomentLib}.

(** The document the one-on-one form writes. *)
Lemma createMeeting1_doc rnd uid name sel t m :
  In (AddDoc m) (createMeeting1 rnd uid name sel t) ->
  name <> "" /\
  exists u us c d, sel = u :: us /\ uid = Some c /\ t = Some d /\
    m = mkMeeting None c [Types.uid u] (Some 1) (m_format d) (MeetingId.generateMeetingID rnd)
          name OneOnOne true.
Proof.
  unfold createMeeting1. pose proof (validateForm1_errors name sel) as He.
  destruct (validateForm1 name sel) as [errors se]. cbn [fst] in He. subst errors.
  destruct (String.length name =? 0)%nat eqn:En; [intros [[=]|[]]|].
  assert (name <> "") by (intros ->; discriminate).
  destruct sel as [|u us]; cbn [length Nat.eqb orb]; [intros [[=]|[]]|].
  destruct t as [d|]; [|intros [[=]|[[=]|[]]]].
  destruct uid as [c|]; [|intros [[=]|[[=]|[]]]].
  intros [[=]|[[= <-]|[[=]|[[=]|[]]]]]. split; [done|]. by exists u, us, c, d.
Qed.

(** The one-on-one form writes a
    document exactly when the name is non-empty, a user is selected and
    the creator is signed in; the document is an active one-on-one
    meeting of the signed-in creator, inviting exactly the first
    selected user, for one user, on the picked date, under the generated
    identifier. *)
Theorem createMeeting1_record rnd uid name sel t m :
  In (AddDoc m) (createMeeting1 rnd uid name sel t) <->
  name <> "" /\
  exists u us c d, sel = u :: us /\ uid = Some c /\ t = Some d /\
    m = mkMeeting None c [Types.uid u] (Some 1) (m_format d) (MeetingId.generateMeetingID rnd)
          name OneOnOne true.
Proof.
  split; [apply createMeeting1_doc|].
  intros [Hn (u & us & c & d & -> & -> & -> & ->)]. unfold createMeeting1.
  pose proof (validateForm1_errors name (u :: us)) as He.
  destruct (validateForm1 name (u :: us)) as [errors se]. cbn [fst] in He. subst errors.
  destruct (String.length name =? 0)%nat eqn:En; [by apply length_zero_empty in En|].
  cbn. right. by left.
Qed.

(** The document the video conference form writes. *)
Lemma createMeeting2_doc rnd uid name sel t size any m :
  In (AddDoc m) (createMeeting2 rnd uid name sel t size any) ->
  name <> "" /\ (any = false -> sel <> []) /\
  exists c d, uid = Some c /\ t = Some d /\
    m = mkMeeting None c (if any then [] else map Types.uid sel) (if any then Some 100 else size)
          (m_format d) (MeetingId.generateMeetingID rnd) name
          (if any then AnyoneCanJoin else VideoConference) true.
Proof.
  unfold createMeeting2. pose proof (validateForm2_errors name sel any) as He.
  destruct (validateForm2 name sel any) as [errors se]. cbn [fst] in He. subst errors.
  destruct (String.length name =? 0)%nat eqn:En; [intros [[=]|[]]|].
  destruct ((length sel =? 0)%nat && negb any) eqn:Es; [intros [[=]|[]]|].
  destruct t as [d|]; [|intros [[=]|[[=]|[]]]].
  destruct uid as [c|]; [|intros [[=]|[[=]|[]]]].
  intros [[=]|[[= <-]|[[=]|[[=]|[]]]]]. split; [by intros ->|split; [|by exists c, d]].
  intros -> ->. discriminate.
Qed.

(** The invariants a freshly created meeting satisfies. *)
Definition created_wf (m : MeetingType) : Prop :=
  status m = true /\ docId m = None /\
  (meetingType m = OneOnOne -> length (invitedUsers m) = 1%nat) /\
  (meetingType m = VideoConference -> invitedUsers m <> []) /\
  (meetingType m = AnyoneCanJoin -> invitedUsers m = [] /\ maxUsers m = Some 100%Z).

(** C9.  Every document either form writes is
    an active meeting dated by the picked instant, under the generated
    identifier: a one-on-one meeting invites exactly one user, a video
    conference at least one, and an open meeting none, for 100 users.
    So the stored meetings satisfy [direct_wf], which the listing and
    the join gate rely on. *)
Theorem created_meetings_wf rnd uid name sel t size any m :
  In (AddDoc m) (createMeeting1 rnd uid name sel t) \/
  In (AddDoc m) (createMeeting2 rnd uid name sel t size any) ->
  created_wf m /\ Listing.direct_wf m /\ Some (meetingDate m) = m_format <$> t /\
  meetingId m = MeetingId.generateMeetingID rnd.
Proof.
  intros [H1|H2].
  - apply createMeeting1_doc in H1 as (_ & u & us & c & d & _ & _ & -> & ->).
    unfold created_wf, Listing.direct_wf. cbn. split_and!; (done || discriminate || lia).
  - apply createMeeting2_doc in H2 as (_ & Hsel & c & d & _ & -> & ->).
    unfold created_wf, Listing.direct_wf. destruct any; cbn.
    + split_and!; (done || discriminate).
    + split_and!; try (done || discriminate).
      intros _ Hm. apply map_eq_nil in Hm. by apply Hsel.
Qed.

End CreateProps.

(** ** Witnesses *)

(** The field lets a negative size through, and sets [NaN] on [.5]. *)
Example maxUsers_escapes :
  onMaxUsersChange "-5" = Some (-5)%Z /\ onMaxUsersChange ".5" = None /\
  onMaxUsersChange "75" = Some 50%Z /\ onMaxUsersChange "0" = Some 1%Z.
Proof. split_and!; reflexivity. Qed.

Definition bob_row : UserType := mkUser "bob@example.com" (Some "Bob") "U2" (Some "Bob").

Lemma created_meetings_wf_witness :
  let m := mkMeeting None "U1" ["U2"] (Some 1) (m_format 1709164800000%Z)
             (MeetingId.generateMeetingID MeetingId.sample_draws) "Review" OneOnOne true in
  (In (AddDoc m) (createMeeting1 MeetingId.sample_draws (Some "U1") "Review" [bob_row] (Some 1709164800000%Z)) \/
   In (AddDoc m) (createMeeting2 MeetingId.sample_draws (Some "U1") "Review" [bob_row]
                    (Some 1709164800000%Z) (Some 5) false)) /\
  (created_wf m /\ Listing.direct_wf m /\ Some (meetingDate m) = m_format <$> Some 1709164800000%Z /\
   meetingId m = MeetingId.generateMeetingID MeetingId.sample_draws).
Proof.
  cbv zeta. split; [left; vm_compute; right; left; reflexivity|].
  apply (created_meetings_wf MeetingId.sample_draws (Some "U1") "Review" [bob_row] (Some 1709164800000%Z) (Some 5) false).
  left; vm_compute; right; left; reflexivity.
Defined.

End Forms.
