(* ===== verification/Fields.v ===== *)
(** * The form components: [components/FormComponents/]

    The creation pages and the edit flyout render their fields through
    five small components.  Each is modelled by what it shows (a record
    of the props that reach the EUI element) and by the handler it
    attaches.  [MeetingNameField] and [MeetingUserField] pass their
    handlers through; [MeetingMaximumUsersField] clamps the typed text
    with [Forms.onMaxUsersChange]; [MeetingDateField] stores what the
    date picker reports, a moment or [null]; [CreateMeetingButtons]
    offers Cancel and the submit button.  A combo box reports a
    selection among its options, at most one when it is
    single-selection (the behaviour of EUI's [EuiComboBox]). *)

From S2P Require Import Prelude Types Forms.

Open Scope string_scope.

Module Fields.
Import Forms.

(** [MeetingNameField]: an [EuiFieldText] in a form row (the
    [ThemeSelector] around it only styles it). *)
Record TextField := mkTextField {
  tf_label : string;
  tf_isInvalid : bool;
  tf_error : list string;
  tf_placeholder : string;
  tf_value : string;
}.

(** [MeetingUserField]: an [EuiComboBox] in a form row;
    [singleSelection] defaults to [false]. *)
Record ComboField := mkComboField {
  cb_label : string;
  cb_isInvalid : bool;
  cb_error : list string;
  cb_options : list UserType;
  cb_selected : list UserType;
  cb_single : bool;
  cb_clearable : bool;
  cb_placeholder : string;
}.

Definition meetingNameField (label : string) (err : FieldErrorType) (placeholder value : string)
    : TextField :=
  mkTextField label (show err) (message err) placeholder value.

Definition meetingUserField (label : string) (err : FieldErrorType) (options selected : list UserType)
    (singleSelection : option bool) (isClearable : bool) (placeholder : string) : ComboField :=
  mkComboField label (show err) (message err) options selected
    (default false singleSelection) isClearable placeholder.

(** The selections the combo box can report to [onChange]. *)
Definition combo_accepts (c : ComboField) (sel : list UserType) : Prop :=
  Forall (fun u => u ∈ cb_options c) sel /\ (cb_single c = true -> (length sel <= 1)%nat).

#[export] Instance combo_accepts_dec c sel : Decision (combo_accepts c sel).
Proof. unfold combo_accepts. apply _. Defined.

(** [MeetingMaximumUsersField]: an [EuiFieldNumber] with [min={1}] and
    [max={50}]; [value] is the size state ([None] is [NaN]).  Its
    [onChange] is [setSize(onMaxUsersChange(e.target.value))]. *)
Record NumberField := mkNumberField {
  nf_label : string;
  nf_min : Z;
  nf_max : Z;
  nf_placeholder : string;
  nf_value : option Z;
}.

Definition meetingMaximumUsersField (value : option Z) : NumberField :=
  mkNumberField "Maximum People" 1 50 "Maximum People" value.

(** [MeetingDateField]: an [EuiDatePicker] showing [selected], a
    [moment.Moment | null] as in [Edit.Flyout].  Its [onChange]
    passes the picker's [Moment | null] to [setStartDate]: the
    [date!] assertion is erased at run time. *)
Record DateField := mkDateField {
  df_label : string;
  df_selected : option (option Z);
}.

Definition meetingDateField (selected : option (option Z)) : DateField :=
  mkDateField "Set Meeting Date" selected.

(** The moment the picker hands to [setStartDate]: the picker reports
    valid moments or [null]. *)
Definition pickedDate (date : option Z) : option (option Z) := Some <$> date.

(** [CreateMeetingButtons]: Cancel (colour danger) and the submit
    button, labelled by [isEdit]. *)
Record Buttons := mkButtons {
  bt_cancelLabel : string;
  bt_submitLabel : string;
}.

Definition createMeetingButtons (isEdit : bool) : Buttons :=
  mkButtons "Cancel" (if isEdit then "Edit Meeting" else "Create Meeting").

(** The Cancel button's [onClick]:
    [isEdit ? closeFlyout!() : navigate("/")].  [closeFlyout] is an
    optional prop: calling it when it was not passed throws. *)
Inductive CancelEffect :=
| CallCloseFlyout
| CancelNavigate (path : string)
| CancelRejected (reason : string).

Definition onCancel (isEdit : bool) (closeFlyoutPassed : bool) : CancelEffect :=
  if isEdit then (if closeFlyoutPassed then CallCloseFlyout else CancelRejected "TypeError")
  else CancelNavigate "/".

(** The initial [showErrors]: both fields valid, no message. *)
Definition noErrors : ShowErrors := mkShowErrors (mkFieldError false []) (mkFieldError false []).

(** The field shown under the name in the video conference page and the
    flyout: the size for an open meeting, the user combo otherwise. *)
Inductive CapacityOrUsers :=
| SizeField (f : NumberField)
| UsersField (c : ComboField).

End Fields.
