(* ===== verification/Session.v ===== *)
(** * The session: the auth slice, sign-in, the user list and the theme

    - [Auth]: the [auth] slice of the Redux store
      ([app/slices/AuthSlice.ts]) and the [onAuthStateChanged] callback
      of [hooks/useAuth.tsx], with [applyAuth] applying its dispatches
      to the slice.
    - [Users]: the [users] collection, written by [pages/Login.tsx]'s
      [login] and read by [hooks/useFetchUsers.tsx].  Registration is
      modelled as a read step and a write step, so that two sign-ins may
      interleave.
    - [Theme]: the theme of a browser tab.  [Header.tsx]'s
      [invertTheme] flips the [zoom-theme] entry of [localStorage] and
      the slice's [isDarkTheme]; [App.tsx] then reloads the page, and on
      load [App.tsx] and [ThemeSelector.tsx] read the entry back. *)

From S2P Require Import Prelude Types.

Open Scope string_scope.

(** JavaScript truthiness of a string that may be [null]. *)
Definition truthy (s : option string) : bool :=
  match s with Some x => negb (String.eqb x "") | None => false end.

Module Auth.

(** [authInitialState]. *)
Record AuthState := mkAuth {
  userInfo : option UserInfo;
  isDarkTheme : bool;
}.

Definition initialState : AuthState := mkAuth None false.

(** The reducer [changeTheme]. *)
Definition changeTheme (isDark : bool) (state : AuthState) : AuthState :=
  mkAuth (userInfo state) isDark.

(** The reducer [setUser]. *)
Definition setUser (payload : UserInfo) (state : AuthState) : AuthState :=
  mkAuth (Some payload) (isDarkTheme state).

(** The calls of the session code, in order. *)
Inductive SessionEffect :=
| DispatchSetUser (payload : UserInfo)
| GoTo (path : string)
| AddUserDoc (user : UserType).

(** [useAuth]'s [onAuthStateChanged] callback. *)
Definition useAuthCallback (currentUser : option AuthUser) : list SessionEffect :=
  match currentUser with
  | None => [GoTo "/login"]
  | Some u => [DispatchSetUser (mkUserInfo (au_uid u) (au_email u) (au_displayName u))]
  end.

(** The auth slice after the dispatches among the effects. *)
Definition applyAuth (st : AuthState) (effs : list SessionEffect) : AuthState :=
  fold_left (fun st e => match e with DispatchSetUser p => setUser p st | _ => st end) effs st.

(** [Login]'s [onAuthStateChanged] callback, registered on every render. *)
Definition loginPageCallback (currentUser : option AuthUser) : list SessionEffect :=
  match currentUser with Some _ => [GoTo "/"] | None => [] end.

End Auth.

Module Users.
Import Auth.

(** [query(usersRef, where("uid", "==", uid))]. *)
Definition usersWithUid (users : list UserType) (u : string) : list UserType :=
  js_filter (fun d => uid d === u) users.

(** [login], after [signInWithPopup] returned the account [u]: [fetched]
    is the result of the query, read from the store at that time. *)
Definition loginWith (fetched : list UserType) (u : AuthUser) : list SessionEffect :=
  if truthy (au_email u) then
    let email := default "" (au_email u) in
    ((if (length fetched =? 0)%nat
      then [AddUserDoc (mkUser email (au_displayName u) (au_uid u) None)] else []) ++
     [DispatchSetUser (mkUserInfo (au_uid u) (au_email u) (au_displayName u)); GoTo "/"])%list
  else [].

Definition login (users : list UserType) (u : AuthUser) : list SessionEffect :=
  loginWith (usersWithUid users (au_uid u)) u.

(** The documents the effects add to the [users] collection. *)
Definition added (effs : list SessionEffect) : list UserType :=
  omap (fun e => match e with AddUserDoc d => Some d | _ => None end) effs.

Definition applyUsers (users : list UserType) (effs : list SessionEffect) : list UserType :=
  (users ++ added effs)%list.

(** The collection as sign-ins one after the other make it. *)
Inductive users_reach : list UserType -> Prop :=
| ur_nil : users_reach []
| ur_login users u : users_reach users -> users_reach (applyUsers users (login users u)).

(** Two tabs signing in the same account concurrently: both queries
    read [users] before either write. *)
Definition race (users : list UserType) (u : AuthUser) : list UserType :=
  applyUsers (applyUsers users (login users u)) (login users u).

(** [useFetchUsers]: the users other than the signed-in one, labelled
    by their name, once [uid] is truthy; [[]] before. *)
Definition fetchUsers (users : list UserType) (uid : option string) : list UserType :=
  match uid with
  | Some u => if truthy (Some u)
              then map (fun d => mkUser (email d) (name d) (Types.uid d) (name d))
                       (js_filter (fun d => Types.uid d !== u) users)
              else []
  | None => []
  end.

Lemma usersWithUid_app users extra u :
  usersWithUid (users ++ extra) u = (usersWithUid users u ++ usersWithUid extra u)%list.
Proof. apply js_filter_app. Qed.

(** What one sign-in adds: the account's document when the query found
    none and the account has an email, nothing otherwise. *)
Lemma added_login users u :
  added (login users u) =
  if truthy (au_email u) && (length (usersWithUid users (au_uid u)) =? 0)%nat
  then [mkUser (default "" (au_email u)) (au_displayName u) (au_uid u) None] else [].
Proof.
  unfold login, loginWith. destruct (truthy (au_email u)); [|done]. cbn [andb].
  destruct (length (usersWithUid users (au_uid u)) =? 0)%nat; reflexivity.
Qed.

Lemma usersWithUid_single e n x u :
  usersWithUid [mkUser e n x None] u = if bool_decide (x = u) then [mkUser e n x None] else [].
Proof. reflexivity. Qed.

(** Signing in again changes nothing:
    after one sign-in the account has a document, so a second sign-in
    adds none. *)
Theorem login_idempotent users u :
  let users' := applyUsers users (login users u) in
  applyUsers users' (login users' u) = users'.
Proof.
  cbv zeta. unfold applyUsers at 1. rewrite (added_login (applyUsers _ _) u).
  destruct (truthy (au_email u)) eqn:Ht; [|apply app_nil_r]. cbn [andb].
  unfold applyUsers. rewrite added_login, Ht. cbn [andb].
  destruct (length (usersWithUid users (au_uid u)) =? 0)%nat eqn:E.
  - rewrite usersWithUid_app, usersWithUid_single, bool_decide_eq_true_2 by done.
    rewrite length_app. cbn. rewrite Nat.add_comm. apply app_nil_r.
  - rewrite app_nil_r, E. apply app_nil_r.
Qed.

(** C16.  Sign-ins one after the other keep
    one document per account. *)
Theorem users_unique users : users_reach users -> NoDup (map uid users).
Proof.
  induction 1 as [|users u _ IH]; [constructor|].
  unfold applyUsers. rewrite added_login.
  destruct (truthy (au_email u) && (length (usersWithUid users (au_uid u)) =? 0)%nat) eqn:E;
    [|by rewrite app_nil_r].
  apply andb_prop in E as [_ E]. apply Nat.eqb_eq, length_zero_iff_nil in E.
  rewrite map_app. apply list.NoDup_app. split; [done|]. split; [|apply NoDup_singleton].
  intros x Hx ->%list_elem_of_singleton. cbn in Hx.
  apply list_elem_of_In, in_map_iff in Hx as (d & Hd & Hin).
  assert (In d (usersWithUid users (au_uid u))) as Hw by (apply js_filter_In; split; [done|by apply bool_decide_eq_true_2]).
  by rewrite E in Hw.
Qed.

(** C35.  The registration is a query
    followed by a separate write: two concurrent sign-ins of a new
    account both find no document, and the collection ends with two. *)
Theorem login_race_duplicates users u :
  truthy (au_email u) = true -> usersWithUid users (au_uid u) = [] ->
  length (usersWithUid (race users u) (au_uid u)) = 2%nat.
Proof.
  intros Ht Hn. unfold race, applyUsers. rewrite !added_login, Ht, Hn. cbn [andb length Nat.eqb].
  rewrite !usersWithUid_app, Hn, usersWithUid_single, bool_decide_eq_true_2 by done.
  reflexivity.
Qed.

(** An offered user is another user of the collection. *)
Lemma fetchUsers_other users me d :
  In d (fetchUsers users me) -> exists d0, In d0 users /\ Some (uid d0) <> me /\ uid d = uid d0.
Proof.
  unfold fetchUsers. destruct me as [me|]; [|done]. destruct (truthy (Some me)); [|done].
  intros (d0 & <- & Hin)%in_map_iff. apply js_filter_In in Hin as [Hin Hne]. js_bool.
  exists d0. split_and!; [done|congruence|done].
Qed.

(** The combo boxes offer every other
    user, labelled by name, and never the signed-in one. *)
Theorem fetchUsers_others users me d :
  truthy (Some me) = true ->
  In d (fetchUsers users (Some me)) <->
  exists d0, In d0 users /\ uid d0 <> me /\ d = mkUser (email d0) (name d0) (uid d0) (name d0).
Proof.
  intros Ht. unfold fetchUsers. rewrite Ht, in_map_iff.
  split.
  - intros (d0 & <- & Hin). apply js_filter_In in Hin as [Hin Hne]. js_bool. by exists d0.
  - intros (d0 & Hin & Hne & ->). exists d0. split; [done|].
    apply js_filter_In. split; [done|]. by rewrite bool_decide_eq_false_2.
Qed.

Definition carol_account : AuthUser := mkAuthUser "U3" (Some "carol@example.com") (Some "Carol").
Definition bob_doc : UserType := mkUser "bob@example.com" (Some "Bob") "U2" None.

Lemma users_unique_witness :
  let users := applyUsers [bob_doc] (login [bob_doc] carol_account) in
  users_reach users /\ NoDup (map uid users).
Proof.
  cbv zeta.
  assert (H : users_reach (applyUsers [bob_doc] (login [bob_doc] carol_account))).
  { apply ur_login. change [bob_doc] with (applyUsers [] (login [] (mkAuthUser "U2" (Some "bob@example.com") (Some "Bob")))).
    apply ur_login, ur_nil. }
  split; [exact H|exact (users_unique _ H)].
Defined.

Lemma login_race_duplicates_witness :
  (truthy (au_email carol_account) = true /\ usersWithUid [bob_doc] (au_uid carol_account) = []) /\
  length (usersWithUid (race [bob_doc] carol_account) (au_uid carol_account)) = 2%nat.
Proof. witness (login_race_duplicates [bob_doc] carol_account). Defined.

Lemma fetchUsers_others_witness :
  let d := mkUser "bob@example.com" (Some "Bob") "U2" (Some "Bob") in
  truthy (Some "U3") = true /\
  (In d (fetchUsers [bob_doc] (Some "U3")) <->
   exists d0, In d0 [bob_doc] /\ uid d0 <> "U3" /\ d = mkUser (email d0) (name d0) (uid d0) (name d0)).
Proof. cbv zeta. witness (fetchUsers_others [bob_doc] "U3"). Defined.

End Users.

Module Theme.
Import Auth.

(** A browser tab: the [zoom-theme] entry of [localStorage], the auth
    slice, [App]'s [isInitialEffect] and [theme] states, and
    [ThemeSelector]'s [theme] state. *)
Record Tab := mkTab {
  storage : option string;
  auth : AuthState;
  isInitialEffect : bool;
  appTheme : string;
  selectorTheme : string;
}.

(** [ThemeSelector]'s state after its mount effect: the stored theme
    when there is one, ["light"] otherwise. *)
Definition themeSelectorTheme (storage : option string) : string :=
  if truthy storage then default "" storage else "light".

(** The stylesheet module [ThemeSelector] renders. *)
Definition themeModule (theme : string) : string :=
  if theme === "dark" then "DarkTheme" else "LightTheme".

(** [App]'s first mount effect (lines 67-74): its [theme] state and the
    storage entry afterwards. *)
Definition appMountTheme (storage : option string) : string * option string :=
  if truthy storage then (default "" storage, storage) else ("light", Some "light").

(** A page load: fresh component and store state, then the mount
    effects, children first: [ThemeSelector]'s, then [App]'s two (the
    second one only clears [isInitialEffect]). *)
Definition load (storage : option string) : Tab :=
  let '(appTheme, storage') := appMountTheme storage in
  mkTab storage' initialState false appTheme (themeSelectorTheme storage).

(** [invertTheme], then [App]'s effect on [isDarkTheme]: the first run
    after mount only clears [isInitialEffect]; later runs reload. *)
Definition invertTheme (tab : Tab) : Tab :=
  let storage' := Some (if storage tab === Some "light" then "dark" else "light") in
  let auth' := changeTheme (negb (isDarkTheme (auth tab))) (auth tab) in
  if isInitialEffect tab
  then mkTab storage' auth' false (appTheme tab) (selectorTheme tab)
  else load storage'.

(** [Header.tsx] lines 138-156: the theme button's icon and label. *)
Definition themeButton (isDark : bool) : string * string :=
  if isDark then ("sun", "theme-button-light") else ("moon", "theme-button-dark").

(** [Header.tsx] lines 118-125: the greeting, shown when the name is
    truthy. *)
Definition greeting (userName : option string) : option string :=
  if truthy userName then Some ("Hello, " ++ default "" userName) else None.

Definition flip (s : string) : string := if String.eqb s "light" then "dark" else "light".

(** In a tab loaded with a light or dark
    theme, the theme button reloads the tab in the other theme, stored
    and shown; pressing it twice gives back the tab as it was loaded. *)
Theorem theme_toggle s :
  s = "light" \/ s = "dark" ->
  storage (invertTheme (load (Some s))) = Some (flip s) /\
  selectorTheme (invertTheme (load (Some s))) = flip s /\
  appTheme (invertTheme (load (Some s))) = flip s /\
  invertTheme (invertTheme (load (Some s))) = load (Some s).
Proof. intros [-> | ->]; split_and!; reflexivity. Qed.

(** A tab loads the stored theme but
    always starts with [isDarkTheme = false]: after switching to dark the
    reloaded tab is dark while the slice says light, and the header
    offers the moon ("switch to dark") button in dark mode.  A tab with
    no stored theme stores and shows light. *)
Theorem theme_flag_out_of_sync s :
  truthy (Some s) = true ->
  selectorTheme (load (Some s)) = s /\ appTheme (load (Some s)) = s /\
  isDarkTheme (auth (load (Some s))) = false /\
  themeButton (isDarkTheme (auth (load (Some s)))) = ("moon", "theme-button-dark") /\
  load None = mkTab (Some "light") initialState false "light" "light".
Proof. intros Ht. unfold load, appMountTheme, themeSelectorTheme. rewrite Ht. split_and!; reflexivity. Qed.

Lemma theme_flag_out_of_sync_witness :
  truthy (Some "dark") = true /\
  (selectorTheme (load (Some "dark")) = "dark" /\ appTheme (load (Some "dark")) = "dark" /\
   isDarkTheme (auth (load (Some "dark"))) = false /\
   themeButton (isDarkTheme (auth (load (Some "dark")))) = ("moon", "theme-button-dark") /\
   load None = mkTab (Some "light") initialState false "light" "light").
Proof. witness (theme_flag_out_of_sync "dark"). Defined.

Lemma theme_toggle_witness :
  ("dark" = "light" \/ "dark" = "dark") /\
  (storage (invertTheme (load (Some "dark"))) = Some (flip "dark") /\
   selectorTheme (invertTheme (load (Some "dark"))) = flip "dark" /\
   appTheme (invertTheme (load (Some "dark"))) = flip "dark" /\
   invertTheme (invertTheme (load (Some "dark"))) = load (Some "dark")).
Proof. split; [right; reflexivity|apply theme_toggle; right; reflexivity]. Defined.

End Theme.
