(* ===== verification/EditMeeting.v ===== *)
(** * Editing a meeting: [components/EditFlyout.tsx] and the flyout
      handlers of [pages/MyMeetings.tsx]

    The My Meetings table opens the flyout on a row ([openEditFlyout]).
    The flyout initialises its state from the row; the one exception is
    the size, which starts at 1, and the switch "Cancel Meeting", which
    starts off.  An effect fills the selected users once the user list
    has loaded.  [editMeeting] writes the form's values over the
    document with [updateDoc], then closes the flyout, which re-reads
    the table ([closeEditFlyout(true)]).  The flyout's inputs are the
    actions of [flyoutStep], restricted by [available] to the fields the
    flyout renders for the meeting's type; [EditView] renders the flyout
    and shows that its offered inputs are the ones [available] allows.  The store is the list of
    documents, and [uiWrite] is every write the creation forms and the
    flyout can make.  The theorems state what an edit keeps, what it
    resets, and that cancellation is terminal through the user
    interface. *)

From S2P Require Import Prelude Moment Types Spec MeetingId JoinMeeting Status Listing Forms.

Open Scope string_scope.

Module Edit.

(** The flyout's state (lines 67-82).  [fl_startDate] is a
    [moment.Moment | null]: [None] is the [null] the date picker reports
    when its text is cleared; [Some d] a moment, valid ([d = Some t]) or
    invalid ([d = None], when the stored string does not parse). *)
Record Flyout := mkFlyout {
  fl_meetingName : string;
  fl_meetingType : MeetingJoinType;
  fl_selectedUser : list UserType;
  fl_startDate : option (option Z);
  fl_size : option Z;
  fl_status : bool;
}.

Section Flyout.
Context `{M : MomentLib}.

(** [useState(meeting.meetingName)], ..., [useState(moment(meeting.meetingDate))],
    [useState(1)], [useState(false)]. *)
Definition initFlyout (meeting : MeetingType) : Flyout :=
  mkFlyout (meetingName meeting) (meetingType meeting) [] (Some (m_parse (meetingDate meeting))) (Some 1) false.

(** Lines 90-101: for each invited uid, the first loaded user of that
    uid, when there is one. *)
Definition foundUsers (users : list UserType) (invited : list string) : list UserType :=
  fold_left (fun acc user =>
               match List.find (fun tempUser => Types.uid tempUser === user) users with
               | Some findUser => (acc ++ [findUser])%list
               | None => acc
               end) invited [].

(** The flyout's inputs: the name field, the effect's run when [users]
    changes, the user combo box, the date picker, the size field (the
    text typed, which [MeetingMaximumUsersField] passes through
    [Forms.onMaxUsersChange]) and the switch. *)
Inductive FlyoutAction :=
| SetMeetingName (s : string)
| UsersLoaded (users : list UserType)
| OnUserChange (selectedOptions : list UserType)
| SetStartDate (date : option Z)
| SetSize (value : string)
| SetStatus (checked : bool).

Definition flyoutStep (meeting : MeetingType) (st : Flyout) (a : FlyoutAction) : Flyout :=
  match a with
  | SetMeetingName s => mkFlyout s (fl_meetingType st) (fl_selectedUser st) (fl_startDate st)
                          (fl_size st) (fl_status st)
  | UsersLoaded users => mkFlyout (fl_meetingName st) (fl_meetingType st)
                          (foundUsers users (invitedUsers meeting)) (fl_startDate st)
                          (fl_size st) (fl_status st)
  | OnUserChange sel => mkFlyout (fl_meetingName st) (fl_meetingType st) sel (fl_startDate st)
                          (fl_size st) (fl_status st)
  | SetStartDate date => mkFlyout (fl_meetingName st) (fl_meetingType st) (fl_selectedUser st)
                          (Some <$> date) (fl_size st) (fl_status st)
  | SetSize v => mkFlyout (fl_meetingName st) (fl_meetingType st) (fl_selectedUser st)
                          (fl_startDate st) (Forms.onMaxUsersChange v) (fl_status st)
  | SetStatus b => mkFlyout (fl_meetingName st) (fl_meetingType st) (fl_selectedUser st)
                          (fl_startDate st) (fl_size st) b
  end.

Definition runFlyout (meeting : MeetingType) (acts : list FlyoutAction) : Flyout :=
  fold_left (flyoutStep meeting) acts (initFlyout meeting).

(** The inputs the flyout renders (lines 166-191): the size field for an
    open meeting, the user combo box otherwise, with single selection
    for a one-on-one meeting. *)
Definition available (meeting : MeetingType) (a : FlyoutAction) : Prop :=
  match a with
  | SetSize _ => meetingType meeting = AnyoneCanJoin
  | OnUserChange sel =>
      meetingType meeting <> AnyoneCanJoin /\
      (meetingType meeting = OneOnOne -> (length sel <= 1)%nat)
  | _ => True
  end.

(** [startDate.format("L")]; an invalid moment prints "Invalid date". *)
Definition format_moment (d : option Z) : string :=
  match d with Some t => m_format t | None => "Invalid date" end.

(** Lines 120-130: [{...meeting, meetingName, ...}] without [docId];
    [None] when [startDate.format("L")] throws on [null]. *)
Definition editedMeeting (meeting : MeetingType) (st : Flyout) : option MeetingType :=
  match fl_startDate st with
  | None => None
  | Some d =>
      Some (mkMeeting None (createdBy meeting) (map Types.uid (fl_selectedUser st)) (fl_size st)
              (format_moment d) (meetingId meeting) (fl_meetingName st)
              (fl_meetingType st) (negb (fl_status st)))
  end.

(** The calls [editMeeting] makes. *)
Inductive EditEffect :=
| UpdateDoc (docId : string) (data : MeetingType)
| EditRejected (reason : string)
| EditUi (e : Spec.Effect)
| CloseFlyout (dataChanged : bool).

(** Lines 119-135: building [editedMeeting] throws on a [null] date,
    then [doc(firebaseDB, "meetings", meeting.docId!)] throws when
    [docId] is [undefined]; either [TypeError] leaves the flyout open. *)
Definition editMeeting (meeting : MeetingType) (st : Flyout) : list EditEffect :=
  match editedMeeting meeting st with
  | None => [EditRejected "TypeError"]
  | Some data =>
      match docId meeting with
      | None => [EditRejected "TypeError"]
      | Some d =>
          [UpdateDoc d data;
           EditUi (Spec.CreateToast "Meeting updated successfully." (Some Success));
           CloseFlyout true]
      end
  end.

End Flyout.

(** ** The My Meetings page and the store *)

(** [MyMeetings]'s state (lines 53-55). *)
Record MyMeetingsPage := mkPage {
  pg_meetings : list MeetingType;
  pg_showEditFlyout : bool;
  pg_editMeeting : option MeetingType;
}.

(** [openEditFlyout(meeting)] (lines 97-100). *)
Definition openEditFlyout (pg : MyMeetingsPage) (meeting : MeetingType) : MyMeetingsPage :=
  mkPage (pg_meetings pg) true (Some meeting).

(** [getMyMeetings()] (lines 63-79), run by the effect of lines 88-90
    when [userInfo] is set: re-reading the table replaces the rows only
    when the query returned a document. *)
Definition getMyMeetings (userInfo : option UserInfo) (store : list MeetingDoc)
    (meetings : list MeetingType) : list MeetingType :=
  match Listing.myMeetingsLoad userInfo store with
  | Some l => l
  | None => meetings
  end.

(** [closeEditFlyout(dataChanged)] (lines 105-109). *)
Definition closeEditFlyout (userInfo : option UserInfo) (store : list MeetingDoc)
    (pg : MyMeetingsPage) (dataChanged : bool) : MyMeetingsPage :=
  mkPage (if dataChanged then getMyMeetings userInfo store (pg_meetings pg) else pg_meetings pg)
    false None.

(** Firestore's [addDoc]: a new document under a fresh identifier. *)
Definition fresh (store : list MeetingDoc) (i : string) : Prop := i ∉ map doc_id store.

(** Firestore's [updateDoc]: the written fields replace the document's;
    a missing document rejects the call. *)
Definition updateDoc (store : list MeetingDoc) (d : string) (data : MeetingType)
    : option (list MeetingDoc) :=
  if existsb (fun x => doc_id x =? d) store
  then Some (map (fun x => if doc_id x =? d then mkDoc d data else x) store)
  else None.

Section Store.
Context `{M : MomentLib}.

(** Every write of the user interface: a document of either creation
    form, or an edit from an enabled row of the My Meetings table. *)
Inductive uiWrite : list MeetingDoc -> list MeetingDoc -> Prop :=
| write_create1 store rnd uid name sel t i m :
    In (Forms.AddDoc m) (Forms.createMeeting1 rnd uid name sel t) -> fresh store i ->
    uiWrite store (store ++ [mkDoc i m])
| write_create2 store rnd uid name sel t size any i m :
    In (Forms.AddDoc m) (Forms.createMeeting2 rnd uid name sel t size any) -> fresh store i ->
    uiWrite store (store ++ [mkDoc i m])
| write_edit store ui rows row now acts d data store' :
    Listing.myMeetingsLoad (Some ui) store = Some rows -> In row rows ->
    Status.editDisabled row now = false -> Forall (available row) acts ->
    In (UpdateDoc d data) (editMeeting row (runFlyout row acts)) ->
    updateDoc store d data = Some store' ->
    uiWrite store store'.

(** The stores the application can produce from an empty collection. *)
Inductive reachable : list MeetingDoc -> Prop :=
| reachable_nil : reachable []
| reachable_write s s' : reachable s -> uiWrite s s' -> reachable s'.

End Store.

(** ** Lemmas on the flyout *)

Section FlyoutLemmas.
Context `{M : MomentLib}.

(** A property of the state that the initial state has and every
    action keeps holds after any run. *)
Lemma runFlyout_ind (P : Flyout -> Prop) m acts :
  P (initFlyout m) -> (forall st a, In a acts -> P st -> P (flyoutStep m st a)) ->
  P (runFlyout m acts).
Proof.
  unfold runFlyout. generalize (initFlyout m). revert P.
  induction acts as [|a acts IH]; intros P st H0 Hs; simpl; [done|].
  apply IH; [apply Hs; [left|]; done|]. intros st' a' Ha'. apply Hs. by right.
Qed.

Lemma runFlyout_type m acts : fl_meetingType (runFlyout m acts) = meetingType m.
Proof. apply (runFlyout_ind (fun st => fl_meetingType st = meetingType m)); [done|]. by intros st []. Qed.

(** The size stays 1 while no size is typed. *)
Lemma runFlyout_size m acts :
  Forall (fun a => forall v, a <> SetSize v) acts -> fl_size (runFlyout m acts) = Some 1%Z.
Proof.
  intros H. apply (runFlyout_ind (fun st => fl_size st = Some 1%Z)); [done|].
  intros st [] Ha; cbn; try done. eapply Forall_forall in H; [|exact Ha]. by destruct (H value).
Qed.

(** The date stays the parsed stored date while none is picked. *)
Lemma runFlyout_date m acts :
  Forall (fun a => forall t, a <> SetStartDate t) acts ->
  fl_startDate (runFlyout m acts) = Some (m_parse (meetingDate m)).
Proof.
  intros H. apply (runFlyout_ind (fun st => fl_startDate st = Some (m_parse (meetingDate m)))); [done|].
  intros st [] Ha; cbn; try done. eapply Forall_forall in H; [|exact Ha]. by destruct (H date).
Qed.

(** The selection stays empty while the users have not loaded and none
    is picked. *)
Lemma runFlyout_users_empty m acts :
  Forall (fun a => (forall u, a <> UsersLoaded u) /\ (forall s, a <> OnUserChange s)) acts ->
  fl_selectedUser (runFlyout m acts) = [].
Proof.
  intros H. apply (runFlyout_ind (fun st => fl_selectedUser st = [])); [done|].
  intros st [] Ha; cbn; try done; eapply Forall_forall in H as [H1 H2]; try exact Ha.
  - by destruct (H1 users). - by destruct (H2 selectedOptions).
Qed.

Lemma foundUsers_length users invited :
  (length (foundUsers users invited) <= length invited)%nat.
Proof.
  unfold foundUsers. enough (forall acc, length (fold_left (fun acc user =>
    match List.find (fun tempUser => Types.uid tempUser === user) users with
    | Some findUser => (acc ++ [findUser])%list | None => acc end) invited acc)
    <= length acc + length invited)%nat by (apply H).
  induction invited as [|x l IH]; intros acc; simpl; [lia|].
  destruct (List.find _ users); rewrite IH; [rewrite length_app; simpl|]; lia.
Qed.

(** The [forEach] loop of the effect with an accumulator. *)
Lemma foundUsers_acc users invited acc :
  fold_left (fun acc user =>
               match List.find (fun tempUser => Types.uid tempUser === user) users with
               | Some findUser => (acc ++ [findUser])%list
               | None => acc
               end) invited acc =
  (acc ++ omap (fun user => List.find (fun tempUser => Types.uid tempUser === user) users) invited)%list.
Proof.
  revert acc. induction invited as [|x l IH]; intros acc; cbn; [by rewrite app_nil_r|].
  rewrite IH. destruct (List.find _ users); cbn; [by rewrite <- app_assoc|done].
Qed.

End FlyoutLemmas.

(** ** Lemmas on the store *)

(** The stored documents have distinct identifiers and carry no
    [docId] field. *)
Definition store_ok (store : list MeetingDoc) : Prop :=
  NoDup (map doc_id store) /\ Forall (fun x => docId (doc_data x) = None) store.

Section StoreLemmas.
Context `{M : MomentLib}.

Lemma row_of_store ui store rows row :
  Listing.myMeetingsLoad (Some ui) store = Some rows -> In row rows ->
  exists x, In x store /\ row = Listing.withDocId x.
Proof.
  unfold Listing.myMeetingsLoad. remember (js_filter _ store) as own eqn:Hf.
  intros Hl. assert (rows = map Listing.withDocId own) as -> by (destruct own; congruence).
  intros (x & <- & Hx)%in_map_iff. subst own.
  apply js_filter_In in Hx as [Hx _]. by exists x.
Qed.

Lemma withDocId_fields x : docId (doc_data x) = None ->
  docId (Listing.withDocId x) = Some (doc_id x) /\
  status (Listing.withDocId x) = status (doc_data x).
Proof. unfold Listing.withDocId. cbn. by intros ->. Qed.

Lemma editDisabled_status row now : Status.editDisabled row now = false -> status row = true.
Proof. unfold Status.editDisabled. destruct (status row); [done|by rewrite orb_true_r]. Qed.

Lemma editMeeting_update row st d data :
  In (UpdateDoc d data) (editMeeting row st) -> docId row = Some d /\ editedMeeting row st = Some data.
Proof.
  unfold editMeeting. destruct (editedMeeting row st) as [data'|]; [|intros [[=]|[]]].
  destruct (docId row) as [d'|]; [|intros [[=]|[]]].
  intros [[= -> ->]|[[=]|[[=]|[]]]]. done.
Qed.

(** The document an edit builds, when the date is not [null]. *)
Lemma editedMeeting_some m st data : editedMeeting m st = Some data ->
  exists d, fl_startDate st = Some d /\
  data = mkMeeting None (createdBy m) (map Types.uid (fl_selectedUser st)) (fl_size st)
           (format_moment d) (meetingId m) (fl_meetingName st) (fl_meetingType st) (negb (fl_status st)).
Proof. unfold editedMeeting. destruct (fl_startDate st) as [d|]; [intros [= <-]; by exists d|done]. Qed.

Lemma updateDoc_keeps store d data store' x :
  updateDoc store d data = Some store' -> In x store -> doc_id x <> d -> In x store'.
Proof.
  unfold updateDoc. destruct existsb; [|done]. intros [= <-] Hx Hne.
  apply in_map_iff. exists x. split; [|done]. by rewrite (proj2 (String.eqb_neq _ _) Hne).
Qed.

Lemma updateDoc_ok store d data store' :
  store_ok store -> docId data = None -> updateDoc store d data = Some store' -> store_ok store'.
Proof.
  unfold updateDoc. destruct existsb; [|done]. intros [Hn Hf] Hd [= <-]. split.
  - rewrite map_map. erewrite map_ext; [exact Hn|].
    intros x. cbn. destruct (String.eqb_spec (doc_id x) d); [done|done].
  - apply Forall_map. eapply Forall_impl; [|exact Hf].
    intros x Hx. by destruct (doc_id x =? d).
Qed.

Lemma store_doc_unique store x y :
  NoDup (map doc_id store) -> In x store -> In y store -> doc_id x = doc_id y -> x = y.
Proof.
  induction store as [|z zs IH]; intros Hn; [done|].
  cbn in Hn. apply list.NoDup_cons in Hn as [Hz Hn].
  intros [<-|Hx] [<-|Hy] E; try done; [| |by apply IH].
  - exfalso. apply Hz. rewrite E. by apply list_elem_of_In, in_map.
  - exfalso. apply Hz. rewrite <- E. by apply list_elem_of_In, in_map.
Qed.

Lemma created_docId m :
  (exists rnd uid name sel t, In (Forms.AddDoc m) (Forms.createMeeting1 rnd uid name sel t)) \/
  (exists rnd uid name sel t size any,
     In (Forms.AddDoc m) (Forms.createMeeting2 rnd uid name sel t size any)) ->
  docId m = None.
Proof.
  intros [(? & ? & ? & ? & ? & (_ & ? & ? & ? & ? & _ & _ & _ & ->)%Forms.createMeeting1_doc)
         |(? & ? & ? & ? & ? & ? & ? & (_ & _ & ? & ? & _ & _ & ->)%Forms.createMeeting2_doc)]; done.
Qed.

Lemma store_ok_app store i m :
  store_ok store -> fresh store i -> docId m = None -> store_ok (store ++ [mkDoc i m])%list.
Proof.
  intros [Hn Hf] Hi Hd. split.
  - rewrite map_app. apply list.NoDup_app. split; [done|]. split; [|apply NoDup_singleton].
    intros y Hy ->%list_elem_of_singleton. done.
  - apply Forall_app. split; [done|]. by constructor.
Qed.

(** Every write keeps the store well-formed. *)
Lemma uiWrite_ok store store' : store_ok store -> uiWrite store store' -> store_ok store'.
Proof.
  intros Hok Hw. destruct Hw as [? ? ? ? ? ? ? ? Hm Hi|? ? ? ? ? ? ? ? ? ? Hm Hi|
                                 ? ? ? row ? acts d data ? _ _ _ _ Hu Hs].
  - apply store_ok_app; [done|done|]. apply created_docId. left. eauto 7.
  - apply store_ok_app; [done|done|]. apply created_docId. right. eauto 10.
  - apply editMeeting_update in Hu as [_ (? & _ & ->)%editedMeeting_some].
    refine (updateDoc_ok _ _ _ _ Hok _ Hs); reflexivity.
Qed.

Lemma reachable_ok store : reachable store -> store_ok store.
Proof.
  induction 1 as [|s s' _ IH Hw]; [split; constructor|]. by eapply uiWrite_ok.
Qed.

End StoreLemmas.

(** C27.  The effect's loop equals the
    declarative reading: for each invited uid in order, the first loaded
    user of that uid, skipped when there is none; so the selection lists
    exactly the invitees known to the user list, each once per
    invitation. *)
Theorem foundUsers_spec users invited :
  foundUsers users invited =
  omap (fun user => List.find (fun tempUser => Types.uid tempUser === user) users) invited /\
  map Types.uid (foundUsers users invited) =
  List.filter (fun user => bool_decide (user ∈ map Types.uid users)) invited.
Proof.
  assert (E : foundUsers users invited =
    omap (fun user => List.find (fun tempUser => Types.uid tempUser === user) users) invited)
    by (unfold foundUsers; apply foundUsers_acc).
  split; [exact E|]. rewrite E. clear E.
  induction invited as [|x l IH]; [done|]. cbn.
  destruct (List.find (fun t => Types.uid t === x) users) as [u|] eqn:Hf.
  - apply find_some in Hf as [Hu Hx]. js_bool.
    rewrite bool_decide_eq_true_2; [cbn; by rewrite Hx, IH|].
    apply list_elem_of_In, in_map_iff. eauto.
  - rewrite bool_decide_eq_false_2; [exact IH|].
    intros (u & <- & Hu)%list_elem_of_In%in_map_iff.
    eapply find_none in Hf; [|exact Hu]. cbn in Hf. by rewrite js_eq_refl in Hf.
Qed.

(** ** What an edit writes *)

Section EditProps.
Context `{M : MomentLib} `{!MomentLaws M}.
Import Calendar.

(** Without a picked date the flyout writes back the stored date string. *)
Lemma edited_date m tc acts : Spec.dated m tc ->
  Forall (fun a => forall t, a <> SetStartDate t) acts ->
  exists data, editedMeeting m (runFlyout m acts) = Some data /\ meetingDate data = meetingDate m.
Proof.
  intros [Hd Hr] Ha. unfold editedMeeting. rewrite (runFlyout_date m acts Ha).
  eexists. split; [reflexivity|]. cbn. rewrite Hd, m_parse_format by done.
  cbn. apply m_format_day. unfold midnight, day_of, ms_per_day. zlia.
Qed.

(** The selection of a one-on-one flyout has at most one user. *)
Lemma runFlyout_direct m acts :
  Listing.direct_wf m -> Forall (available m) acts ->
  meetingType m = OneOnOne -> (length (fl_selectedUser (runFlyout m acts)) <= 1)%nat.
Proof.
  intros Hwf Ha Ht. specialize (Hwf Ht).
  apply (runFlyout_ind (fun st => length (fl_selectedUser st) <= 1)%nat); [cbn; lia|].
  intros st [] Hin Hst; cbn; try done.
  - pose proof (foundUsers_length users (invitedUsers m)). lia.
  - eapply Forall_forall in Ha; [|exact Hin]. destruct Ha as [_ Hl]. by apply Hl.
Qed.

Lemma updateDoc_forall (P : MeetingType -> Prop) store d data store' :
  Forall (fun x => P (doc_data x)) store -> P data ->
  updateDoc store d data = Some store' -> Forall (fun x => P (doc_data x)) store'.
Proof.
  unfold updateDoc. destruct existsb; [|done]. intros Hf Hp [= <-].
  apply Forall_map. eapply Forall_impl; [|exact Hf]. intros x Hx. by destruct (doc_id x =? d).
Qed.

(** C4.  A cancelled meeting stays cancelled
    and unchanged through every write of the user interface: the edit
    button is disabled on cancelled rows, and each row edits its own
    document.  Spec section 3's terminal [active = false] holds. *)
Theorem cancellation_terminal store store' x :
  reachable store -> uiWrite store store' ->
  In x store -> status (doc_data x) = false -> In x store'.
Proof.
  intros Hr Hw Hx Hst. destruct (reachable_ok store Hr) as [Hn Hf].
  destruct Hw as [| |? ui rows row now acts d data store' Hl Hrow Hdis _ Hu Hs];
    try (apply in_app_iff; by left).
  destruct (row_of_store _ _ _ _ Hl Hrow) as (y & Hy & ->).
  apply editDisabled_status in Hdis. apply editMeeting_update in Hu as [Hd _].
  eapply Forall_forall in Hf; [|exact Hy].
  destruct (withDocId_fields y Hf) as [Hid Hsy]. rewrite Hid in Hd. injection Hd as <-.
  apply (updateDoc_keeps _ _ _ _ _ Hs Hx). intros E.
  rewrite (store_doc_unique _ _ _ Hn Hx Hy E) in Hst. congruence.
Qed.

(** C10.  Every store the application can
    produce keeps its one-on-one meetings to at most one invitee: the
    form invites the first selected user, and the flyout's combo box is
    single-selection for them.  So the Meetings page and the join gate
    agree on every reachable store (see [Listing.shown_eligible]). *)
Theorem reachable_direct_wf store :
  reachable store -> Forall (fun x => Listing.direct_wf (doc_data x)) store.
Proof.
  induction 1 as [|s s' Hr IH Hw]; [constructor|].
  destruct Hw as [? ? ? ? ? ? ? ? Hm _|? ? ? ? ? ? ? ? ? ? Hm _|
                  ? ui rows row now acts d data ? Hl Hrow _ Ha Hu Hs].
  - apply Forall_app. split; [done|]. constructor; [|constructor].
    apply Forms.createMeeting1_doc in Hm as (_ & ? & ? & ? & ? & _ & _ & _ & ->). intros _. cbn [doc_data invitedUsers length]. lia.
  - apply Forall_app. split; [done|]. constructor; [|constructor].
    apply Forms.createMeeting2_doc in Hm as (_ & _ & ? & ? & _ & _ & ->). cbn.
    by destruct any.
  - apply editMeeting_update in Hu as [_ (? & _ & ->)%editedMeeting_some].
    refine (updateDoc_forall Listing.direct_wf _ _ _ _ IH _ Hs).
    destruct (row_of_store _ _ _ _ Hl Hrow) as (y & Hy & ->).
    eapply Forall_forall in IH; [|exact Hy].
    intros Ht. cbn in Ht. rewrite runFlyout_type in Ht. cbn. rewrite length_map.
    apply runFlyout_direct; [exact IH|exact Ha|exact Ht].
Qed.

(** C32.  Every edit of a meeting that is not
    open writes [maxUsers = 1]: the size state starts at 1 and its field
    is only rendered for open meetings, so the capacity chosen at
    creation is lost. *)
Theorem edit_resets_maxUsers m acts d data :
  meetingType m <> AnyoneCanJoin -> Forall (available m) acts ->
  In (UpdateDoc d data) (editMeeting m (runFlyout m acts)) -> maxUsers data = Some 1%Z.
Proof.
  intros Ht Ha [_ (? & _ & ->)%editedMeeting_some]%editMeeting_update.
  cbn. apply runFlyout_size. eapply Forall_impl; [|exact Ha].
  intros [] Hav n' E; try discriminate. done.
Qed.

(** C33.  An edit keeps the meeting's identity
    and creator, and, when no date is picked, writes back the same
    date string (moment reads "MM/DD/YYYY" and prints it again). *)
Theorem edit_keeps_identity_date m tc acts :
  Spec.dated m tc -> Forall (fun a => forall t, a <> SetStartDate t) acts ->
  exists data, editedMeeting m (runFlyout m acts) = Some data /\
  meetingId data = meetingId m /\ createdBy data = createdBy m /\
  meetingType data = meetingType m /\ meetingDate data = meetingDate m.
Proof.
  intros Hd Ha. destruct (edited_date m tc acts Hd Ha) as (data & Hs & Hdate).
  exists data. pose proof Hs as (? & _ & ->)%editedMeeting_some.
  split_and!; [done|done|done|apply runFlyout_type|done].
Qed.

(** C19.  Saving the flyout of a one-on-one
    meeting before the user list has loaded writes an empty invite list,
    and then a visitor with no session is let into the room on the
    meeting's day (the gap of [Join.joinDecision] for empty lists). *)
Theorem edit_before_users_load m tc now acts :
  meetingType m = OneOnOne -> Spec.dated m tc -> in_range now -> day_of tc = day_of now ->
  Forall (fun a => (forall u, a <> UsersLoaded u) /\ (forall s, a <> OnUserChange s) /\
                   (forall t, a <> SetStartDate t)) acts ->
  exists data, editedMeeting m (runFlyout m acts) = Some data /\
  invitedUsers data = [] /\ Join.joinDecision data None now = [Spec.SetIsAllowed true].
Proof.
  intros Ht Hd Hn Hday Ha.
  assert (Hu : fl_selectedUser (runFlyout m acts) = [])
    by (apply runFlyout_users_empty; eapply Forall_impl; [|exact Ha]; intros a (H1 & H2 & _); split; [exact H1|exact H2]).
  destruct (edited_date m tc acts Hd) as (data & Hs & Hdate);
    [eapply Forall_impl; [|exact Ha]; intros a (_ & _ & H3); exact H3|].
  exists data. split; [exact Hs|]. pose proof Hs as (? & _ & Hdata)%editedMeeting_some.
  assert (Hdt : Spec.dated data tc) by (destruct Hd as [Hdm Hr]; split; [congruence|done]).
  split; [by rewrite Hdata, Hu|].
  rewrite (Join.joinDecision_dated _ None tc now Hdt Hn). cbn zeta. rewrite Hdata.
  cbn [meetingType invitedUsers]. rewrite runFlyout_type, Ht, Hu, Hday, Z.ltb_irrefl.
  reflexivity.
Qed.

End EditProps.

(** ** Witnesses *)

Section Witnesses.
Import Join.

Definition alice_info : UserInfo := mkUserInfo "U1" (Some "alice@example.com") (Some "Alice").

(** The one-on-one meeting the form writes for U1 inviting U2 on
    2024-02-29; the row of it in My Meetings; the flyout cancelling it. *)
Definition w_m1 : MeetingType :=
  mkMeeting None "U1" ["U2"] (Some 1) (m_format feb29) (MeetingId.generateMeetingID MeetingId.sample_draws)
    "Review" OneOnOne true.
Definition w_s1 : list MeetingDoc := [mkDoc "d1" w_m1].
Definition w_row : MeetingType := Listing.withDocId (mkDoc "d1" w_m1).
Definition w_acts : list FlyoutAction := [UsersLoaded [Forms.bob_row]; SetStatus true].
Definition w_m1' : MeetingType := default w_row (editedMeeting w_row (runFlyout w_row w_acts)).
Definition w_s2 : list MeetingDoc := [mkDoc "d1" w_m1'].
Definition w_s3 : list MeetingDoc := (w_s2 ++ [mkDoc "d2" w_m1])%list.

Lemma w_create (s : list MeetingDoc) (i : string) : fresh s i -> uiWrite s (s ++ [mkDoc i w_m1])%list.
Proof.
  intros Hf. apply (write_create1 s MeetingId.sample_draws (Some "U1") "Review" [Forms.bob_row] (Some feb29));
    [vm_compute; right; left; reflexivity|exact Hf].
Qed.

Lemma w_reachable2 : reachable w_s2.
Proof.
  apply (reachable_write w_s1); [apply (reachable_write []); [constructor|apply (w_create [] "d1")]; by_eval|].
  apply (write_edit w_s1 alice_info [w_row] w_row feb29_10h w_acts "d1" w_m1');
    [vm_compute; reflexivity|left; reflexivity|vm_compute; reflexivity
    |constructor; [exact I|constructor; [exact I|constructor]]
    |left; reflexivity|vm_compute; reflexivity].
Qed.

Lemma cancellation_terminal_witness :
  (reachable w_s2 /\ uiWrite w_s2 w_s3 /\ In (mkDoc "d1" w_m1') w_s2 /\
   status (doc_data (mkDoc "d1" w_m1')) = false) /\
  In (mkDoc "d1" w_m1') w_s3.
Proof.
  assert (Hw : uiWrite w_s2 w_s3) by (apply w_create; by_eval).
  assert (Hx : In (mkDoc "d1" w_m1') w_s2) by (left; reflexivity).
  assert (Hst : status (doc_data (mkDoc "d1" w_m1')) = false) by reflexivity.
  split; [split_and!; [exact w_reachable2|exact Hw|exact Hx|exact Hst]|].
  exact (cancellation_terminal w_s2 w_s3 _ w_reachable2 Hw Hx Hst).
Defined.

Lemma reachable_direct_wf_witness :
  reachable w_s3 /\ Forall (fun x => Listing.direct_wf (doc_data x)) w_s3.
Proof.
  assert (Hr : reachable w_s3)
    by (apply (reachable_write w_s2); [exact w_reachable2|apply w_create; by_eval]).
  split; [exact Hr|exact (reachable_direct_wf w_s3 Hr)].
Defined.

(** A video conference for five users, renamed. *)
Definition w_video : MeetingType :=
  mkMeeting (Some "d7") "U1" ["U2"; "U3"] (Some 5) (m_format mar01) "zz99yy88" "Standup" VideoConference true.

Definition w_video' : MeetingType :=
  default w_video (editedMeeting w_video (runFlyout w_video [SetMeetingName "Daily"])).

Lemma edit_resets_maxUsers_witness :
  (meetingType w_video <> AnyoneCanJoin /\ Forall (available w_video) [SetMeetingName "Daily"] /\
   In (UpdateDoc "d7" w_video') (editMeeting w_video (runFlyout w_video [SetMeetingName "Daily"]))) /\
  maxUsers w_video' = Some 1%Z.
Proof.
  assert (Ha : Forall (available w_video) [SetMeetingName "Daily"]) by (constructor; [exact I|constructor]).
  assert (Hu : In (UpdateDoc "d7" w_video') (editMeeting w_video (runFlyout w_video [SetMeetingName "Daily"])))
    by (vm_compute; left; reflexivity).
  split; [split_and!; [discriminate|exact Ha|exact Hu]|].
  exact (edit_resets_maxUsers w_video [SetMeetingName "Daily"] "d7" w_video' ltac:(discriminate) Ha Hu).
Defined.

Lemma edit_keeps_identity_date_witness :
  (Spec.dated w_video mar01 /\ Forall (fun a => forall t, a <> SetStartDate t) [SetMeetingName "Daily"]) /\
  (exists data, editedMeeting w_video (runFlyout w_video [SetMeetingName "Daily"]) = Some data /\
   meetingId data = meetingId w_video /\ createdBy data = createdBy w_video /\
   meetingType data = meetingType w_video /\ meetingDate data = meetingDate w_video).
Proof.
  assert (Hd : Spec.dated w_video mar01) by (split; [reflexivity|by_eval]).
  assert (Ha : Forall (fun a => forall t, a <> SetStartDate t) [SetMeetingName "Daily"])
    by (constructor; [discriminate|constructor]).
  split; [split; [exact Hd|exact Ha]|]. exact (edit_keeps_identity_date w_video mar01 _ Hd Ha).
Defined.

Lemma edit_before_users_load_witness :
  let acts := [SetMeetingName "Review (moved)"] in
  (meetingType w_m1 = OneOnOne /\ Spec.dated w_m1 feb29 /\ in_range feb29_10h /\
   Calendar.day_of feb29 = Calendar.day_of feb29_10h /\
   Forall (fun a => (forall u, a <> UsersLoaded u) /\ (forall s, a <> OnUserChange s) /\
                    (forall t, a <> SetStartDate t)) acts) /\
  (exists data, editedMeeting w_m1 (runFlyout w_m1 acts) = Some data /\
   invitedUsers data = [] /\ joinDecision data None feb29_10h = [Spec.SetIsAllowed true]).
Proof.
  cbv zeta.
  assert (Hd : Spec.dated w_m1 feb29) by (split; [reflexivity|by_eval]).
  assert (Hn : in_range feb29_10h) by by_eval.
  assert (Ha : Forall (fun a => (forall u, a <> UsersLoaded u) /\ (forall s, a <> OnUserChange s) /\
                                (forall t, a <> SetStartDate t)) [SetMeetingName "Review (moved)"])
    by (constructor; [split_and!; discriminate|constructor]).
  split; [split_and!; [reflexivity|exact Hd|exact Hn|reflexivity|exact Ha]|].
  exact (edit_before_users_load w_m1 feb29 feb29_10h _ eq_refl Hd Hn eq_refl Ha).
Defined.

End Witnesses.

End Edit.
