(* ===== verification/Navigation.v ===== *)
(** * Routes, breadcrumbs and the links between pages

    [App.tsx]'s [<Routes>] maps a location to a page.  React Router
    compares static segments without regard to case and ignores a
    trailing slash; [:id] matches one non-empty segment, and [*] catches
    the rest.  [Header.tsx]'s effect chooses the breadcrumbs of
    [utils/breadcrumbs.ts] by comparing the pathname exactly.  Each
    breadcrumb's [onClick] calls [navigate] with a path, and is kept as
    that path.  The theorems check that every link of the application
    routes to the page it names, and that the join link of a generated
    identifier routes to the join page with that identifier.  They also
    show where the breadcrumbs disagree with the router.  Percent-decoding
    of [:id] is not modelled; generated identifiers are alphanumeric. *)

From Stdlib Require Import Ascii.
From S2P Require Import Prelude Moment Types MeetingId Status Fields.

Open Scope string_scope.

Module Nav.
Import Reader.

(** The elements of [<Routes>]. *)
Inductive Page :=
| LoginPage
| CreateMeetingPage
| OneOnOneMeetingPage
| VideoConferencePage
| MyMeetingsPage
| JoinMeetingPage (id : string)
| MeetingsPage
| DashboardPage.

#[export] Instance Page_eq_dec : EqDecision Page.
Proof. solve_decision. Defined.

Definition lower_char (c : ascii) : ascii :=
  let n := nat_of_ascii c in
  if ((65 <=? n) && (n <=? 90))%nat then ascii_of_nat (n + 32) else c.

Fixpoint lower (s : string) : string :=
  match s with
  | String c s' => String (lower_char c) (lower s')
  | EmptyString => EmptyString
  end.

(** The segments after the leading slash, without a trailing empty one. *)
Definition drop_trailing (segs : list string) : list string :=
  match rev segs with
  | "" :: r => rev r
  | _ => segs
  end.

(** The one-segment routes. *)
Definition static_route (s : string) : Page :=
  let s := lower s in
  if String.eqb s "login" then LoginPage
  else if String.eqb s "create" then CreateMeetingPage
  else if String.eqb s "create1on1" then OneOnOneMeetingPage
  else if String.eqb s "videoconference" then VideoConferencePage
  else if String.eqb s "mymeetings" then MyMeetingsPage
  else if String.eqb s "meetings" then MeetingsPage
  else LoginPage.

(** [App.tsx] lines 107-116. *)
Definition route (pathname : string) : Page :=
  match split_on "/" pathname with
  | "" :: segs =>
      match drop_trailing segs with
      | [] => DashboardPage
      | [s] => static_route s
      | [s; id] => if String.eqb (lower s) "join" && negb (String.eqb id "")
                   then JoinMeetingPage id else LoginPage
      | _ => LoginPage
      end
  | _ => LoginPage
  end.

(** [utils/breadcrumbs.ts]. *)
Definition dashboardCrumb : BreadCrumbsType := mkCrumb "Dashboard" (Some "#") (Some "/").
Definition createCrumb : BreadCrumbsType := mkCrumb "Create Meeting" (Some "#") (Some "/create").

Definition getDashboardBreadCrumbs : list BreadCrumbsType := [mkCrumb "Dashboard" None None].
Definition getCreateMeetingBreadCrumbs : list BreadCrumbsType :=
  [dashboardCrumb; mkCrumb "Create Meeting" None None].
Definition getOneOnOneMeetingBreadCrumbs : list BreadCrumbsType :=
  [dashboardCrumb; createCrumb; mkCrumb "Create 1 on 1 Meeting" None None].
Definition getVideoConferenceBreadCrumbs : list BreadCrumbsType :=
  [dashboardCrumb; createCrumb; mkCrumb "Create Video Conference" None None].
Definition getMyMeetingsBreadCrumbs : list BreadCrumbsType :=
  [dashboardCrumb; mkCrumb "My Meetings" None None].
Definition getMeetingsBreadCrumbs : list BreadCrumbsType :=
  [dashboardCrumb; mkCrumb "Meetings" None None].

(** [Header.tsx]'s initial [breadCrumbs] and its effect (lines 53-84):
    other pathnames keep the current trail. *)
Definition initialBreadCrumbs : list BreadCrumbsType := [mkCrumb "Dashboard" None None].

Definition headerBreadCrumbs (pathname : string) (current : list BreadCrumbsType)
    : list BreadCrumbsType :=
  if pathname === "/" then getDashboardBreadCrumbs
  else if pathname === "/create" then getCreateMeetingBreadCrumbs
  else if pathname === "/create1on1" then getOneOnOneMeetingBreadCrumbs
  else if pathname === "/videoconference" then getVideoConferenceBreadCrumbs
  else if pathname === "/mymeetings" then getMyMeetingsBreadCrumbs
  else if pathname === "/meetings" then getMeetingsBreadCrumbs
  else current.

(** The title a breadcrumb gives each page. *)
Definition title (p : Page) : option string :=
  match p with
  | DashboardPage => Some "Dashboard"
  | CreateMeetingPage => Some "Create Meeting"
  | OneOnOneMeetingPage => Some "Create 1 on 1 Meeting"
  | VideoConferencePage => Some "Create Video Conference"
  | MyMeetingsPage => Some "My Meetings"
  | MeetingsPage => Some "Meetings"
  | _ => None
  end.

(** A trail for the page [p]: every crumb but the last links to the page
    it names, and the last names [p] and has no link. *)
Fixpoint trail_ok (p : Page) (crumbs : list BreadCrumbsType) : bool :=
  match crumbs with
  | [] => false
  | [c] => (Some (text c) === title p) && (onClick c === None)
  | c :: cs =>
      match onClick c with
      | Some target => (title (route target) === Some (text c)) && trail_ok p cs
      | None => false
      end
  end.

(** [Dashboard.tsx]'s cards: each card's [title] and the path its
    [onClick] navigates to. *)
Definition dashboardCards : list (string * string) :=
  [("Create Meeting", "/create"); ("My Meetings", "/mymeetings"); ("Meetings", "/meetings")].

(** [CreateMeeting.tsx]'s cards. *)
Definition createMeetingCards : list (string * string) :=
  [("Create 1 on 1 Meeting", "/create1on1"); ("Create Video Conference", "/videoconference")].

(** The other [navigate] calls: the forms after [addDoc], and the
    redirects of [useAuth], [Login] and the join page. *)
Definition redirects : list (string * Page) :=
  [("/", DashboardPage); ("/login", LoginPage)].

(** The Copy Link button of both tables (line 191 of [MyMeetings.tsx],
    line 153 of [Meeting.tsx]): [REACT_APP_HOST] followed by the join
    path of the meeting. *)
Definition copyLink (host meetingId : string) : string := host ++ Status.join_link meetingId.

(** The pathnames of the pages with breadcrumbs. *)
Definition crumb_pages : list (string * Page) :=
  [("/", DashboardPage); ("/create", CreateMeetingPage); ("/create1on1", OneOnOneMeetingPage);
   ("/videoconference", VideoConferencePage); ("/mymeetings", MyMeetingsPage);
   ("/meetings", MeetingsPage)].

(** ** Properties *)

Lemma split_join (id : string) : split_on "/" ("/join/" ++ id) = "" :: "join" :: split_on "/" id.
Proof. reflexivity. Qed.

(** A non-empty segment without a slash after [/join/] is the join page. *)
Lemma route_join (id : string) :
  RoundTrip.no_char "/" id = true -> id <> "" -> route ("/join/" ++ id) = JoinMeetingPage id.
Proof.
  intros Hn Hne. unfold route. rewrite split_join, (RoundTrip.split_on_no_char _ _ Hn).
  destruct id as [|c id']; [done|]. reflexivity.
Qed.

(** The alphabet of identifiers has no slash. *)
Lemma in_chars_not_slash c : MeetingId.in_chars c -> Ascii.eqb c "/" = false.
Proof.
  assert (H : forallb (fun c => negb (Ascii.eqb c "/")) (String.list_ascii_of_string MeetingId.chars) = true)
    by reflexivity.
  intros Hc. rewrite forallb_forall in H. apply negb_true_iff, H, Hc.
Qed.

Lemma no_char_in_chars s :
  Forall MeetingId.in_chars (String.list_ascii_of_string s) -> RoundTrip.no_char "/" s = true.
Proof.
  induction s as [|c s IH]; [done|]. cbn. intros [Hc Hs]%Forall_cons_iff.
  by rewrite in_chars_not_slash, IH.
Qed.

(** The join link of every generated
    identifier ([/join/] followed by it, as the Status column and the
    copy button build it) routes to the join page with that identifier
    as [params.id]. *)
Theorem join_link_routes rnd :
  MeetingId.valid_draws rnd ->
  route (Status.join_link (MeetingId.generateMeetingID rnd)) =
  JoinMeetingPage (MeetingId.generateMeetingID rnd).
Proof.
  intros Hv. destruct (MeetingId.forLoop_shape rnd 8 0 "" Hv eq_refl) as [Hl Hf].
  apply route_join; [apply no_char_in_chars, Hf; constructor|].
  intros E. unfold MeetingId.generateMeetingID in E. rewrite E in Hl. discriminate.
Qed.

(** Every card of the Dashboard and of the Create Meeting page
    opens the page whose title it shows, the Cancel button of a creation
    form and the other redirects open the page they mean, and on each
    page with breadcrumbs the trail is right whatever trail was shown
    before: it ends with the page's title, and every earlier crumb
    links to the page it names. *)
Theorem links_and_trails :
  Forall (fun '(t, target) => title (route target) = Some t) (dashboardCards ++ createMeetingCards) /\
  (match Fields.onCancel false false with Fields.CancelNavigate p => Some (route p) | _ => None end) =
    Some DashboardPage /\
  Forall (fun '(p, page) => route p = page) redirects /\
  Forall (fun '(p, page) => route p = page /\
            forall current, trail_ok page (headerBreadCrumbs p current) = true) crumb_pages.
Proof. split_and!; repeat constructor. Qed.

(** The router and the breadcrumbs
    disagree off the exact paths: [/Create/] opens the Create Meeting
    page while the header keeps its initial "Dashboard" trail, and an
    unknown path opens the login page. *)
Theorem trail_router_mismatch :
  route "/Create/" = CreateMeetingPage /\
  headerBreadCrumbs "/Create/" initialBreadCrumbs = initialBreadCrumbs /\
  trail_ok CreateMeetingPage (headerBreadCrumbs "/Create/" initialBreadCrumbs) = false /\
  route "/join/ab12CD34/" = JoinMeetingPage "ab12CD34" /\ route "/calendar" = LoginPage.
Proof. split_and!; reflexivity. Qed.

Lemma join_link_routes_witness :
  MeetingId.valid_draws MeetingId.sample_draws /\
  route (Status.join_link (MeetingId.generateMeetingID MeetingId.sample_draws)) =
  JoinMeetingPage (MeetingId.generateMeetingID MeetingId.sample_draws).
Proof.
  split; [exact MeetingId.sample_draws_valid|].
  exact (join_link_routes _ MeetingId.sample_draws_valid).
Defined.

End Nav.
