(* ===== verification/Header.v ===== *)
(** * The header: [components/Header.tsx]

    The header has two bars.  The first holds the logo link, a greeting
    with the user's name, the theme button and the logout button.  A
    narrow window (under 480 px when the header mounts) gets a layout
    without the greeting.  The second bar shows the breadcrumbs of
    [Navigation].  The logout button calls [signOut]; the auth listener
    of [useAuth] then reports no user and navigates to [/login].  The
    theorems state what each layout offers. *)

From S2P Require Import Prelude Types Session Navigation.

Open Scope string_scope.

Module HeaderView.
Import Auth Theme.

(** The items of the first bar. *)
Inductive HeaderItem :=
| LogoLink (to : string)
| Greeting (text : string)
| ThemeToggle (iconType ariaLabel : string)
| LogoutButton.

#[export] Instance HeaderItem_eq_dec : EqDecision HeaderItem.
Proof. solve_decision. Defined.

Definition themeItem (isDark : bool) : HeaderItem :=
  let '(icon, label) := themeButton isDark in ThemeToggle icon label.

(** [section] (lines 103-170): logo, greeting when [userName] is
    truthy, theme and logout buttons. *)
Definition section (userName : option string) (isDark : bool) : list (list HeaderItem) :=
  [[LogoLink "/"];
   match greeting userName with Some g => [Greeting g] | None => [] end;
   [themeItem isDark; LogoutButton]].

(** [responsiveSection] (lines 172-225): no greeting. *)
Definition responsiveSection (isDark : bool) : list (list HeaderItem) :=
  [[LogoLink "/"]; [themeItem isDark; LogoutButton]].

(** The mount effect (lines 230-234): [isResponsive] for the window's
    inner width. *)
Definition isResponsiveOf (innerWidth : Z) : bool := (innerWidth <? 480)%Z.

(** [useAppSelector((zoomApp) => zoomApp.auth.userInfo?.name)]. *)
Definition userName (auth : AuthState) : option string :=
  match userInfo auth with Some ui => ui_name ui | None => None end.

(** The rendered header (lines 237-253): the first bar's sections and
    the second bar's breadcrumbs, for the window width, the auth slice
    and the location. *)
Definition header (innerWidth : Z) (auth : AuthState) (pathname : string)
    : list (list HeaderItem) * list BreadCrumbsType :=
  (if isResponsiveOf innerWidth then responsiveSection (isDarkTheme auth)
   else section (userName auth) (isDarkTheme auth),
   Nav.headerBreadCrumbs pathname Nav.initialBreadCrumbs).

(** [logout] (lines 89-91) and what follows: [signOut] makes the auth
    listener of [useAuth] report no user. *)
Definition logout (auth : AuthState) : AuthState * list SessionEffect :=
  let effs := useAuthCallback None in (applyAuth auth effs, effs).

(** Both layouts offer the theme button
    of the slice's [isDarkTheme] and the logout button; the greeting
    shows exactly in the wide layout for a truthy name; the second bar
    shows the breadcrumbs of the location. *)
Theorem header_layouts w auth p :
  let '(bar, crumbs) := header w auth p in
  In [themeItem (isDarkTheme auth); LogoutButton] bar /\
  ((exists g, In [Greeting g] bar) <-> (480 <= w)%Z /\ truthy (userName auth) = true) /\
  crumbs = Nav.headerBreadCrumbs p Nav.initialBreadCrumbs.
Proof.
  unfold header, isResponsiveOf. destruct (Z.ltb_spec w 480) as [Hw|Hw]; cbn.
  - split_and!; [by right; left| |done].
    split; [intros (g & [[=]|[[=]|[]]])|intros [? _]; lia].
  - unfold greeting. destruct (truthy (userName auth)); cbn.
    + split_and!; [by right; right; left| |done]. split; [done|intros _; eexists; right; left; reflexivity].
    + split_and!; [by right; right; left| |done].
      split; [intros (g & [[=]|[[=]|[[=]|[]]]])|intros [_ [=]]].
Qed.

End HeaderView.
