(* ===== verification/FormViews.v ===== *)
(** * The creation pages as state, view and inputs

    [pages/OneOnOneMeeting.tsx] and [pages/VideoConference.tsx] keep the
    form's values in component state.  They render them through the
    field components of [Fields]; each field's [onChange] is an input
    of the page.  The Create button runs [Forms.createMeeting1] or
    [Forms.createMeeting2] on the current state and stores the
    validation errors it computed.  A view lists what each field shows:
    value, error state, messages, the options of the combo box, the
    size, the date (a moment or [null]) and the buttons.  The inputs a
    user can give are the handlers of the fields rendered at that
    moment: the size input is the typed text, which the size field
    clamps with [Forms.onMaxUsersChange], and the date input is what the
    picker reports, [null] when its text is cleared.  The theorems
    follow the typed size and the selected users from the inputs to the
    stored document. *)

From S2P Require Import Prelude Moment Types Spec MeetingId Listing Forms Session Fields.

Open Scope string_scope.

Module Views.
Import Forms Fields.

(** ** [OneOnOneMeeting] *)

(** The page's state (lines 50-66). *)
Record OneOnOneState := mkOneOnOne {
  o_meetingName : string;
  o_selectedUser : list UserType;
  o_startDate : option Z;
  o_showErrors : ShowErrors;
}.

Definition initOneOnOne (now : Z) : OneOnOneState := mkOneOnOne "" [] (Some now) noErrors.

(** The form's fields (lines 142-179): name, the single-selection user
    combo over [useFetchUsers]'s list, the date, and the buttons. *)
Definition oneOnOneView (st : OneOnOneState) (users : list UserType)
    : TextField * ComboField * DateField * Buttons :=
  (meetingNameField "Meeting name" (meetingNameError (o_showErrors st)) "Meeting name" (o_meetingName st),
   meetingUserField "Invite User" (meetingUserError (o_showErrors st)) users (o_selectedUser st)
     (Some true) false "Select a User",
   meetingDateField (Some <$> o_startDate st),
   createMeetingButtons false).

Inductive OneOnOneInput :=
| OSetMeetingName (s : string)
| OUserChange (selectedOptions : list UserType)
| OSetStartDate (date : option Z).

Definition oneOnOneAvailable (st : OneOnOneState) (users : list UserType) (a : OneOnOneInput) : Prop :=
  match a with
  | OUserChange sel => combo_accepts (snd (fst (fst (oneOnOneView st users)))) sel
  | _ => True
  end.

#[export] Instance oneOnOneAvailable_dec st users a : Decision (oneOnOneAvailable st users a).
Proof. unfold oneOnOneAvailable. destruct a; apply _. Defined.

(** [setMeetingName], [onUserChange] (lines 75-77), [setStartDate]. *)
Definition oneOnOneStep (st : OneOnOneState) (a : OneOnOneInput) : OneOnOneState :=
  match a with
  | OSetMeetingName s => mkOneOnOne s (o_selectedUser st) (o_startDate st) (o_showErrors st)
  | OUserChange sel => mkOneOnOne (o_meetingName st) sel (o_startDate st) (o_showErrors st)
  | OSetStartDate date => mkOneOnOne (o_meetingName st) (o_selectedUser st) date (o_showErrors st)
  end.

(** The Create button: [createMeeting]'s calls and the state after
    [setShowErrors]. *)
Definition clickCreate1 `{MomentLib} (st : OneOnOneState) (rnd : nat -> Z) (uid : option string)
    : OneOnOneState * list FormEffect :=
  (mkOneOnOne (o_meetingName st) (o_selectedUser st) (o_startDate st)
     (snd (validateForm1 (o_meetingName st) (o_selectedUser st))),
   createMeeting1 rnd uid (o_meetingName st) (o_selectedUser st) (o_startDate st)).

(** ** [VideoConference] *)

(** The page's state (lines 51-68). *)
Record VideoState := mkVideo {
  v_meetingName : string;
  v_selectedUser : list UserType;
  v_startDate : option Z;
  v_size : option Z;
  v_showErrors : ShowErrors;
  v_anyoneCanJoin : bool;
}.

Definition initVideo (now : Z) : VideoState := mkVideo "" [] (Some now) (Some 1) noErrors false.

(** The form's fields (lines 157-208): the switch, the name, the size or
    the users, the date, and the buttons. *)
Definition videoView (st : VideoState) (users : list UserType)
    : bool * TextField * CapacityOrUsers * DateField * Buttons :=
  (v_anyoneCanJoin st,
   meetingNameField "Meeting name" (meetingNameError (v_showErrors st)) "Meeting name" (v_meetingName st),
   if v_anyoneCanJoin st then SizeField (meetingMaximumUsersField (v_size st))
   else UsersField (meetingUserField "Invite Users" (meetingUserError (v_showErrors st)) users
                      (v_selectedUser st) None false "Select a Users"),
   meetingDateField (Some <$> v_startDate st),
   createMeetingButtons false).

Inductive VideoInput :=
| VSetAnyoneCanJoin (checked : bool)
| VSetMeetingName (s : string)
| VUserChange (selectedOptions : list UserType)
| VSetSize (value : string)
| VSetStartDate (date : option Z).

(** The inputs of the rendered fields: [setSize] only while the size
    field is shown, [onUserChange] only while the combo is. *)
Definition videoAvailable (st : VideoState) (users : list UserType) (a : VideoInput) : Prop :=
  match a, snd (fst (fst (videoView st users))) with
  | VSetSize _, SizeField _ => True
  | VSetSize _, UsersField _ => False
  | VUserChange sel, UsersField c => combo_accepts c sel
  | VUserChange _, SizeField _ => False
  | _, _ => True
  end.

#[export] Instance videoAvailable_dec st users a : Decision (videoAvailable st users a).
Proof. unfold videoAvailable. destruct a, (snd (fst (fst (videoView st users)))); apply _. Defined.

Definition videoStep (st : VideoState) (a : VideoInput) : VideoState :=
  match a with
  | VSetAnyoneCanJoin b => mkVideo (v_meetingName st) (v_selectedUser st) (v_startDate st) (v_size st)
                             (v_showErrors st) b
  | VSetMeetingName s => mkVideo s (v_selectedUser st) (v_startDate st) (v_size st)
                           (v_showErrors st) (v_anyoneCanJoin st)
  | VUserChange sel => mkVideo (v_meetingName st) sel (v_startDate st) (v_size st)
                         (v_showErrors st) (v_anyoneCanJoin st)
  | VSetSize v => mkVideo (v_meetingName st) (v_selectedUser st) (v_startDate st) (onMaxUsersChange v)
                    (v_showErrors st) (v_anyoneCanJoin st)
  | VSetStartDate date => mkVideo (v_meetingName st) (v_selectedUser st) date (v_size st)
                         (v_showErrors st) (v_anyoneCanJoin st)
  end.

Definition clickCreate2 `{MomentLib} (st : VideoState) (rnd : nat -> Z) (uid : option string)
    : VideoState * list FormEffect :=
  (mkVideo (v_meetingName st) (v_selectedUser st) (v_startDate st) (v_size st)
     (snd (validateForm2 (v_meetingName st) (v_selectedUser st) (v_anyoneCanJoin st)))
     (v_anyoneCanJoin st),
   createMeeting2 rnd uid (v_meetingName st) (v_selectedUser st) (v_startDate st) (v_size st)
     (v_anyoneCanJoin st)).

(** ** Runs of inputs *)

(** A sequence of inputs, each given to the fields rendered at its
    time; [None] when one of them is not offered. *)
Fixpoint runVideo (users : list UserType) (st : VideoState) (acts : list VideoInput) : option VideoState :=
  match acts with
  | [] => Some st
  | a :: acts' =>
      if decide (videoAvailable st users a) then runVideo users (videoStep st a) acts' else None
  end.

Fixpoint runOneOnOne (users : list UserType) (st : OneOnOneState) (acts : list OneOnOneInput)
    : option OneOnOneState :=
  match acts with
  | [] => Some st
  | a :: acts' =>
      if decide (oneOnOneAvailable st users a) then runOneOnOne users (oneOnOneStep st a) acts' else None
  end.

(** ** Properties *)

Section Props.
Context `{M : MomentLib}.

(** Along a run in which the switch is never turned on, the form stays a
    video conference with size 1: the size field is never rendered. *)
Lemma runVideo_no_switch users st acts st' :
  runVideo users st acts = Some st' -> ~ In (VSetAnyoneCanJoin true) acts ->
  v_anyoneCanJoin st = false -> v_size st = Some 1%Z ->
  v_anyoneCanJoin st' = false /\ v_size st' = Some 1%Z.
Proof.
  revert st. induction acts as [|a acts IH]; intros st Hr Hn Ha Hs; cbn in Hr; [by injection Hr as <-|].
  destruct (decide (videoAvailable st users a)) as [Hav|]; [|done].
  apply (IH _ Hr); [intros Hin; apply Hn; by right| |].
  - destruct a as [[]| | | |]; cbn; try done. destruct Hn. by left.
  - destruct a; cbn; try done. unfold videoAvailable, videoView in Hav. cbn in Hav. by rewrite Ha in Hav.
Qed.

(** C24.  The size typed in the Video
    Conference page never reaches a video conference unless the user
    switched to an open meeting and back: the size field is rendered
    only for open meetings, which are stored with 100 seats whatever was
    typed, and a video conference created without turning the switch on
    is stored with [maxUsers = 1]. *)
Theorem video_capacity_lost users t0 acts st rnd uid m :
  runVideo users (initVideo t0) acts = Some st ->
  In (AddDoc m) (snd (clickCreate2 st rnd uid)) ->
  (v_anyoneCanJoin st = true -> maxUsers m = Some 100%Z) /\
  (~ In (VSetAnyoneCanJoin true) acts -> meetingType m = VideoConference /\ maxUsers m = Some 1%Z).
Proof.
  intros Hr Hm. cbn in Hm. apply createMeeting2_doc in Hm as (_ & _ & c & d & _ & _ & ->). cbn.
  split; [by intros ->|]. intros Hn.
  destruct (runVideo_no_switch _ _ _ _ Hr Hn eq_refl eq_refl) as [-> ->]. done.
Qed.

(** Along a run, the size state never exceeds 50. *)
Lemma runVideo_size_le users st acts st' : runVideo users st acts = Some st' ->
  (forall n, v_size st = Some n -> (n <= 50)%Z) -> forall n, v_size st' = Some n -> (n <= 50)%Z.
Proof.
  revert st. induction acts as [|a acts IH]; intros st Hr Hs; cbn in Hr; [by injection Hr as <-|].
  destruct (decide _); [|done]. apply (IH _ Hr). destruct a; cbn; try exact Hs.
  apply onMaxUsersChange_le.
Qed.

(** The run that switches to an open meeting, types [v] in the size
    field, switches back and fills in a name and a user. *)
Definition sizeThenBack (v : string) (u : UserType) : list VideoInput :=
  [VSetAnyoneCanJoin true; VSetSize v; VSetAnyoneCanJoin false; VSetMeetingName "Standup"; VUserChange [u]].

Lemma runVideo_sizeThenBack users t0 v u :
  u ∈ users ->
  runVideo users (initVideo t0) (sizeThenBack v u) =
    Some (mkVideo "Standup" [u] (Some t0) (onMaxUsersChange v) noErrors false).
Proof.
  intros Hu. unfold sizeThenBack. cbn [runVideo].
  do 4 (rewrite decide_True; [cbn [videoStep v_meetingName v_selectedUser v_startDate v_size v_showErrors
                                    v_anyoneCanJoin initVideo]|done]).
  rewrite decide_True; [reflexivity|]. cbn. split; [by constructor|discriminate].
Qed.

(** C25.  The size the Video Conference page stores for a video
    conference is the page's size state, which the size field keeps at
    most 50 but does not bound from below or keep a number: for every
    text [v] typed in the size field there is a run of the rendered page
    (switch on, type [v], switch off, name, user) whose Create button
    stores a video conference with [maxUsers = onMaxUsersChange v].  So
    "-5" stores [-5] and ".5" stores [NaN]. *)
Theorem video_size_bounds users t0 acts st rnd c m u v :
  runVideo users (initVideo t0) acts = Some st ->
  In (AddDoc m) (snd (clickCreate2 st rnd (Some c))) -> meetingType m = VideoConference ->
  u ∈ users ->
  maxUsers m = v_size st /\ (forall n, maxUsers m = Some n -> (n <= 50)%Z) /\
  (exists st' m',
     runVideo users (initVideo t0) (sizeThenBack v u) = Some st' /\
     In (AddDoc m') (snd (clickCreate2 st' rnd (Some c))) /\
     meetingType m' = VideoConference /\ maxUsers m' = onMaxUsersChange v) /\
  onMaxUsersChange "-5" = Some (-5)%Z /\ onMaxUsersChange ".5" = None.
Proof.
  intros Hr Hm Ht Hu. cbn in Hm. apply createMeeting2_doc in Hm as (_ & _ & c' & d & _ & _ & ->).
  cbn in Ht |- *. destruct (v_anyoneCanJoin st); [done|].
  split_and!; [done| |eexists _, _; split_and!; [exact (runVideo_sizeThenBack _ _ _ _ Hu)|cbn; right; left; reflexivity
                                                 |done|done]|reflexivity|reflexivity].
  apply (runVideo_size_le _ _ _ _ Hr). by intros n [= <-].
Qed.

(** The selection of a run stays among the combo's options, and has at
    most one user in the one-on-one page. *)
Lemma runOneOnOne_selected users st acts st' :
  runOneOnOne users st acts = Some st' ->
  Forall (fun u => u ∈ users) (o_selectedUser st) -> (length (o_selectedUser st) <= 1)%nat ->
  Forall (fun u => u ∈ users) (o_selectedUser st') /\ (length (o_selectedUser st') <= 1)%nat.
Proof.
  revert st. induction acts as [|a acts IH]; intros st Hr H1 H2; cbn in Hr; [by injection Hr as <-|].
  destruct (decide (oneOnOneAvailable st users a)) as [Hav|]; [|done].
  apply (IH _ Hr); destruct a; cbn; try done; destruct Hav as [Ho Hl]; [exact Ho|by apply Hl].
Qed.

(** A one-on-one meeting created through
    the page invites exactly one user, chosen among the users
    [useFetchUsers] offered: a registered user other than the creator. *)
Theorem one_on_one_invites_other store me t0 acts st rnd m :
  runOneOnOne (Users.fetchUsers store (Some me)) (initOneOnOne t0) acts = Some st ->
  In (AddDoc m) (snd (clickCreate1 st rnd (Some me))) ->
  createdBy m = me /\ exists u, invitedUsers m = [u] /\ u <> me /\ exists d, In d store /\ uid d = u.
Proof.
  intros Hr Hm. cbn in Hm. apply createMeeting1_doc in Hm as (_ & u & us & c & d & Hsel & [= <-] & _ & ->).
  destruct (runOneOnOne_selected _ _ _ _ Hr (Forall_nil_2 _) (le_0_n _)) as [Hf _].
  rewrite Hsel in Hf. apply Forall_cons_iff in Hf as [Hu _].
  apply list_elem_of_In, Users.fetchUsers_other in Hu as (d0 & Hd0 & Hne & Heq).
  cbn. split; [done|]. exists (uid u). split_and!; [done|congruence|by exists d0].
Qed.

Lemma validateForm1_fields n sel :
  meetingNameError (snd (validateForm1 n sel)) =
    (if (String.length n =? 0)%nat then mkFieldError true ["Please Enter Meeting Name"]
     else mkFieldError false []) /\
  meetingUserError (snd (validateForm1 n sel)) =
    (if (length sel =? 0)%nat then mkFieldError true ["Please Select a User"]
     else mkFieldError false []).
Proof.
  unfold validateForm1, nameError.
  destruct (String.length n =? 0)%nat, (length sel =? 0)%nat; split; reflexivity.
Qed.

(** When the one-on-one form writes a document. *)
Lemma createMeeting1_adds rnd uid n sel t :
  (exists m, In (AddDoc m) (createMeeting1 rnd uid n sel t)) <->
  uid <> None /\ t <> None /\ (String.length n =? 0)%nat = false /\ (length sel =? 0)%nat = false.
Proof.
  split.
  - intros (m & (Hn & u & us & c & d & -> & -> & -> & _)%createMeeting1_doc).
    split_and!; [done|done| |done]. destruct n; [done|reflexivity].
  - intros (Hu & Ht & Hn & Hs). unfold createMeeting1. pose proof (validateForm1_errors n sel) as He.
    destruct (validateForm1 n sel) as [errors se]. cbn [fst] in He. subst errors.
    rewrite Hn, Hs. destruct sel as [|u us]; [done|]. destruct t as [d|]; [|done].
    destruct uid as [c|]; [|done].
    eexists. right. left. reflexivity.
Qed.

(** After the Create click the page
    writes a document exactly when the creator is signed in and no
    rendered field shows an error; the name field shows "Please Enter
    Meeting Name" exactly when the name is empty. *)
Theorem create_iff_no_errors st users rnd uid :
  let '(st', effs) := clickCreate1 st rnd uid in
  let '(nameF, userF, dateF, _) := oneOnOneView st' users in
  ((exists m, In (AddDoc m) effs) <->
   uid <> None /\ df_selected dateF <> None /\ tf_isInvalid nameF = false /\
   cb_isInvalid userF = false) /\
  (tf_isInvalid nameF = true <-> o_meetingName st = "") /\
  (tf_isInvalid nameF = true -> tf_error nameF = ["Please Enter Meeting Name"]).
Proof.
  destruct st as [name sel t errs]. cbn -[validateForm1 createMeeting1].
  destruct (validateForm1_fields name sel) as [-> ->]. rewrite createMeeting1_adds.
  destruct t as [d|], (String.length name =? 0)%nat eqn:En, (length sel =? 0)%nat; cbn;
    (split_and!; [intuition congruence| |done]); split; try done;
    solve [intros _; by apply length_zero_empty | intros ->; discriminate].
Qed.

End Props.

(** ** Witnesses *)

Definition feb29 : Z := 1709164800000.

Lemma video_capacity_lost_witness :
  let acts := [VSetMeetingName "Standup"; VUserChange [bob_row]] in
  let st := mkVideo "Standup" [bob_row] (Some feb29) (Some 1) noErrors false in
  let m := mkMeeting None "U1" ["U2"] (Some 1) (m_format feb29) (MeetingId.generateMeetingID MeetingId.sample_draws)
             "Standup" VideoConference true in
  (runVideo [bob_row] (initVideo feb29) acts = Some st /\
   In (AddDoc m) (snd (clickCreate2 st MeetingId.sample_draws (Some "U1")))) /\
  ((v_anyoneCanJoin st = true -> maxUsers m = Some 100%Z) /\
   (~ In (VSetAnyoneCanJoin true) acts -> meetingType m = VideoConference /\ maxUsers m = Some 1%Z)).
Proof.
  cbv zeta.
  assert (Hr : runVideo [bob_row] (initVideo feb29) [VSetMeetingName "Standup"; VUserChange [bob_row]] =
               Some (mkVideo "Standup" [bob_row] (Some feb29) (Some 1) noErrors false)) by (vm_compute; reflexivity).
  assert (Hm : In (AddDoc (mkMeeting None "U1" ["U2"] (Some 1) (m_format feb29)
                   (MeetingId.generateMeetingID MeetingId.sample_draws) "Standup" VideoConference true))
                 (snd (clickCreate2 (mkVideo "Standup" [bob_row] (Some feb29) (Some 1) noErrors false)
                        MeetingId.sample_draws (Some "U1"))))
    by (vm_compute; right; left; reflexivity).
  split; [split; [exact Hr|exact Hm]|]. exact (video_capacity_lost _ _ _ _ _ _ _ Hr Hm).
Defined.

Lemma one_on_one_invites_other_witness :
  let acts := [OSetMeetingName "1:1"; OUserChange [bob_row]] in
  let st := mkOneOnOne "1:1" [bob_row] (Some feb29) noErrors in
  let m := mkMeeting None "U1" ["U2"] (Some 1) (m_format feb29) (MeetingId.generateMeetingID MeetingId.sample_draws)
             "1:1" OneOnOne true in
  (runOneOnOne (Users.fetchUsers [Users.bob_doc] (Some "U1")) (initOneOnOne feb29) acts = Some st /\
   In (AddDoc m) (snd (clickCreate1 st MeetingId.sample_draws (Some "U1")))) /\
  (createdBy m = "U1" /\
   exists u, invitedUsers m = [u] /\ u <> "U1" /\ exists d, In d [Users.bob_doc] /\ uid d = u).
Proof.
  cbv zeta.
  assert (Hr : runOneOnOne (Users.fetchUsers [Users.bob_doc] (Some "U1")) (initOneOnOne feb29)
                 [OSetMeetingName "1:1"; OUserChange [bob_row]] = Some (mkOneOnOne "1:1" [bob_row] (Some feb29) noErrors))
    by (vm_compute; reflexivity).
  assert (Hm : In (AddDoc (mkMeeting None "U1" ["U2"] (Some 1) (m_format feb29)
                   (MeetingId.generateMeetingID MeetingId.sample_draws) "1:1" OneOnOne true))
                 (snd (clickCreate1 (mkOneOnOne "1:1" [bob_row] (Some feb29) noErrors) MeetingId.sample_draws (Some "U1"))))
    by (vm_compute; right; left; reflexivity).
  split; [split; [exact Hr|exact Hm]|]. exact (one_on_one_invites_other _ _ _ _ _ _ _ Hr Hm).
Defined.

Lemma video_size_bounds_witness :
  let acts := [VSetMeetingName "Standup"; VUserChange [bob_row]] in
  let st := mkVideo "Standup" [bob_row] (Some feb29) (Some 1%Z) noErrors false in
  let m := mkMeeting None "U1" ["U2"] (Some 1%Z) (m_format feb29) (MeetingId.generateMeetingID MeetingId.sample_draws)
             "Standup" VideoConference true in
  (runVideo [bob_row] (initVideo feb29) acts = Some st /\
   In (AddDoc m) (snd (clickCreate2 st MeetingId.sample_draws (Some "U1"))) /\
   meetingType m = VideoConference /\ bob_row ∈ [bob_row]) /\
  (maxUsers m = v_size st /\ (forall n, maxUsers m = Some n -> (n <= 50)%Z) /\
   (exists st' m',
      runVideo [bob_row] (initVideo feb29) (sizeThenBack "-5" bob_row) = Some st' /\
      In (AddDoc m') (snd (clickCreate2 st' MeetingId.sample_draws (Some "U1"))) /\
      meetingType m' = VideoConference /\ maxUsers m' = onMaxUsersChange "-5") /\
   onMaxUsersChange "-5" = Some (-5)%Z /\ onMaxUsersChange ".5" = None).
Proof.
  cbv zeta.
  assert (Hr : runVideo [bob_row] (initVideo feb29) [VSetMeetingName "Standup"; VUserChange [bob_row]] =
               Some (mkVideo "Standup" [bob_row] (Some feb29) (Some 1%Z) noErrors false)) by (vm_compute; reflexivity).
  assert (Hm : In (AddDoc (mkMeeting None "U1" ["U2"] (Some 1%Z) (m_format feb29)
                    (MeetingId.generateMeetingID MeetingId.sample_draws) "Standup" VideoConference true))
                 (snd (clickCreate2 (mkVideo "Standup" [bob_row] (Some feb29) (Some 1%Z) noErrors false)
                    MeetingId.sample_draws (Some "U1")))) by (vm_compute; right; left; reflexivity).
  assert (Hu : bob_row ∈ [bob_row]) by constructor.
  split; [split_and!; [exact Hr|exact Hm|reflexivity|exact Hu]|].
  exact (video_size_bounds _ _ _ _ _ _ _ _ "-5" Hr Hm eq_refl Hu).
Defined.

End Views.
