(* ===== verification/EditView.v ===== *)
(** * The edit flyout as rendered: [components/EditFlyout.tsx], lines 138-205

    [EditMeeting] states which inputs an edit may use by the abstract
    guard [Edit.available].  Here the flyout is rendered from its state:
    a title, the name field, the size field or the user combo box, the
    date picker, the "Cancel Meeting" switch and the buttons.  The combo
    box offers the users [useFetchUsers] has loaded so far, so the
    flyout's page state also holds that list.  An input is offered when
    the field that takes it is rendered and accepts it.  The theorems
    show that the offered inputs are exactly the abstract guard
    restricted to the loaded users, that every run of the rendered
    flyout is a run of [Edit.runFlyout] under [Edit.available] (so
    [Edit.uiWrite]'s premise is met), and what a cleared date picker
    does to the three handlers that format it. *)

From stdpp Require Import relations.
From S2P Require Import Prelude Moment Types Spec MeetingId JoinMeeting Status Listing Forms Fields EditMeeting FormViews.

Open Scope string_scope.

Module EditView.
Import Forms Fields Edit.

(** What the flyout renders.  The title is the stored name
    ([meeting.meetingName]), not the one being typed. *)
Record FlyoutView := mkFlyoutView {
  fv_title : string;
  fv_name : TextField;
  fv_capacity : CapacityOrUsers;
  fv_date : DateField;
  fv_switchLabel : string;
  fv_switchChecked : bool;
  fv_buttons : Buttons;
}.

(** Lines 140-203.  [showErrors] is never set in the flyout, so the
    fields never show an error.  [singleSelection] is
    [{ asPlainText: true }] (truthy) for a one-on-one meeting. *)
Definition flyoutView (meeting : MeetingType) (st : Flyout) (users : list UserType) : FlyoutView :=
  mkFlyoutView (meetingName meeting)
    (meetingNameField "Meeting name" (meetingNameError noErrors) "Meeting name" (fl_meetingName st))
    (if fl_meetingType st === AnyoneCanJoin
     then SizeField (meetingMaximumUsersField (fl_size st))
     else UsersField (meetingUserField "Invite Users" (meetingUserError noErrors) users
                        (fl_selectedUser st) (Some (fl_meetingType st === OneOnOne)) false
                        "Select a Users"))
    (meetingDateField (fl_startDate st))
    "Cancel Meeting" (fl_status st) (createMeetingButtons true).

(** The inputs the rendered flyout accepts: [setSize] only while the size
    field is shown, [onUserChange] only while the combo box is, with a
    selection it can report.  The user list's effect runs whenever the
    hook delivers a list. *)
Definition flyoutOffers (v : FlyoutView) (a : FlyoutAction) : Prop :=
  match a, fv_capacity v with
  | SetSize _, SizeField _ => True
  | SetSize _, UsersField _ => False
  | OnUserChange sel, UsersField c => combo_accepts c sel
  | OnUserChange _, SizeField _ => False
  | _, _ => True
  end.

#[export] Instance flyoutOffers_dec v a : Decision (flyoutOffers v a).
Proof. unfold flyoutOffers. destruct a, (fv_capacity v); apply _. Defined.

(** The flyout's page state: the users loaded so far and the flyout's
    own state.  A [UsersLoaded] input also replaces the combo's options. *)
Definition editInput (meeting : MeetingType) (ls : list UserType * Flyout) (a : FlyoutAction)
    : list UserType * Flyout :=
  (match a with UsersLoaded users => users | _ => fst ls end, flyoutStep meeting (snd ls) a).

(** A sequence of inputs, each given to the flyout rendered at its
    time; [None] when one of them is not offered. *)
Fixpoint runEdit (meeting : MeetingType) (ls : list UserType * Flyout) (acts : list FlyoutAction)
    : option (list UserType * Flyout) :=
  match acts with
  | [] => Some ls
  | a :: acts' =>
      if decide (flyoutOffers (flyoutView meeting (snd ls) (fst ls)) a)
      then runEdit meeting (editInput meeting ls a) acts'
      else None
  end.

(** The flyout when it mounts: no user loaded yet. *)
Definition openFlyout `{MomentLib} (meeting : MeetingType) : list UserType * Flyout :=
  ([], initFlyout meeting).

(** ** Properties *)

Lemma flyoutStep_type m st a : fl_meetingType (flyoutStep m st a) = fl_meetingType st.
Proof. by destruct a. Qed.

(** An input is offered by the rendered flyout exactly when the
    abstract guard [Edit.available] allows it and, for a selection, the
    selected users are among those loaded. *)
Lemma flyoutOffers_iff m st users a : fl_meetingType st = meetingType m ->
  flyoutOffers (flyoutView m st users) a <->
  available m a /\ (forall sel, a = OnUserChange sel -> Forall (fun u => u ∈ users) sel).
Proof.
  intros Ht. unfold flyoutOffers, flyoutView, available, combo_accepts. cbn [fv_capacity].
  rewrite Ht. destruct a, (meetingType m); cbn; naive_solver.
Qed.

(** A run of the rendered flyout from any state of the meeting's type. *)
Lemma runEdit_steps m acts : forall ls ls',
  fl_meetingType (snd ls) = meetingType m -> runEdit m ls acts = Some ls' ->
  Forall (available m) acts /\ snd ls' = fold_left (flyoutStep m) acts (snd ls).
Proof.
  induction acts as [|a acts IH]; intros ls ls' Ht Hr; cbn in Hr; [by injection Hr as <-|].
  destruct (decide _) as [Ho|]; [|done].
  apply (flyoutOffers_iff m _ _ _ Ht) in Ho as [Ha _].
  destruct (IH (editInput m ls a) _ (eq_trans (flyoutStep_type m _ a) Ht) Hr) as [Hf Hs].
  split; [by constructor|exact Hs].
Qed.

Section Refinement.
Context `{M : MomentLib}.

(** C12.  Every run of the rendered flyout, from its mount, is a run
    of the abstract flyout whose inputs [Edit.available] allows: the
    premise under which [Edit.uiWrite] admits the edit.  So the
    invariants proved over [Edit.reachable] (cancellation is terminal,
    one-on-one meetings keep at most one invitee) hold for the edits the
    rendered flyout can make. *)
Theorem rendered_flyout_refines m acts ls :
  runEdit m (openFlyout m) acts = Some ls ->
  Forall (available m) acts /\ snd ls = runFlyout m acts /\
  editMeeting m (snd ls) = editMeeting m (runFlyout m acts).
Proof.
  intros Hr. destruct (runEdit_steps m acts (openFlyout m) _ eq_refl Hr) as [Ha Hs].
  by rewrite Hs.
Qed.

End Refinement.

Lemma runEdit_snoc m ls acts a :
  runEdit m ls (acts ++ [a]) =
  ls' ← runEdit m ls acts;
  if decide (flyoutOffers (flyoutView m (snd ls') (fst ls')) a) then Some (editInput m ls' a) else None.
Proof.
  revert ls. induction acts as [|b acts IH]; intros ls; cbn; [done|].
  destruct (decide _); [apply IH|done].
Qed.

(** ** A cleared date picker *)

(** The calls of a creation handler that reach the store or the user: a
    document, a toast or a navigation. *)
Definition visible (e : FormEffect) : bool :=
  match e with AddDoc _ | Ui _ => true | SetShowErrors _ | Rejected _ => false end.

Section ClearedDate.
Context `{M : MomentLib}.

(** A form with a name and the users it needs shows no error. *)
Lemma validateForm1_ok n sel : n <> "" -> sel <> [] -> validateForm1 n sel = (false, noErrors).
Proof.
  intros Hn Hs. unfold validateForm1, nameError.
  destruct (String.length n =? 0)%nat eqn:E; [by apply length_zero_empty in E|].
  by destruct sel.
Qed.

Lemma validateForm2_ok n sel any : n <> "" -> (sel <> [] \/ any = true) ->
  validateForm2 n sel any = (false, noErrors).
Proof.
  intros Hn Hs. unfold validateForm2, nameError.
  destruct (String.length n =? 0)%nat eqn:E; [by apply length_zero_empty in E|].
  destruct sel, any; naive_solver.
Qed.

(** The date picker is rendered in every state of the flyout: clearing
    it is always offered. *)
Lemma runEdit_clear m acts ls :
  runEdit m (openFlyout m) acts = Some ls ->
  runEdit m (openFlyout m) (acts ++ [SetStartDate None]) =
    Some (fst ls, flyoutStep m (snd ls) (SetStartDate None)).
Proof.
  intros Hr. rewrite runEdit_snoc, Hr. cbn -[flyoutView flyoutStep].
  by rewrite decide_True.
Qed.

(** C23.  Clearing the date picker's text leaves [null] in the date
    state, after which no Create or Edit Meeting click writes.  On a
    one-on-one page whose form is otherwise valid (a name and a selected
    user), and on a video conference page likewise (a name, and users or
    the switch on), the Create button shows no field in error and its
    handler throws a [TypeError] before [addDoc]: no document, no toast,
    no navigation; the same form with any date set writes.  In the edit
    flyout, clearing is offered after any inputs and then Edit Meeting
    throws before [updateDoc]. *)
Theorem cleared_date_blocks_writes users t0 acts1 st1 acts2 st2 rnd c m acts3 ls :
  Views.runOneOnOne users (Views.initOneOnOne t0) acts1 = Some st1 ->
  Views.o_startDate st1 = None -> Views.o_meetingName st1 <> "" -> Views.o_selectedUser st1 <> [] ->
  Views.runVideo users (Views.initVideo t0) acts2 = Some st2 ->
  Views.v_startDate st2 = None -> Views.v_meetingName st2 <> "" ->
  (Views.v_selectedUser st2 <> [] \/ Views.v_anyoneCanJoin st2 = true) ->
  runEdit m (openFlyout m) acts3 = Some ls ->
  snd (Views.clickCreate1 st1 rnd (Some c)) = [SetShowErrors noErrors; Rejected "TypeError"] /\
  (forall t, exists d, In (AddDoc d) (snd (Views.clickCreate1
      (Views.mkOneOnOne (Views.o_meetingName st1) (Views.o_selectedUser st1) (Some t) (Views.o_showErrors st1))
      rnd (Some c)))) /\
  snd (Views.clickCreate2 st2 rnd (Some c)) = [SetShowErrors noErrors; Rejected "TypeError"] /\
  (forall t, exists d, In (AddDoc d) (snd (Views.clickCreate2
      (Views.mkVideo (Views.v_meetingName st2) (Views.v_selectedUser st2) (Some t) (Views.v_size st2)
         (Views.v_showErrors st2) (Views.v_anyoneCanJoin st2)) rnd (Some c)))) /\
  exists ls', runEdit m (openFlyout m) (acts3 ++ [SetStartDate None]) = Some ls' /\
    fl_startDate (snd ls') = None /\ editMeeting m (snd ls') = [EditRejected "TypeError"].
Proof.
  intros _ Hd1 Hn1 Hs1 _ Hd2 Hn2 Hs2 Hr. unfold Views.clickCreate1, Views.clickCreate2, createMeeting1, createMeeting2.
  cbn [snd Views.o_meetingName Views.o_selectedUser Views.o_startDate
       Views.v_meetingName Views.v_selectedUser Views.v_startDate Views.v_size Views.v_anyoneCanJoin].
  rewrite (validateForm1_ok _ _ Hn1 Hs1), (validateForm2_ok _ _ _ Hn2 Hs2), Hd1, Hd2.
  destruct (Views.o_selectedUser st1) as [|u us]; [done|].
  split_and!; [done|intros t; eexists; by right; left|done|intros t; eexists; by right; left|].
  eexists. split; [exact (runEdit_clear m acts3 ls Hr)|]. split; reflexivity.
Qed.

End ClearedDate.

(** ** A tab of the My Meetings page *)

(** The page's state and the mounted flyout's, when [showEditFlyout]. *)
Record Tab := mkTab {
  tab_page : MyMeetingsPage;
  tab_flyout : option (list UserType * Flyout);
}.

Definition initTab : Tab := mkTab (mkPage [] false None) None.

(** What the user and the page's effects do: the mount effect's
    [getMyMeetings()], the Edit button of a row, an input of the
    flyout, its Edit Meeting button, and closing it (its Cancel button or
    [onClose], both [closeFlyout()]). *)
Inductive TabEvent :=
| Mount
| ClickEdit (row : MeetingType)
| Input (a : FlyoutAction)
| Submit
| Close.

Section Tab.
Context `{M : MomentLib}.

(** One event at instant [now] on the shared store; [None] when the
    event is not possible (a row not shown or disabled, an input the
    flyout does not offer, the table under the open flyout).  A
    rejected [updateDoc] (no such document) or a [TypeError] in
    [editMeeting] leaves everything as it was. *)
Definition tabStep (ui : UserInfo) (now : Z) (store : list MeetingDoc) (t : Tab) (ev : TabEvent)
    : option (list MeetingDoc * Tab) :=
  let pg := tab_page t in
  match ev, tab_flyout t, pg_editMeeting pg with
  | Mount, _, _ =>
      Some (store, mkTab (mkPage (getMyMeetings (Some ui) store (pg_meetings pg))
                                 (pg_showEditFlyout pg) (pg_editMeeting pg)) (tab_flyout t))
  | ClickEdit row, None, _ =>
      if bool_decide (row ∈ pg_meetings pg) && negb (Status.editDisabled row now)
      then Some (store, mkTab (openEditFlyout pg row) (Some (openFlyout row)))
      else None
  | Input a, Some ls, Some row =>
      if decide (flyoutOffers (flyoutView row (snd ls) (fst ls)) a)
      then Some (store, mkTab pg (Some (editInput row ls a)))
      else None
  | Submit, Some ls, Some row =>
      match editMeeting row (snd ls) with
      | UpdateDoc d data :: _ =>
          match updateDoc store d data with
          | Some store' => Some (store', mkTab (closeEditFlyout (Some ui) store' pg true) None)
          | None => Some (store, t)
          end
      | _ => Some (store, t)
      end
  | Close, Some _, _ => Some (store, mkTab (closeEditFlyout (Some ui) store pg false) None)
  | _, _, _ => None
  end.

(** Events of one tab, each at its instant. *)
Fixpoint runTab (ui : UserInfo) (store : list MeetingDoc) (t : Tab) (evs : list (Z * TabEvent))
    : option (list MeetingDoc * Tab) :=
  match evs with
  | [] => Some (store, t)
  | (now, ev) :: evs' =>
      match tabStep ui now store t ev with
      | Some (store', t') => runTab ui store' t' evs'
      | None => None
      end
  end.

(** Two tabs of the same user on one store: each event names its tab
    ([true] for the first). *)
Fixpoint runTabs (ui : UserInfo) (store : list MeetingDoc) (t1 t2 : Tab)
    (evs : list (bool * Z * TabEvent)) : option (list MeetingDoc * Tab * Tab) :=
  match evs with
  | [] => Some (store, t1, t2)
  | (first, now, ev) :: evs' =>
      match tabStep ui now store (if first then t1 else t2) ev with
      | Some (store', t') =>
          if first then runTabs ui store' t' t2 evs' else runTabs ui store' t1 t' evs'
      | None => None
      end
  end.

End Tab.

(** ** One tab refines [Edit.uiWrite] *)

(** What a tab keeps true of itself and the store: its rows are the
    store's rows of the user (or none yet); the flyout is mounted exactly
    when [showEditFlyout], on a row of the table whose Edit button was
    enabled, in a state the rendered flyout reached from its mount. *)
Definition tab_ok `{MomentLib} (ui : UserInfo) (store : list MeetingDoc) (t : Tab) : Prop :=
  (pg_meetings (tab_page t) = [] \/
   Listing.myMeetingsLoad (Some ui) store = Some (pg_meetings (tab_page t))) /\
  (pg_showEditFlyout (tab_page t) = true <-> is_Some (tab_flyout t)) /\
  match tab_flyout t with
  | None => True
  | Some ls =>
      exists row, pg_editMeeting (tab_page t) = Some row /\ row ∈ pg_meetings (tab_page t) /\
        (exists now, Status.editDisabled row now = false) /\
        exists acts, runEdit row (openFlyout row) acts = Some ls
  end.

(** A row of the user's table is a document of the user. *)
Lemma own_row ui store rows row :
  Listing.myMeetingsLoad (Some ui) store = Some rows -> In row rows ->
  exists x, In x store /\ row = Listing.withDocId x /\ createdBy (doc_data x) = ui_uid ui.
Proof.
  unfold Listing.myMeetingsLoad. remember (js_filter _ store) as own eqn:Hf.
  intros Hl. assert (rows = map Listing.withDocId own) as -> by (destruct own; congruence).
  intros (x & <- & Hx)%in_map_iff. subst own.
  apply js_filter_In in Hx as [Hx Hc]. exists x. split_and!; [done|done|]. js_bool. congruence.
Qed.

(** The query finds a document of the user. *)
Lemma load_some ui store x : In x store -> createdBy (doc_data x) = ui_uid ui ->
  is_Some (Listing.myMeetingsLoad (Some ui) store).
Proof.
  intros Hx Hc. unfold Listing.myMeetingsLoad.
  destruct (js_filter _ store) eqn:E; [|done].
  assert (In x (js_filter (fun d => Some (createdBy (doc_data d)) === Some (ui_uid ui)) store))
    as Hin by (apply js_filter_In; split; [done|by rewrite Hc, js_eq_refl]).
  by rewrite E in Hin.
Qed.

Lemma updateDoc_written store d data store' :
  updateDoc store d data = Some store' -> In (mkDoc d data) store'.
Proof.
  unfold updateDoc. destruct existsb eqn:E; [|done]. intros [= <-].
  apply existsb_exists in E as (x & Hx & Hd). apply String.eqb_eq in Hd.
  apply in_map_iff. exists x. by rewrite Hd, String.eqb_refl.
Qed.

Section TabProps.
Context `{M : MomentLib}.

Local Ltac tab_simpl :=
  cbn [tab_page tab_flyout pg_meetings pg_showEditFlyout pg_editMeeting openEditFlyout
       closeEditFlyout] in *.

(** Under [tab_ok], re-reading the table changes nothing once rows are
    shown. *)
Lemma getMyMeetings_same ui store rows :
  (rows = [] \/ Listing.myMeetingsLoad (Some ui) store = Some rows) -> rows <> [] ->
  getMyMeetings (Some ui) store rows = rows.
Proof. unfold getMyMeetings. intros [-> | ->] ?; done. Qed.

Lemma getMyMeetings_ok ui store rows :
  let rows' := getMyMeetings (Some ui) store rows in
  (rows = [] \/ Listing.myMeetingsLoad (Some ui) store = Some rows) ->
  rows' = [] \/ Listing.myMeetingsLoad (Some ui) store = Some rows'.
Proof.
  cbn zeta. unfold getMyMeetings. destruct (Listing.myMeetingsLoad _ _) eqn:E; [by right|].
  intros [->|?]; [by left|done].
Qed.

(** The Edit Meeting button of a flyout opened on a row of the current
    table writes through [Edit.uiWrite], and the table it re-reads is
    the new store's. *)
Lemma submit_uiWrite ui store rows row now0 acts ls d data store' :
  Listing.myMeetingsLoad (Some ui) store = Some rows -> row ∈ rows ->
  Status.editDisabled row now0 = false -> runEdit row (openFlyout row) acts = Some ls ->
  head (editMeeting row (snd ls)) = Some (UpdateDoc d data) ->
  updateDoc store d data = Some store' ->
  uiWrite store store' /\ is_Some (Listing.myMeetingsLoad (Some ui) store').
Proof.
  intros Hl Hrow Hdis Hr Hh Hu. apply list_elem_of_In in Hrow.
  destruct (rendered_flyout_refines row acts ls Hr) as (Ha & Hs & _).
  assert (Hin : In (UpdateDoc d data) (editMeeting row (runFlyout row acts)))
    by (rewrite <- Hs; destruct (editMeeting row (snd ls)); [done|injection Hh as ->; left; done]).
  split; [exact (write_edit store ui rows row now0 acts d data store' Hl Hrow Hdis Ha Hin Hu)|].
  destruct (own_row _ _ _ _ Hl Hrow) as (x & _ & -> & Hc).
  apply editMeeting_update in Hin as [_ (? & _ & Hdata)%editedMeeting_some].
  apply (load_some ui store' (mkDoc d data)); [exact (updateDoc_written _ _ _ _ Hu)|].
  rewrite Hdata. exact Hc.
Qed.

(** Every event of a tab keeps [tab_ok], and changes the store only by
    a write of [Edit.uiWrite]. *)
Lemma tabStep_ok ui now store t ev store' t' :
  tab_ok ui store t -> tabStep ui now store t ev = Some (store', t') ->
  tab_ok ui store' t' /\ (store' = store \/ uiWrite store store').
Proof.
  destruct t as [[rows show em] fl]. intros Hok. pose proof Hok as (Hrows & Hshow & Hfl).
  unfold tabStep, tab_ok in *. tab_simpl. destruct ev as [|row|a| |].
  - intros [= <- <-]. split; [|by left]. tab_simpl. split_and!; [by apply getMyMeetings_ok|done|].
    destruct fl as [ls|]; [|done]. destruct Hfl as (row & Hem & Hrow & Hrest).
    exists row. rewrite getMyMeetings_same; [done|done|].
    intros ->. exact (not_elem_of_nil _ Hrow).
  - destruct fl as [ls|]; [done|]. destruct (bool_decide _ && _) eqn:E; [|done].
    intros [= <- <-]. apply andb_prop in E as [Hin Hdis%negb_true_iff].
    apply bool_decide_eq_true in Hin. split; [|by left]. tab_simpl.
    split_and!; [done|by split|]. exists row. split_and!; [done|done|by exists now|by exists []].
  - destruct fl as [ls|], em as [row|]; try done. destruct (decide _) as [Ho|]; [|done].
    intros [= <- <-]. split; [|by left]. tab_simpl. split_and!; [done|split; [done|intros _; apply Hshow; by eexists]|].
    destruct Hfl as (? & [= <-] & Hrow & Hnow & acts & Hr). exists row.
    split_and!; [done|done|done|]. exists (acts ++ [a])%list.
    rewrite runEdit_snoc, Hr. cbn -[flyoutOffers flyoutView]. by rewrite decide_True.
  - destruct fl as [ls|], em as [row|]; try done.
    destruct Hfl as (? & [= <-] & Hrow & [now0 Hdis] & acts & Hr).
    destruct (editMeeting row (snd ls)) as [|[d data| | |] effs] eqn:Ee;
      try (intros [= <- <-]; split; [exact Hok|by left]).
    destruct (updateDoc store d data) as [store1|] eqn:Hu;
      [|intros [= <- <-]; split; [exact Hok|by left]].
    intros [= <- <-].
    destruct Hrows as [->|Hl]; [exfalso; exact (not_elem_of_nil _ Hrow)|].
    destruct (submit_uiWrite ui store rows row now0 acts ls d data store1 Hl Hrow Hdis Hr)
      as [Hw [l Hl']]; [by rewrite Ee|exact Hu|].
    split; [|by right]. tab_simpl. unfold getMyMeetings. rewrite Hl'.
    split_and!; [by right|split; [done|by intros []]|done].
  - destruct fl as [ls|]; [|done]. intros [= <- <-]. split; [|by left]. tab_simpl.
    split_and!; [exact Hrows|split; [done|by intros []]|done].
Qed.

(** One event of the tab: the store stays, or takes one step of
    [Edit.uiWrite]. *)
Definition storeStep (s s' : list MeetingDoc) : Prop := s' = s \/ uiWrite s s'.

Lemma runTab_steps ui evs : forall store t store' t',
  tab_ok ui store t -> runTab ui store t evs = Some (store', t') -> rtc storeStep store store'.
Proof.
  induction evs as [|[now ev] evs IH]; intros store t store' t' Hok Hr; cbn in Hr.
  - injection Hr as <- _. apply rtc_refl.
  - destruct (tabStep ui now store t ev) as [[s1 t1]|] eqn:E; [|done].
    destruct (tabStep_ok _ _ _ _ _ _ _ Hok E) as [Hok1 Hs].
    apply (rtc_l _ _ s1); [exact Hs|exact (IH _ _ _ _ Hok1 Hr)].
Qed.

Lemma storeSteps_reachable s s' : rtc storeStep s s' -> reachable s -> reachable s'.
Proof.
  induction 1 as [|s1 s2 s3 [->|Hw] _ IH]; intros Hreach; [done|by apply IH|].
  apply IH. exact (reachable_write _ _ Hreach Hw).
Qed.

(** C5.  One tab of the My Meetings page refines [Edit.uiWrite] event by
    event: driven by any sequence of events (mounting, the Edit buttons
    of the rows it shows while enabled, the inputs its flyout renders,
    Edit Meeting and closing the flyout), each event leaves the store as
    it was or performs one [uiWrite] step, an edit of an enabled row of
    the store's current table.  So a reachable store stays reachable,
    and cancellation stays terminal and one-on-one meetings keep at most
    one invitee under it. *)
Theorem single_tab_refines ui store evs store' t' :
  runTab ui store initTab evs = Some (store', t') ->
  rtc storeStep store store' /\ (reachable store -> reachable store').
Proof.
  intros Hr. assert (Hs : rtc storeStep store store').
  { apply (runTab_steps ui evs store initTab store' t'); [|exact Hr].
    split_and!; [by left|split; [done|by intros []]|done]. }
  split; [exact Hs|exact (storeSteps_reachable _ _ Hs)].
Qed.

End TabProps.

(** ** Two tabs *)

Section StaleTab.
Import Join.

Lemma w_reachable1 : reachable w_s1.
Proof. apply (reachable_write []); [constructor|apply (w_create [] "d1"); by_eval]. Qed.

(** Tab 2 loads the table and cancels the meeting; tab 1, which loaded
    the table before, then edits its stale row without touching the
    switch. *)
Definition cancel_in_tab2 : list (bool * Z * TabEvent) :=
  [(true, feb29_10h, Mount); (false, feb29_10h, Mount);
   (false, feb29_10h, ClickEdit w_row); (false, feb29_10h, Input (UsersLoaded [bob_row]));
   (false, feb29_10h, Input (SetStatus true)); (false, feb29_10h, Submit)].

Definition edit_in_tab1 : list (bool * Z * TabEvent) :=
  [(true, feb29_10h, ClickEdit w_row); (true, feb29_10h, Input (UsersLoaded [bob_row]));
   (true, feb29_10h, Submit)].

(** C11.  Cancellation is not terminal across two tabs of the same
    user: the table of a tab is read when it mounts and after its own
    edits only, so a tab that loaded a meeting before another tab
    cancelled it still shows it active with its Edit button enabled,
    and saving its flyout writes [status: !false], re-activating the
    meeting. *)
Theorem stale_tab_reactivates :
  reachable w_s1 /\
  exists store1 store2 t1 t2 t1' t2',
    runTabs alice_info w_s1 initTab initTab cancel_in_tab2 = Some (store1, t1, t2) /\
    map (fun x => (doc_id x, status (doc_data x))) store1 = [("d1", false)] /\
    runTabs alice_info store1 t1 t2 edit_in_tab1 = Some (store2, t1', t2') /\
    map (fun x => (doc_id x, status (doc_data x))) store2 = [("d1", true)].
Proof.
  split; [exact w_reachable1|].
  do 6 eexists. split_and!; [vm_compute; reflexivity|vm_compute; reflexivity
                            |vm_compute; reflexivity|vm_compute; reflexivity].
Qed.

End StaleTab.

(** ** Witnesses *)

Section Witnesses.
Import Join.

Definition w_flyout_acts : list FlyoutAction :=
  [UsersLoaded [bob_row]; OnUserChange [bob_row]; SetStatus true].

Lemma rendered_flyout_refines_witness :
  runEdit w_m1 (openFlyout w_m1) w_flyout_acts = Some ([bob_row], runFlyout w_m1 w_flyout_acts) /\
  (Forall (available w_m1) w_flyout_acts /\ runFlyout w_m1 w_flyout_acts = runFlyout w_m1 w_flyout_acts /\
   editMeeting w_m1 (runFlyout w_m1 w_flyout_acts) = editMeeting w_m1 (runFlyout w_m1 w_flyout_acts)).
Proof.
  assert (Hr : runEdit w_m1 (openFlyout w_m1) w_flyout_acts = Some ([bob_row], runFlyout w_m1 w_flyout_acts))
    by (vm_compute; reflexivity).
  split; [exact Hr|exact (rendered_flyout_refines w_m1 w_flyout_acts _ Hr)].
Defined.

Definition w_tab_session : list (Z * TabEvent) :=
  [(feb29_10h, Mount); (feb29_10h, ClickEdit w_row); (feb29_10h, Input (UsersLoaded [bob_row]));
   (feb29_10h, Input (SetMeetingName "Review (moved)")); (feb29_10h, Submit)].

Definition w_tab_result : list MeetingDoc * Tab :=
  Eval vm_compute in default ([], initTab) (runTab alice_info w_s1 initTab w_tab_session).
Definition w_tab_store : list MeetingDoc := fst w_tab_result.
Definition w_tab_end : Tab := snd w_tab_result.

Lemma single_tab_refines_witness :
  runTab alice_info w_s1 initTab w_tab_session = Some (w_tab_store, w_tab_end) /\
  (rtc storeStep w_s1 w_tab_store /\ (reachable w_s1 -> reachable w_tab_store)).
Proof.
  assert (E : runTab alice_info w_s1 initTab w_tab_session = Some (w_tab_store, w_tab_end))
    by (vm_compute; reflexivity).
  split; [exact E|exact (single_tab_refines alice_info w_s1 w_tab_session _ _ E)].
Defined.

Definition w_cleared1 : list Views.OneOnOneInput :=
  [Views.OSetMeetingName "1:1"; Views.OUserChange [bob_row]; Views.OSetStartDate None].
Definition w_cleared2 : list Views.VideoInput :=
  [Views.VSetMeetingName "Standup"; Views.VUserChange [bob_row]; Views.VSetStartDate None].
Definition w_page1 : Views.OneOnOneState := Views.mkOneOnOne "1:1" [bob_row] None noErrors.
Definition w_page2 : Views.VideoState := Views.mkVideo "Standup" [bob_row] None (Some 1) noErrors false.

Lemma cleared_date_blocks_writes_witness :
  (Views.runOneOnOne [bob_row] (Views.initOneOnOne feb29) w_cleared1 = Some w_page1 /\
   Views.o_startDate w_page1 = None /\ Views.o_meetingName w_page1 <> "" /\ Views.o_selectedUser w_page1 <> [] /\
   Views.runVideo [bob_row] (Views.initVideo feb29) w_cleared2 = Some w_page2 /\
   Views.v_startDate w_page2 = None /\ Views.v_meetingName w_page2 <> "" /\
   (Views.v_selectedUser w_page2 <> [] \/ Views.v_anyoneCanJoin w_page2 = true) /\
   runEdit w_m1 (openFlyout w_m1) w_flyout_acts = Some ([bob_row], runFlyout w_m1 w_flyout_acts)) /\
  (snd (Views.clickCreate1 w_page1 MeetingId.sample_draws (Some "U1")) = [SetShowErrors noErrors; Rejected "TypeError"] /\
   (forall t, exists d, In (AddDoc d) (snd (Views.clickCreate1
      (Views.mkOneOnOne (Views.o_meetingName w_page1) (Views.o_selectedUser w_page1) (Some t) (Views.o_showErrors w_page1))
      MeetingId.sample_draws (Some "U1")))) /\
   snd (Views.clickCreate2 w_page2 MeetingId.sample_draws (Some "U1")) = [SetShowErrors noErrors; Rejected "TypeError"] /\
   (forall t, exists d, In (AddDoc d) (snd (Views.clickCreate2
      (Views.mkVideo (Views.v_meetingName w_page2) (Views.v_selectedUser w_page2) (Some t) (Views.v_size w_page2)
         (Views.v_showErrors w_page2) (Views.v_anyoneCanJoin w_page2)) MeetingId.sample_draws (Some "U1")))) /\
   exists ls', runEdit w_m1 (openFlyout w_m1) (w_flyout_acts ++ [SetStartDate None]) = Some ls' /\
     fl_startDate (snd ls') = None /\ editMeeting w_m1 (snd ls') = [EditRejected "TypeError"]).
Proof.
  assert (H1 : Views.runOneOnOne [bob_row] (Views.initOneOnOne feb29) w_cleared1 = Some w_page1)
    by (vm_compute; reflexivity).
  assert (H2 : Views.runVideo [bob_row] (Views.initVideo feb29) w_cleared2 = Some w_page2)
    by (vm_compute; reflexivity).
  assert (H3 : runEdit w_m1 (openFlyout w_m1) w_flyout_acts = Some ([bob_row], runFlyout w_m1 w_flyout_acts))
    by (vm_compute; reflexivity).
  assert (Hd1 : Views.o_startDate w_page1 = None) by reflexivity.
  assert (Hn1 : Views.o_meetingName w_page1 <> "") by discriminate.
  assert (Hs1 : Views.o_selectedUser w_page1 <> []) by discriminate.
  assert (Hd2 : Views.v_startDate w_page2 = None) by reflexivity.
  assert (Hn2 : Views.v_meetingName w_page2 <> "") by discriminate.
  assert (Hs2 : Views.v_selectedUser w_page2 <> [] \/ Views.v_anyoneCanJoin w_page2 = true) by (left; discriminate).
  split; [split_and!; assumption|].
  exact (cleared_date_blocks_writes _ _ _ _ _ _ _ _ _ _ _ H1 Hd1 Hn1 Hs1 H2 Hd2 Hn2 Hs2 H3).
Defined.

End Witnesses.

End EditView.
