(* ===== verification/Tables.v ===== *)
(** * The two meeting tables

    [pages/MyMeetings.tsx] and [pages/Meeting.tsx] render their meetings
    with [EuiBasicTable].  Both have the columns name, type, date, status
    and copy link; My Meetings adds the edit button and the edit flyout.
    A row is the list of its cells.  The theorem shows that every row of
    My Meetings appears, with the same cells, in the Meetings table: the
    two status renderers compute the same badge, and the [docId] tag does
    not show. *)

From S2P Require Import Prelude Moment Types Spec JoinMeeting Status Listing Navigation EditMeeting.

Open Scope string_scope.

Module Tables.
Import Status.

(** The [meetingType] field as stored and shown ([utils/types.ts]). *)
Definition joinTypeString (t : MeetingJoinType) : string :=
  match t with
  | AnyoneCanJoin => "anyone-can-join"
  | VideoConference => "video-conference"
  | OneOnOne => "1-on-1"
  end.

(** The cells both tables share. *)
Record Cells := mkCells {
  c_name : string;
  c_type : string;
  c_date : string;
  c_status : option Badge;
  c_copy : string;
}.

Section Render.
Context `{M : MomentLib}.

(** [Meeting.tsx], [meetingColumns] (lines 95-161) on one meeting;
    [host] is [process.env.REACT_APP_HOST]. *)
Definition meetingsRow (host : string) (now : Z) (m : MeetingType) : Cells :=
  mkCells (meetingName m) (joinTypeString (meetingType m)) (meetingDate m)
    (statusRenderAll m now) (Nav.copyLink host (meetingId m)).

(** [Meeting.tsx]'s [EuiBasicTable] (lines 169-187). *)
Definition meetingsTable (host : string) (now : Z) (meetings : list MeetingType) : list Cells :=
  map (meetingsRow host now) meetings.

(** [MyMeetings.tsx], [meetingColumns] (lines 112-205): the cells and
    whether the edit button is disabled. *)
Definition myMeetingsRow (host : string) (now : Z) (m : MeetingType) : Cells * bool :=
  (mkCells (meetingName m) (joinTypeString (meetingType m)) (meetingDate m)
     (statusRender m now) (Nav.copyLink host (meetingId m)),
   editDisabled m now).

Definition myMeetingsTable (host : string) (now : Z) (meetings : list MeetingType) : list (Cells * bool) :=
  map (myMeetingsRow host now) meetings.

End Render.

(** [{showEditFlyout && <EditFlyout meeting={editMeeting!} />}]
    (lines 223-227 of [MyMeetings.tsx]). *)
Definition renderFlyout (pg : Edit.MyMeetingsPage) : option (option MeetingType) :=
  if Edit.pg_showEditFlyout pg then Some (Edit.pg_editMeeting pg) else None.

Section Props.
Context `{M : MomentLib}.

Lemma statusRender_same m now : statusRender m now = statusRenderAll m now.
Proof. reflexivity. Qed.

Lemma row_withDocId host now d :
  fst (myMeetingsRow host now (Listing.withDocId d)) = meetingsRow host now (doc_data d).
Proof. destruct d as [i [? ? ? ? ? ? ? ? ?]]. reflexivity. Qed.

(** C26.  Every row of the My Meetings table
    appears, with the same name, type, date, status badge and copy
    link, in the Meetings table of the same viewer and store: the
    creator always passes the Meetings page's filter. *)
Theorem my_rows_in_meetings_table host now ui store mine all :
  Listing.myMeetingsLoad (Some ui) store = Some mine ->
  Listing.meetingsPageLoad (Some ui) store = Some all ->
  Forall (fun row => In (fst row) (meetingsTable host now all)) (myMeetingsTable host now mine).
Proof.
  intros Hmine Hall. apply Forall_forall. intros row Hrow.
  apply in_map_iff in Hrow as (r & <- & Hr).
  destruct (Edit.row_of_store _ _ _ _ Hmine Hr) as (d & Hd & ->).
  assert (Hc : createdBy (doc_data d) = ui_uid ui).
  { unfold Listing.myMeetingsLoad in Hmine. remember (js_filter _ store) as own eqn:Hf.
    assert (mine = map Listing.withDocId own) as -> by (destruct own; congruence).
    apply in_map_iff in Hr as (d' & Hw & Hd'). subst own.
    apply js_filter_In in Hd' as [_ Hc]. js_bool.
    pose proof (f_equal createdBy Hw) as Hw'. cbn in Hw'. congruence. }
  rewrite row_withDocId. apply in_map.
  unfold Listing.meetingsPageLoad in Hall. rewrite Listing.collectShown_filter, app_nil_l in Hall.
  destruct (length store =? 0)%nat; [done|]. injection Hall as <-.
  apply in_map_iff. exists d. split; [done|]. apply js_filter_In. split; [done|].
  unfold Listing.shown. by rewrite Hc, js_eq_refl.
Qed.

End Props.

Lemma my_rows_in_meetings_table_witness :
  let ui := mkUserInfo "U1" (Some "alice@example.com") (Some "Alice") in
  let mine := map Listing.withDocId (take 2 Listing.sample_store) in
  let all := map doc_data Listing.sample_store in
  (Listing.myMeetingsLoad (Some ui) Listing.sample_store = Some mine /\
   Listing.meetingsPageLoad (Some ui) Listing.sample_store = Some all) /\
  Forall (fun row => In (fst row) (meetingsTable "https://zoom.example" Join.feb29_10h all))
    (myMeetingsTable "https://zoom.example" Join.feb29_10h mine).
Proof.
  cbv zeta.
  assert (H1 : Listing.myMeetingsLoad (Some (mkUserInfo "U1" (Some "alice@example.com") (Some "Alice")))
                 Listing.sample_store = Some (map Listing.withDocId (take 2 Listing.sample_store)))
    by (vm_compute; reflexivity).
  assert (H2 : Listing.meetingsPageLoad (Some (mkUserInfo "U1" (Some "alice@example.com") (Some "Alice")))
                 Listing.sample_store = Some (map doc_data Listing.sample_store))
    by (vm_compute; reflexivity).
  split; [split; [exact H1|exact H2]|]. exact (my_rows_in_meetings_table _ _ _ _ _ _ H1 H2).
Defined.

End Tables.
