(* ===== verification/App.v ===== *)
(** * The pages together: one application state

    The pages do not call each other.  They write the [meetings] and
    [users] collections, dispatch to the Redux store (the [auth] slice
    and the toast queue of the [meetings] slice, which [App.tsx]
    renders) and move the router.  This file interprets, on one
    application state holding all of these:
    - the calls a creation handler makes ([Forms.FormEffect], with the
      [Spec.Effect]s inside): [applyForm], [applyUi];
    - the calls of the session code ([Auth.SessionEffect]):
      [applySession];
    - the route guard: the page the router shows for a location, the
      listener it registers ([useAuth]'s or [Login]'s), and the
      navigation that listener makes, followed until a page stays
      ([settle]);
    - the login page ([Login.tsx]): its view and its button.
    The theorems follow a one-on-one meeting from the creator's page to
    the invitee's Meetings and join pages, show that the redirects stop
    and guard the pages, and follow a sign-in from the button to the
    other users' combo boxes. *)

From S2P Require Import Prelude Moment Types Spec MeetingId JoinMeeting Listing Toasts Forms Fields Session Navigation FormViews.

Open Scope string_scope.

Module App.
Import Forms.

(** The shared state: the [meetings] and [users] collections, the
    Redux store of [app/store.ts] (its [auth] and [meetings] slices)
    and the router's location. *)
Record AppState := mkApp {
  app_store : list MeetingDoc;
  app_users : list UserType;
  app_auth : Auth.AuthState;
  app_slice : Toasts.MeetingsState;
  app_path : string;
}.

(** One call of a page: [createToast] dispatches the array with the new
    toast, [navigate] moves the router; [setIsAllowed] is the join
    page's own state. *)
Definition applyUi (now : Z) (st : AppState) (e : Spec.Effect) : AppState :=
  match e with
  | Spec.CreateToast title type =>
      mkApp (app_store st) (app_users st) (app_auth st) (Toasts.step (app_slice st) (Toasts.Create now title type))
        (app_path st)
  | Spec.Navigate path => mkApp (app_store st) (app_users st) (app_auth st) (app_slice st) path
  | Spec.SetIsAllowed _ => st
  end.

(** The calls of a creation handler, in order, at instant [now]:
    [addDoc] stores the document under the identifier Firestore picks,
    [i]; a rejected call ends the handler; [setShowErrors] is the page's
    own state. *)
Fixpoint applyForm (now : Z) (i : string) (st : AppState) (effs : list FormEffect) : AppState :=
  match effs with
  | [] => st
  | SetShowErrors _ :: effs' => applyForm now i st effs'
  | AddDoc m :: effs' =>
      applyForm now i (mkApp (app_store st ++ [mkDoc i m]) (app_users st) (app_auth st) (app_slice st) (app_path st)) effs'
  | Rejected _ :: _ => st
  | Ui e :: effs' => applyForm now i (applyUi now st e) effs'
  end.

(** The calls of the session code ([Auth.SessionEffect]), in order:
    [addDoc] appends to [users], [setUser] is the auth reducer,
    [navigate] moves the router. *)
Fixpoint applySession (st : AppState) (effs : list Auth.SessionEffect) : AppState :=
  match effs with
  | [] => st
  | Auth.DispatchSetUser p :: effs' =>
      applySession (mkApp (app_store st) (app_users st) (Auth.setUser p (app_auth st)) (app_slice st) (app_path st)) effs'
  | Auth.GoTo path :: effs' =>
      applySession (mkApp (app_store st) (app_users st) (app_auth st) (app_slice st) path) effs'
  | Auth.AddUserDoc d :: effs' =>
      applySession (mkApp (app_store st) (app_users st ++ [d]) (app_auth st) (app_slice st) (app_path st)) effs'
  end.

(** The pages that call [useAuth()] on render: all but [Login] and
    [JoinMeeting] ([Dashboard.tsx] line 28, [CreateMeeting.tsx] 25,
    [OneOnOneMeeting.tsx] 39, [VideoConference.tsx] 45,
    [MyMeetings.tsx] 42, [Meeting.tsx] 44). *)
Definition usesAuth (p : Nav.Page) : bool :=
  match p with
  | Nav.LoginPage | Nav.JoinMeetingPage _ => false
  | _ => true
  end.

(** The calls the auth listener of the page mounted at a location makes
    once Firebase reports the account [currentUser]: [useAuth]'s
    callback, or [Login]'s ([JoinMeeting] keeps the account in its own
    state). *)
Definition mountEffects (p : Nav.Page) (currentUser : option AuthUser) : list Auth.SessionEffect :=
  if usesAuth p then Auth.useAuthCallback currentUser
  else match p with
       | Nav.LoginPage => Auth.loginPageCallback currentUser
       | _ => []
       end.

(** Mount the page the router shows, run its listener, and follow the
    navigation it makes until a page stays: [None] when [fuel] mounts do
    not reach a page that stays. *)
Fixpoint settle (fuel : nat) (currentUser : option AuthUser) (st : AppState) : option AppState :=
  match fuel with
  | O => None
  | S fuel' =>
      let st' := applySession st (mountEffects (Nav.route (app_path st)) currentUser) in
      if String.eqb (app_path st') (app_path st) then Some st' else settle fuel' currentUser st'
  end.

(** [Login]'s page ([Login.tsx] lines 66-98): the colour mode, the
    heading and the button. *)
Record LoginView := mkLoginView {
  lv_colorMode : string;
  lv_heading : list string;
  lv_button : string;
}.

Definition loginView : LoginView :=
  mkLoginView "dark" ["One Platform to"; " connect"] "Login with Google".

(** The button's [login] ([Login.tsx] lines 43-65): [signInWithPopup]
    gives the account, or rejects when the popup is closed ([None]) and
    the handler ends; then the query reads [users] and the calls run. *)
Definition loginClick (st : AppState) (popup : option AuthUser) : AppState :=
  match popup with
  | None => st
  | Some u => applySession st (Users.login (app_users st) u)
  end.

(** The uid the pages read from the slice
    ([useAppSelector((zoomApp) => zoomApp.auth.userInfo?.uid)]). *)
Definition sliceUid (st : AppState) : option string := ui_uid <$> Auth.userInfo (app_auth st).

(** [OneOnOneMeeting]'s hooks (lines 38-43): the combo box offers
    [useFetchUsers]' list, read from [users] for the slice's uid. *)
Definition pageUsers (st : AppState) : list UserType := Users.fetchUsers (app_users st) (sliceUid st).

(** The one-on-one page's Create click on the application state: the
    handler reads the slice's uid and its calls run on the state. *)
Definition createOneOnOne `{MomentLib} (now : Z) (i : string) (st : AppState) (pg : Views.OneOnOneState)
    (rnd : nat -> Z) : AppState :=
  applyForm now i st (snd (Views.clickCreate1 pg rnd (sliceUid st))).

(** ** Lemmas *)

(** The whole call list of a one-on-one creation that writes. *)
Lemma createMeeting1_calls `{MomentLib} rnd uid name sel t m :
  In (AddDoc m) (createMeeting1 rnd uid name sel t) ->
  createMeeting1 rnd uid name sel t =
  [SetShowErrors (snd (validateForm1 name sel)); AddDoc m;
   Ui (Spec.CreateToast "One on One Meeting Created Successfully" (Some Success)); Ui (Spec.Navigate "/")].
Proof.
  intros Hm. pose proof Hm as (Hn & u & us & c & d & -> & -> & -> & ->)%createMeeting1_doc.
  unfold createMeeting1. pose proof (validateForm1_errors name (u :: us)) as He.
  destruct (validateForm1 name (u :: us)) as [errors se]. cbn [fst snd] in *. subst errors.
  destruct (String.length name =? 0)%nat eqn:En; [by apply length_zero_empty in En|]. reflexivity.
Qed.

(** A generated identifier is never empty. *)
Lemma generateMeetingID_nonempty rnd : MeetingId.valid_draws rnd -> MeetingId.generateMeetingID rnd <> "".
Proof.
  intros Hv E. destruct (MeetingId.forLoop_shape rnd 8 0 "" Hv eq_refl) as [Hl _].
  unfold MeetingId.generateMeetingID in E. rewrite E in Hl. discriminate.
Qed.

(** The join page decides on a document appended after documents of
    other identifiers. *)
Lemma getMeetingData_appended `{MomentLib} pid user store d now :
  pid <> "" -> Forall (fun d' => meetingId (doc_data d') <> pid) store -> meetingId (doc_data d) = pid ->
  Join.getMeetingData (Some pid) true user (store ++ [d]) now = Join.joinDecision (doc_data d) user now.
Proof.
  intros Hp Hpre Hd. unfold Join.getMeetingData. rewrite (bool_decide_eq_false_2 _ Hp). cbn [orb negb].
  unfold js_filter. rewrite filter_app.
  rewrite (js_filter_all_false _ store);
    [|eapply Forall_impl; [|exact Hpre]; intros d' Hd'; by apply bool_decide_eq_false_2].
  cbn. by rewrite (bool_decide_eq_true_2 _ Hd).
Qed.

(** A one-on-one meeting is shown to its invitee. *)
Lemma shown_invitee u m : invitedUsers m = [u] -> Listing.shown (Some u) m = true.
Proof.
  intros Hi. unfold Listing.shown. rewrite Hi.
  destruct (_ === _); [done|]. destruct (_ === _); [done|].
  unfold findIndex. cbn. by rewrite js_eq_refl.
Qed.

(** The Meetings page of any viewer lists a document the viewer is
    shown. *)
Lemma meetingsPageLoad_lists vi store d :
  In d store -> Listing.shown (Some (ui_uid vi)) (doc_data d) = true ->
  exists l, Listing.meetingsPageLoad (Some vi) store = Some l /\ In (doc_data d) l.
Proof.
  intros Hd Hs. unfold Listing.meetingsPageLoad.
  destruct (length store =? 0)%nat eqn:E; [apply Nat.eqb_eq, length_zero_iff_nil in E; by subst|].
  eexists. split; [reflexivity|]. rewrite Listing.collectShown_filter, app_nil_l.
  apply in_map_iff. exists d. split; [done|]. by apply js_filter_In.
Qed.

(** What the session calls leave of the state: the collections and
    the slices as [Users.applyUsers] and [Auth.applyAuth] make them. *)
Lemma applySession_parts st effs :
  app_store (applySession st effs) = app_store st /\
  app_users (applySession st effs) = Users.applyUsers (app_users st) effs /\
  app_auth (applySession st effs) = Auth.applyAuth (app_auth st) effs /\
  app_slice (applySession st effs) = app_slice st.
Proof.
  unfold Users.applyUsers, Auth.applyAuth. revert st.
  induction effs as [|[p|path|d] effs IH]; intros st; cbn [applySession Users.added omap fold_left].
  { by rewrite app_nil_r. }
  all: match goal with |- context [applySession ?s _] => destruct (IH s) as (-> & -> & -> & ->) end.
  all: cbn [app_store app_users app_auth app_slice]; split_and!; try done.
  by rewrite <- app_assoc.
Qed.

Lemma route_login : Nav.route "/login" = Nav.LoginPage.
Proof. vm_compute. reflexivity. Qed.

Lemma route_root : Nav.route "/" = Nav.DashboardPage.
Proof. vm_compute. reflexivity. Qed.

Local Ltac settle_simpl :=
  cbn [settle applySession mountEffects usesAuth Auth.useAuthCallback Auth.loginPageCallback
       app_store app_users app_auth app_slice app_path] in *.

(** A navigation away from the mounted page goes to a path the router
    does not map to that page. *)
Lemma path_moved path path0 :
  Nav.route path <> Nav.route path0 -> String.eqb path path0 = false.
Proof. intros Hr. apply String.eqb_neq. intros E. apply Hr. by rewrite E. Qed.

(** Where the redirects end: a signed-out visitor of a page that calls
    [useAuth] lands on ["/login"], a signed-in visitor of the login page
    on ["/"], and every other mount stays; only the slice's [userInfo]
    changes, set by [useAuth] for a signed-in visitor. *)
Lemma settle_result n cu st :
  settle (S (S n)) cu st =
  Some (let p := Nav.route (app_path st) in
        match cu with
        | None => if usesAuth p then mkApp (app_store st) (app_users st) (app_auth st) (app_slice st) "/login"
                  else st
        | Some u =>
            let a := Auth.setUser (mkUserInfo (au_uid u) (au_email u) (au_displayName u)) (app_auth st) in
            if usesAuth p then mkApp (app_store st) (app_users st) a (app_slice st) (app_path st)
            else match p with
                 | Nav.LoginPage => mkApp (app_store st) (app_users st) a (app_slice st) "/"
                 | _ => st
                 end
        end).
Proof.
  destruct st as [ms us a sl path]. cbv zeta. settle_simpl.
  destruct (Nav.route path) eqn:Hp; destruct cu as [u|]; settle_simpl;
    first [ by rewrite String.eqb_refl
          | rewrite (path_moved "/login" path) by (rewrite route_login, Hp; discriminate);
            settle_simpl; rewrite route_login; settle_simpl; by rewrite String.eqb_refl
          | rewrite (path_moved "/" path) by (rewrite route_root, Hp; discriminate);
            settle_simpl; rewrite route_root; settle_simpl; by rewrite String.eqb_refl ].
Qed.

(** A query that finds no document of [x] means no document of [x]. *)
Lemma usersWithUid_nil users x d :
  Users.usersWithUid users x = [] -> In d users -> Types.uid d <> x.
Proof.
  intros Hn Hd Hx. assert (In d (Users.usersWithUid users x)) as Hin; [|by rewrite Hn in Hin].
  apply js_filter_In. split; [done|]. by apply bool_decide_eq_true_2.
Qed.

(** [useFetchUsers] offers a registered user to every other signed-in
    user. *)
Lemma fetchUsers_offers users me d :
  truthy (Some me) = true -> In d users -> Types.uid d <> me ->
  exists v, In v (Users.fetchUsers users (Some me)) /\ Types.uid v = Types.uid d.
Proof.
  intros Ht Hd Hne. unfold Users.fetchUsers. rewrite Ht.
  eexists. split; [apply in_map_iff; exists d; split; [reflexivity|]|reflexivity].
  apply js_filter_In. split; [done|]. apply negb_true_iff. by apply bool_decide_eq_false_2.
Qed.

(** C14.  The route guard: once the redirects stop, a visitor without an
    account is on the login page or a join page, with the auth slice
    untouched; a signed-in visitor is never left on the login page, and
    on any page but a join page the slice holds the account.  No
    collection and no toast changes. *)
Theorem route_guard cu st :
  exists st', settle 2 cu st = Some st' /\
    app_store st' = app_store st /\ app_users st' = app_users st /\ app_slice st' = app_slice st /\
    match cu with
    | None => (Nav.route (app_path st') = Nav.LoginPage \/
               exists id, Nav.route (app_path st') = Nav.JoinMeetingPage id) /\
              app_auth st' = app_auth st
    | Some u => Nav.route (app_path st') <> Nav.LoginPage /\
        ((forall id, Nav.route (app_path st') <> Nav.JoinMeetingPage id) ->
         Auth.userInfo (app_auth st') = Some (mkUserInfo (au_uid u) (au_email u) (au_displayName u)))
    end.
Proof.
  eexists. split; [apply (settle_result 0)|]. cbv zeta.
  destruct cu as [u|]; destruct (Nav.route (app_path st)) eqn:Hp;
    cbn [usesAuth app_path app_store app_users app_auth app_slice];
    rewrite ?route_login, ?route_root, ?Hp; split_and!; eauto; try discriminate.
  intros Hj. by destruct (Hj id).
Qed.

(** C15.  Signing in from the login page with a Google account that has
    an email and no [users] document: the click adds exactly the
    account's document, stores the account in the slice and goes to
    ["/"], where the dashboard stays; every other signed-in user is then
    offered the account; a second click adds nothing. *)
Theorem login_end_to_end st u :
  truthy (au_email u) = true -> Users.usersWithUid (app_users st) (au_uid u) = [] ->
  let st1 := loginClick st (Some u) in
  app_users st1 = (app_users st ++ [mkUser (default "" (au_email u)) (au_displayName u) (au_uid u) None])%list /\
  Auth.userInfo (app_auth st1) = Some (mkUserInfo (au_uid u) (au_email u) (au_displayName u)) /\
  app_path st1 = "/" /\ app_store st1 = app_store st /\
  settle 2 (Some u) st1 = Some st1 /\
  app_users (loginClick st1 (Some u)) = app_users st1 /\
  (forall me, me <> au_uid u -> truthy (Some me) = true ->
     exists v, In v (Users.fetchUsers (app_users st1) (Some me)) /\ Types.uid v = au_uid u).
Proof.
  intros Ht Hn. cbv zeta. unfold loginClick.
  destruct (applySession_parts st (Users.login (app_users st) u)) as (Hs & Hu & Ha & _).
  assert (Hl : Users.login (app_users st) u =
               [Auth.AddUserDoc (mkUser (default "" (au_email u)) (au_displayName u) (au_uid u) None);
                Auth.DispatchSetUser (mkUserInfo (au_uid u) (au_email u) (au_displayName u)); Auth.GoTo "/"])
    by (unfold Users.login, Users.loginWith; by rewrite Ht, Hn).
  rewrite Hl in Hu, Ha |- *. cbn [applySession app_store app_users app_auth app_slice app_path] in *.
  split_and!; try done.
  - match goal with |- app_users (applySession ?s ?e) = _ =>
      destruct (applySession_parts s e) as (_ & -> & _) end.
    cbn [app_users]. rewrite <- Hl in Hu. rewrite Hu. apply Users.login_idempotent.
  - intros me Hme Htm. apply (fetchUsers_offers _ _ (mkUser (default "" (au_email u)) (au_displayName u) (au_uid u) None));
      [done|apply in_app_iff; right; by left|done].
Qed.

(** C21.  A Google account without an email is never registered, yet
    enters the application: the button's [login] does nothing, but the
    login page's own listener sends the signed-in account to ["/"],
    where [useAuth] stores it in the slice.  No [users] document is
    written, so when the account had none, [useFetchUsers] offers it to
    nobody and it can never be invited. *)
Theorem login_without_email_enters st u :
  truthy (au_email u) = false -> Nav.route (app_path st) = Nav.LoginPage ->
  loginClick st (Some u) = st /\
  exists st', settle 2 (Some u) (loginClick st (Some u)) = Some st' /\ app_path st' = "/" /\
    Auth.userInfo (app_auth st') = Some (mkUserInfo (au_uid u) (au_email u) (au_displayName u)) /\
    app_users st' = app_users st /\
    (Users.usersWithUid (app_users st) (au_uid u) = [] ->
     forall me v, In v (Users.fetchUsers (app_users st') me) -> Types.uid v <> au_uid u).
Proof.
  intros Ht Hp. assert (Hc : loginClick st (Some u) = st)
    by (cbn [loginClick]; unfold Users.login, Users.loginWith; by rewrite Ht).
  rewrite Hc. split; [done|]. eexists. split; [apply (settle_result 0)|]. cbv zeta. rewrite Hp.
  cbn [usesAuth app_path app_users app_auth Auth.userInfo Auth.setUser]. split_and!; try done.
  intros Hn me v (d0 & Hd0 & _ & ->)%Users.fetchUsers_other. by apply (usersWithUid_nil _ _ _ Hn).
Qed.

Section EndToEnd.
Context `{M : MomentLib} `{!MomentLaws M}.
Import Calendar.

(** C13.  A one-on-one meeting created through the page by a signed-in
    user, with identifier draws that collide with no stored meeting,
    ends up as the last document of the collection; the page leaves for
    the dashboard with the success toast at the end of the queue.  It
    invites one registered user other than the creator; that user's
    Meetings page lists it, and that user's join page opens the room on
    the picked day. *)
Theorem one_on_one_end_to_end st0 ui t0 acts pg rnd i now m :
  Auth.userInfo (app_auth st0) = Some ui ->
  Views.runOneOnOne (pageUsers st0) (Views.initOneOnOne t0) acts = Some pg ->
  In (AddDoc m) (snd (Views.clickCreate1 pg rnd (sliceUid st0))) ->
  MeetingId.valid_draws rnd ->
  Forall (fun d => meetingId (doc_data d) <> meetingId m) (app_store st0) ->
  let st1 := createOneOnOne now i st0 pg rnd in
  app_store st1 = (app_store st0 ++ [mkDoc i m])%list /\
  app_users st1 = app_users st0 /\ app_auth st1 = app_auth st0 /\ app_path st1 = "/" /\
  Toasts.toasts (app_slice st1) =
    (Toasts.toasts (app_slice st0) ++
     [mkToast (Iso.toISOString now) "One on One Meeting Created Successfully" (Some Success)])%list /\
  exists u, invitedUsers m = [u] /\ u <> ui_uid ui /\
    (exists d, In d (app_users st0) /\ Types.uid d = u) /\
    (forall vi, ui_uid vi = u ->
       exists l, Listing.meetingsPageLoad (Some vi) (app_store st1) = Some l /\ In m l) /\
    (forall v t now', au_uid v = u -> Views.o_startDate pg = Some t -> in_range t ->
       in_range now' -> day_of t = day_of now' ->
       Join.getMeetingData (Some (meetingId m)) true (Some v) (app_store st1) now' =
         [Spec.SetIsAllowed true]).
Proof.
  intros Hui. unfold createOneOnOne, pageUsers.
  replace (sliceUid st0) with (Some (ui_uid ui)) by (unfold sliceUid; by rewrite Hui).
  intros Hr Hm Hv Hfresh. cbn zeta. cbn [Views.clickCreate1 snd] in *.
  rewrite (createMeeting1_calls _ _ _ _ _ _ Hm). cbn [applyForm applyUi app_store app_auth app_slice app_path].
  split_and!; [done|done|done|done|done|].
  apply createMeeting1_doc in Hm as (_ & u & us & c & d & Hsel & [= <-] & Hdate & Hmeq).
  destruct (Views.runOneOnOne_selected _ _ _ _ Hr (Forall_nil_2 _) (le_0_n _)) as [Hf _].
  rewrite Hsel in Hf. apply Forall_cons_iff in Hf as [Hu _].
  apply list_elem_of_In, Users.fetchUsers_other in Hu as (d0 & Hd0 & Hne & Heq).
  exists (Types.uid u). split_and!; [by rewrite Hmeq|congruence|by exists d0| |].
  - intros vi Hvi. apply (meetingsPageLoad_lists vi _ (mkDoc i m)); [apply in_app_iff; by right; left|].
    rewrite Hvi. apply shown_invitee. by rewrite Hmeq.
  - intros v t now' Hvu Ht Htr Hnr Hday. rewrite Hdate in Ht. injection Ht as <-.
    rewrite getMeetingData_appended; [|rewrite Hmeq; by apply generateMeetingID_nonempty|exact Hfresh|done].
    cbn [doc_data]. rewrite (Join.joinDecision_eligible _ v d now'); [|by rewrite Hmeq|by rewrite Hmeq|done|].
    + by rewrite Hday, Z.ltb_irrefl.
    + rewrite Hmeq, Hvu. unfold Spec.eligible. cbn. by rewrite js_eq_refl, orb_true_r.
Qed.

End EndToEnd.

(** ** Witness *)

Section Witness.
Import Join Calendar.

Definition w_page : Views.OneOnOneState := Views.mkOneOnOne "1:1" [bob_row] (Some feb29) Fields.noErrors.
Definition w_meeting : MeetingType :=
  mkMeeting None "U1" ["U2"] (Some 1) (m_format feb29) (MeetingId.generateMeetingID MeetingId.sample_draws)
    "1:1" OneOnOne true.
Definition w_alice : UserInfo := mkUserInfo "U1" (Some "alice@example.com") (Some "Alice").
Definition w_app : AppState :=
  mkApp [] [Users.bob_doc] (Auth.setUser w_alice Auth.initialState) Toasts.initialState "/create".

Lemma one_on_one_end_to_end_witness :
  (Auth.userInfo (app_auth w_app) = Some w_alice /\
   Views.runOneOnOne (pageUsers w_app) (Views.initOneOnOne feb29)
     [Views.OSetMeetingName "1:1"; Views.OUserChange [bob_row]] = Some w_page /\
   In (AddDoc w_meeting) (snd (Views.clickCreate1 w_page MeetingId.sample_draws (sliceUid w_app))) /\
   MeetingId.valid_draws MeetingId.sample_draws /\
   Forall (fun d => meetingId (doc_data d) <> meetingId w_meeting) (app_store w_app)) /\
  (let st1 := createOneOnOne feb29_10h "d1" w_app w_page MeetingId.sample_draws in
   app_store st1 = (app_store w_app ++ [mkDoc "d1" w_meeting])%list /\
   app_users st1 = app_users w_app /\ app_auth st1 = app_auth w_app /\ app_path st1 = "/" /\
   Toasts.toasts (app_slice st1) =
     (Toasts.toasts (app_slice w_app) ++
      [mkToast (Iso.toISOString feb29_10h) "One on One Meeting Created Successfully" (Some Success)])%list /\
   exists u, invitedUsers w_meeting = [u] /\ u <> ui_uid w_alice /\
     (exists d, In d (app_users w_app) /\ Types.uid d = u) /\
     (forall vi, ui_uid vi = u ->
        exists l, Listing.meetingsPageLoad (Some vi) (app_store st1) = Some l /\ In w_meeting l) /\
     (forall v t now', au_uid v = u -> Views.o_startDate w_page = Some t -> in_range t ->
        in_range now' -> day_of t = day_of now' ->
        Join.getMeetingData (Some (meetingId w_meeting)) true (Some v) (app_store st1) now' =
          [Spec.SetIsAllowed true])).
Proof.
  assert (Hr : Views.runOneOnOne (pageUsers w_app) (Views.initOneOnOne feb29)
                 [Views.OSetMeetingName "1:1"; Views.OUserChange [bob_row]] = Some w_page)
    by (vm_compute; reflexivity).
  assert (Hm : In (AddDoc w_meeting) (snd (Views.clickCreate1 w_page MeetingId.sample_draws (sliceUid w_app))))
    by (vm_compute; right; left; reflexivity).
  assert (Hf : Forall (fun d => meetingId (doc_data d) <> meetingId w_meeting) (app_store w_app))
    by constructor.
  split; [split_and!; [reflexivity|exact Hr|exact Hm|exact MeetingId.sample_draws_valid|exact Hf]|].
  exact (one_on_one_end_to_end w_app w_alice _ _ _ _ "d1" feb29_10h _ eq_refl Hr Hm MeetingId.sample_draws_valid Hf).
Defined.

Definition w_login : AppState := mkApp [] [Users.bob_doc] Auth.initialState Toasts.initialState "/login".
Definition w_noemail : AuthUser := mkAuthUser "U4" None (Some "Dan").

Lemma login_end_to_end_witness :
  (truthy (au_email Users.carol_account) = true /\
   Users.usersWithUid (app_users w_login) (au_uid Users.carol_account) = []) /\
  (let u := Users.carol_account in
   let st1 := loginClick w_login (Some u) in
   app_users st1 = (app_users w_login ++ [mkUser (default "" (au_email u)) (au_displayName u) (au_uid u) None])%list /\
   Auth.userInfo (app_auth st1) = Some (mkUserInfo (au_uid u) (au_email u) (au_displayName u)) /\
   app_path st1 = "/" /\ app_store st1 = app_store w_login /\
   settle 2 (Some u) st1 = Some st1 /\
   app_users (loginClick st1 (Some u)) = app_users st1 /\
   (forall me, me <> au_uid u -> truthy (Some me) = true ->
      exists v, In v (Users.fetchUsers (app_users st1) (Some me)) /\ Types.uid v = au_uid u)).
Proof. witness (login_end_to_end w_login Users.carol_account). Defined.

Lemma login_without_email_enters_witness :
  (truthy (au_email w_noemail) = false /\ Nav.route (app_path w_login) = Nav.LoginPage) /\
  (loginClick w_login (Some w_noemail) = w_login /\
   exists st', settle 2 (Some w_noemail) (loginClick w_login (Some w_noemail)) = Some st' /\ app_path st' = "/" /\
     Auth.userInfo (app_auth st') = Some (mkUserInfo (au_uid w_noemail) (au_email w_noemail) (au_displayName w_noemail)) /\
     app_users st' = app_users w_login /\
     (Users.usersWithUid (app_users w_login) (au_uid w_noemail) = [] ->
      forall me v, In v (Users.fetchUsers (app_users st') me) -> Types.uid v <> au_uid w_noemail)).
Proof. witness (login_without_email_enters w_login w_noemail). Defined.

End Witness.

End App.
