(* ===== verification/JoinPage.v ===== *)
(** * The join page as a component: [pages/JoinMeeting.tsx]

    [JoinMeeting] keeps three pieces of state ([isAllowed], [user],
    [userLoaded]).  It registers an [onAuthStateChanged] listener on
    every render, and runs [getMeetingData] in an effect that depends on
    [userLoaded] only.  It renders the room container when [isAllowed]
    and an empty fragment otherwise.  This file puts that component on
    the application state of [App]: the page's own state takes the
    [setIsAllowed] calls, and the toasts and navigations of
    [getMeetingData] reach the store and the router through
    [App.applyUi].  The theorem shows that the check runs once per
    mount, on the first account Firebase reports, whatever it reports
    afterwards. *)

From S2P Require Import Prelude Moment Types Spec JoinMeeting App.

Open Scope string_scope.

Module JoinPage.
Import Spec Join.

(** Lines 21-23: the component's state. *)
Record JoinState := mkJoin {
  isAllowed : bool;
  user : option AuthUser;
  userLoaded : bool;
}.

Definition initJoin : JoinState := mkJoin false None false.

Section Page.
Context `{M : MomentLib}.

(** The calls of [getMeetingData], in order: [setIsAllowed] sets the
    page's state, the other calls go to the application. *)
Fixpoint applyJoin (now : Z) (pg : JoinState) (st : App.AppState) (effs : list Effect)
    : JoinState * App.AppState :=
  match effs with
  | [] => (pg, st)
  | SetIsAllowed b :: effs' => applyJoin now (mkJoin b (user pg) (userLoaded pg)) st effs'
  | e :: effs' => applyJoin now pg (App.applyUi now st e) effs'
  end.

(** Lines 33-95: the effect, with the state of the render it runs
    after. *)
Definition joinEffect (paramsId : option string) (now : Z) (pg : JoinState) (st : App.AppState)
    : JoinState * App.AppState :=
  applyJoin now pg st (getMeetingData paramsId (userLoaded pg) (user pg) (App.app_store st) now).

(** The first render and its effect, [userLoaded] still [false]. *)
Definition joinMount (paramsId : option string) (now : Z) (st : App.AppState) : JoinState * App.AppState :=
  joinEffect paramsId now initJoin st.

(** Lines 25-30: the listener reports [currentUser]; the effect runs
    again only when [userLoaded] changed (its dependency list is
    [[userLoaded]]). *)
Definition joinReport (paramsId : option string) (now : Z) (currentUser : option AuthUser)
    (ps : JoinState * App.AppState) : JoinState * App.AppState :=
  let '(pg, st) := ps in
  let '(user', loaded') := joinAuthCallback currentUser (user pg) in
  let pg' := mkJoin (isAllowed pg) user' loaded' in
  if Bool.eqb loaded' (userLoaded pg) then (pg', st) else joinEffect paramsId now pg' st.

Definition runReports (paramsId : option string) (now : Z) (reports : list (option AuthUser))
    (ps : JoinState * App.AppState) : JoinState * App.AppState :=
  fold_left (fun ps c => joinReport paramsId now c ps) reports ps.

(** Lines 133-148: the room container is rendered exactly when
    [isAllowed]. *)
Definition rendersRoom (pg : JoinState) : bool := isAllowed pg.

(** ** Lemmas *)

(** The decision either opens the room and does nothing else, or never
    calls [setIsAllowed]. *)
Lemma joinDecision_shape m u now :
  joinDecision m u now = [SetIsAllowed true] \/
  Forall (fun e => forall b, e <> SetIsAllowed b) (joinDecision m u now).
Proof.
  unfold joinDecision. repeat case_match; auto; right; repeat constructor; discriminate.
Qed.

Lemma getMeetingData_shape pid loaded u store now :
  getMeetingData pid loaded u store now = [SetIsAllowed true] \/
  Forall (fun e => forall b, e <> SetIsAllowed b) (getMeetingData pid loaded u store now).
Proof. unfold getMeetingData. repeat case_match; auto using joinDecision_shape. Qed.

(** The application sees the calls as [App.applyUi] does:
    [setIsAllowed] leaves it alone. *)
Lemma applyJoin_app now pg st effs :
  snd (applyJoin now pg st effs) = fold_left (App.applyUi now) effs st.
Proof. revert pg st. induction effs as [|[b|t ty|p] effs IH]; intros pg st; cbn; auto. Qed.

(** Without a [setIsAllowed] call the page keeps its [isAllowed]. *)
Lemma applyJoin_keeps now pg st effs :
  Forall (fun e => forall b, e <> SetIsAllowed b) effs -> isAllowed (fst (applyJoin now pg st effs)) = isAllowed pg.
Proof.
  revert pg st. induction effs as [|e effs IH]; intros pg st Hf; [done|].
  apply Forall_cons_iff in Hf as [He Hf]. destruct e as [b|t ty|p]; [by destruct (He b)|apply IH, Hf..].
Qed.

(** [setIsAllowed] is the only call that changes the page's state. *)
Lemma applyJoin_loaded now pg st effs :
  user (fst (applyJoin now pg st effs)) = user pg /\ userLoaded (fst (applyJoin now pg st effs)) = userLoaded pg.
Proof. revert pg st. induction effs as [|[b|t ty|p] effs IH]; intros pg st; cbn; [done|exact (IH _ _)..]. Qed.

(** The first report: the effect runs with the reported account. *)
Lemma joinReport_first pid now cu st :
  joinReport pid now cu (initJoin, st) =
  applyJoin now (mkJoin false cu true) st (getMeetingData pid true cu (App.app_store st) now).
Proof. by destruct cu. Qed.

(** A report after the first changes at most the [user] state. *)
Lemma joinReport_loaded pid now c pg st :
  userLoaded pg = true ->
  exists u', joinReport pid now c (pg, st) = (mkJoin (isAllowed pg) u' true, st).
Proof. intros Hl. cbn. rewrite Hl. eexists. reflexivity. Qed.

Lemma runReports_loaded pid now reports pg st :
  userLoaded pg = true ->
  exists pg', runReports pid now reports (pg, st) = (pg', st) /\
              isAllowed pg' = isAllowed pg /\ userLoaded pg' = true.
Proof.
  unfold runReports. revert pg. induction reports as [|c reports IH]; intros pg Hl; [by exists pg|].
  destruct (joinReport_loaded pid now c pg st Hl) as [u' Hr]. cbn [fold_left].
  rewrite Hr. destruct (IH (mkJoin (isAllowed pg) u' true) eq_refl) as (pg' & -> & Ha & Hl').
  by exists pg'.
Qed.

(** ** Theorem *)

(** C22.  The join check runs once per page mount.  The mount's effect
    does nothing, as the auth state has not loaded.  The first report of
    Firebase runs [getMeetingData] with the reported account.  The room
    is rendered exactly when that run calls [setIsAllowed(true)], and
    its toasts and navigations reach the store and the router in order.
    Any later report, another account or a sign-out included, changes
    neither the room nor the application. *)
Theorem join_page_once pid now cu st reports :
  let ps := joinReport pid now cu (joinMount pid now st) in
  let effs := getMeetingData pid true cu (App.app_store st) now in
  joinMount pid now st = (initJoin, st) /\
  (rendersRoom (fst ps) = true <-> In (SetIsAllowed true) effs) /\
  snd ps = fold_left (App.applyUi now) effs st /\
  rendersRoom (fst (runReports pid now reports ps)) = rendersRoom (fst ps) /\
  snd (runReports pid now reports ps) = snd ps.
Proof.
  cbv zeta. assert (Hm : joinMount pid now st = (initJoin, st))
    by (unfold joinMount, joinEffect, getMeetingData; cbn; destruct pid; [rewrite orb_true_r|]; done).
  rewrite Hm, joinReport_first.
  pose proof (applyJoin_app now (mkJoin false cu true) st (getMeetingData pid true cu (App.app_store st) now))
    as Happ.
  pose proof (applyJoin_loaded now (mkJoin false cu true) st (getMeetingData pid true cu (App.app_store st) now))
    as [_ Hl].
  destruct (getMeetingData_shape pid true cu (App.app_store st) now) as [E|E].
  - rewrite E in Happ, Hl |- *. cbn in *.
    destruct (runReports_loaded pid now reports (mkJoin true cu true) st eq_refl) as (pg' & -> & Ha & _).
    split_and!; [done|split; [by left|done]|done|done|done].
  - pose proof (applyJoin_keeps now (mkJoin false cu true) st _ E) as Hk.
    destruct (applyJoin now (mkJoin false cu true) st _) as [pg st1]. cbn [fst snd] in *.
    destruct (runReports_loaded pid now reports pg st1 Hl) as (pg' & -> & Ha & _).
    unfold rendersRoom. cbn [fst snd]. rewrite Ha, Hk. split_and!; [done| |done|done|done].
    split; [done|]. intros Hin. by destruct (proj1 (Forall_forall _ _) E _ Hin true).
Qed.

End Page.

End JoinPage.
